(** * CV-to-portfolio pipeline: response extraction, model gateway,
      analysis, page generation and orchestration

    A shallow embedding of the Python sources

      - [src/utils/parsers.py]                  ([ResponseParser])
      - [src/models/cv_data.py]                 ([CVData] and its parts)
      - [src/interfaces/llm_service.py]         ([LLMConfig], [LLMResponse], [ILLMService])
      - [src/services/ollama_service.py]        ([OllamaService])
      - [src/services/deepseek_analyzer.py]     ([DeepSeekAnalyzer])
      - [src/services/qwen_portfolio_generator.py] ([QwenPortfolioGenerator])
      - [src/pipeline/cv_portfolio_pipeline.py] ([CVPortfolioPipeline])

    followed by the properties of the specification, stated and proved
    over that embedding. *)

From Stdlib Require Import String Ascii.
From Stdlib Require Import List NArith ZArith QArith Lia Bool.
From Stdlib Require Import SpecFloat.
Import ListNotations.
Close Scope Q_scope.

Set Implicit Arguments.

(* ===================================================================== *)
(** * Python strings *)
(* ===================================================================== *)

(** A Python [str] is a sequence of Unicode code points. *)
Definition char := N.
Definition str := list char.

Fixpoint py (s : string) : str :=
  match s with
  | EmptyString => []
  | String a s' => N_of_ascii a :: py s'
  end.

(** The double quote cannot be written inside a literal here, so literals
    that need one write [~] in its place; none of the literals of the
    sources contains a tilde. *)
Definition dquote : char := 34%N.
Definition tilde : char := 126%N.
Definition unq (c : char) : char := if N.eqb c tilde then dquote else c.
Definition pyq (s : string) : str := map unq (py s).

Fixpoint str_eqb (a b : str) : bool :=
  match a, b with
  | [], [] => true
  | x :: a', y :: b' => N.eqb x y && str_eqb a' b'
  | _, _ => false
  end.

(** [s.startswith(p)] *)
Fixpoint starts_with (p s : str) : bool :=
  match p, s with
  | [], _ => true
  | a :: p', b :: s' => N.eqb a b && starts_with p' s'
  | _ :: _, [] => false
  end.

(** [sub in s] *)
Fixpoint contains (sub s : str) : bool :=
  starts_with sub s ||
  match s with
  | [] => false
  | _ :: s' => contains sub s'
  end.

(** [s.replace(old, new)] for a non-empty [old]: every non-overlapping
    occurrence, leftmost first.  [skip] counts the characters of an
    occurrence that is being stepped over. *)
Fixpoint replace_go (old new : str) (skip : nat) (s : str) : str :=
  match s with
  | [] => []
  | c :: s' =>
      match skip with
      | S k => replace_go old new k s'
      | O =>
          if starts_with old s
          then new ++ replace_go old new (length old - 1) s'
          else c :: replace_go old new 0 s'
      end
  end.

Definition replace (old new s : str) : str := replace_go old new 0 s.

(** [str.isspace] on one code point ([Py_UNICODE_ISSPACE]); the regular
    expression class [\s] on [str] patterns is the same set. *)
Definition is_space (c : char) : bool :=
  ((9 <=? c) && (c <=? 13) || (28 <=? c) && (c <=? 32)
   || (c =? 133) || (c =? 160) || (c =? 5760)
   || (8192 <=? c) && (c <=? 8202)
   || (c =? 8232) || (c =? 8233) || (c =? 8239) || (c =? 8287)
   || (c =? 12288))%N.

Fixpoint lstrip (s : str) : str :=
  match s with
  | [] => []
  | c :: s' => if is_space c then lstrip s' else s
  end.

Definition rstrip (s : str) : str := rev (lstrip (rev s)).

(** [s.strip()] *)
Definition strip (s : str) : str := rstrip (lstrip s).

(** [s.lower()].  The ASCII capitals, and the two other code points whose
    lower case contains an ASCII letter (U+0130, U+212A), are mapped as
    Unicode does; every other code point lowers to code points outside
    ASCII, which no comparison in the sources can tell apart from the code
    point itself, and is left in place. *)
Definition lower_char (c : char) : str :=
  (if (65 <=? c) && (c <=? 90) then [c + 32]
   else if c =? 304 then [105; 775]
   else if c =? 8490 then [107]
   else [c])%N.

Definition lower (s : str) : str := flat_map lower_char s.

(** [s[a:b]] for [0 <= a <= b] *)
Definition slice (s : str) (a b : nat) : str := firstn (b - a) (skipn a s).

(* ===================================================================== *)
(** * The fragment of [re] used by the parsers *)
(* ===================================================================== *)

(** The five patterns of [parsers.py] are sequences of literals, one
    optional literal, greedy and lazy repetitions of a character class, and
    at most one capturing group.  The matcher below is the backtracking
    matcher of [re] on that fragment: alternatives are tried in the order
    [re] tries them and the first complete match wins. *)

Inductive cclass :=
| AnyChar    (** [[\s\S]], and [.] under [re.DOTALL] *)
| Space.     (** [\s] *)

Inductive atom :=
| Lit (l : str)           (** literal text *)
| OptLit (l : str)        (** [(?:l)?] *)
| Star (c : cclass)       (** [c*], greedy *)
| LazyStar (c : cclass)   (** [c*?], lazy *)
| Mark.                   (** start or end of the capturing group *)

Definition regex := list atom.

Definition in_class (c : cclass) (ch : char) : bool :=
  match c with
  | AnyChar => true
  | Space => is_space ch
  end.

(** Case folding of [re.IGNORECASE]. A literal of a pattern matches a
    character whose simple lower case is the lower case of the literal. The
    literals of the two patterns compiled with that flag are ASCII, and
    the only code points outside ASCII that lower to an ASCII letter lower
    to [i] and [k], which occur in neither pattern; folding the ASCII
    capitals is therefore all that these patterns can observe. *)
Definition fold_case (c : char) : char :=
  (if (65 <=? c) && (c <=? 90) then c + 32 else c)%N.

Definition char_match (ic : bool) (p c : char) : bool :=
  if ic then N.eqb (fold_case p) (fold_case c) else N.eqb p c.

(** Match the literal [l] at the head of [s]; the rest of [s] on success. *)
Fixpoint lit_match (ic : bool) (l s : str) : option str :=
  match l, s with
  | [], _ => Some s
  | p :: l', c :: s' => if char_match ic p c then lit_match ic l' s' else None
  | _ :: _, [] => None
  end.

Section Repetition.
Variable R : Type.
Variable c : cclass.
(** the rest of the pattern, as a function of the remaining input and of
    the number of characters consumed so far *)
Variable k : str -> nat -> option R.

Fixpoint star_greedy (s : str) (n : nat) : option R :=
    match s with
    | ch :: s' =>
        if in_class c ch
        then match star_greedy s' (S n) with
             | Some r => Some r
             | None => k s n
             end
        else k s n
    | [] => k s n
    end.

Fixpoint star_lazy (s : str) (n : nat) : option R :=
    match k s n with
    | Some r => Some r
    | None =>
        match s with
        | ch :: s' => if in_class c ch then star_lazy s' (S n) else None
        | [] => None
        end
    end.
End Repetition.

(** [mt ic p s n]: match [p] at the head of [s], which starts at offset [n]
    of the subject; on success the offsets of the marks, in order, and the
    offset of the end of the match. *)
Fixpoint mt (ic : bool) (p : regex) (s : str) (n : nat) : option (list nat * nat) :=
  match p with
  | [] => Some ([], n)
  | a :: p' =>
      match a with
      | Lit l =>
          match lit_match ic l s with
          | Some s' => mt ic p' s' (n + length l)
          | None => None
          end
      | OptLit l =>
          match lit_match ic l s with
          | Some s' =>
              match mt ic p' s' (n + length l) with
              | Some r => Some r
              | None => mt ic p' s n
              end
          | None => mt ic p' s n
          end
      | Star c => star_greedy c (mt ic p') s n
      | LazyStar c => star_lazy c (mt ic p') s n
      | Mark =>
          match mt ic p' s n with
          | Some (ms, e) => Some (n :: ms, e)
          | None => None
          end
      end
  end.

(** A match: where it starts, the marks, where it ends. *)
Record rmatch := { m_start : nat; m_marks : list nat; m_end : nat }.

(** [re.search]: the first offset, from the left, at which the pattern
    matches. *)
Fixpoint search_from (ic : bool) (p : regex) (s : str) (i : nat) : option rmatch :=
  match mt ic p s i with
  | Some (ms, e) => Some {| m_start := i; m_marks := ms; m_end := e |}
  | None =>
      match s with
      | [] => None
      | _ :: s' => search_from ic p s' (S i)
      end
  end.

Definition re_search (ic : bool) (p : regex) (s : str) : option rmatch :=
  search_from ic p s 0.

(** [m.group(0)] and [m.group(1)] *)
Definition group0 (s : str) (m : rmatch) : str := slice s (m_start m) (m_end m).

Definition group1 (s : str) (m : rmatch) : str :=
  match m_marks m with
  | a :: b :: _ => slice s a b
  | _ => []
  end.

(** [re.sub(p, repl, s)] for a pattern that matches no empty string: the
    non-overlapping matches, leftmost first, are replaced by [repl]. *)
Fixpoint sub_go (ic : bool) (p : regex) (repl : str) (skip : nat) (s : str) : str :=
  match s with
  | [] => []
  | c :: s' =>
      match skip with
      | S j => sub_go ic p repl j s'
      | O =>
          match mt ic p s 0 with
          | Some (_, e) => repl ++ sub_go ic p repl (e - 1) s'
          | None => c :: sub_go ic p repl 0 s'
          end
      end
  end.

Definition re_sub (ic : bool) (p : regex) (repl s : str) : str :=
  sub_go ic p repl 0 s.

(** The patterns of [parsers.py]. *)

(** [r'<think>.*?</think>'] with [re.DOTALL] *)
Definition think_re : regex :=
  [Lit (py "<think>"); LazyStar AnyChar; Lit (py "</think>")].

(** [r'```(?:json)?\s*(\{[\s\S]*?\})\s*```'] *)
Definition json_fence_re : regex :=
  [Lit (py "```"); OptLit (py "json"); Star Space;
   Mark; Lit (py "{"); LazyStar AnyChar; Lit (py "}"); Mark;
   Star Space; Lit (py "```")].

(** [r'\{[\s\S]*\}'] *)
Definition json_raw_re : regex :=
  [Lit (py "{"); Star AnyChar; Lit (py "}")].

(** [r'```(?:html)?\s*(<!DOCTYPE[\s\S]*?</html>)\s*```'] with [re.IGNORECASE] *)
Definition html_fence_re : regex :=
  [Lit (py "```"); OptLit (py "html"); Star Space;
   Mark; Lit (py "<!DOCTYPE"); LazyStar AnyChar; Lit (py "</html>"); Mark;
   Star Space; Lit (py "```")].

(** [r'(<!DOCTYPE[\s\S]*</html>)'] with [re.IGNORECASE] *)
Definition html_raw_re : regex :=
  [Mark; Lit (py "<!DOCTYPE"); Star AnyChar; Lit (py "</html>"); Mark].

Definition nl : str := [10%N].

(* ===================================================================== *)
(** * Python values, exceptions and effects *)
(* ===================================================================== *)

(** The values [json.loads] produces, which are also the values the fields
    of the data classes hold at run time. A [dict] keeps its insertion
    order; a key is looked up at its first binding. *)
#[warnings="-register-all"]
Inductive pyval :=
| PNone
| PBool (b : bool)
| PInt (z : Z)
| PFloat (f : spec_float)
| PStr (s : str)
| PList (l : list pyval)
| PDict (d : list (str * pyval)).

Definition pydict := list (str * pyval).

(** Truth value of a Python value ([if v:]). *)
Definition truthy (v : pyval) : bool :=
  match v with
  | PNone => false
  | PBool b => b
  | PInt z => negb (Z.eqb z 0)
  | PFloat (S754_zero _) => false
  | PFloat _ => true
  | PStr s => negb (str_eqb s [])
  | PList l => match l with [] => false | _ => true end
  | PDict d => match d with [] => false | _ => true end
  end.

(** [k in d] and [d[k]] / [d.get(k)] on a dict *)
Fixpoint dict_find (k : str) (d : pydict) : option pyval :=
  match d with
  | [] => None
  | (k', v) :: d' => if str_eqb k k' then Some v else dict_find k d'
  end.

Definition dict_has (k : str) (d : pydict) : bool :=
  match dict_find k d with Some _ => true | None => false end.

(** [d.get(k, default)] *)
Definition dict_get (k : str) (default : pyval) (d : pydict) : pyval :=
  match dict_find k d with Some v => v | None => default end.

(** Exceptions, that is instances of [Exception], which is what
    [except Exception] catches: the class and [str(e)]. *)
Inductive exn_class :=
| JSONDecodeError
| TypeError
| AttributeError
| AnalysisError
| GenerationError
| OtherException (name : str).

Record exn := { exn_cls : exn_class; exn_str : str }.

(** The result of a call: a value or a raised exception. *)
Inductive outcome (A : Type) :=
| Ret (a : A)
| Raise (e : exn).
Arguments Ret {A} a.
Arguments Raise {A} e.

Definition is_JSONDecodeError (e : exn) : bool :=
  match exn_cls e with JSONDecodeError => true | _ => false end.

(** Computations over a state [St] that may raise. *)
Definition M (St A : Type) : Type := St -> outcome A * St.

Definition ret {St A} (a : A) : M St A := fun s => (Ret a, s).

Definition raise {St A} (e : exn) : M St A := fun s => (Raise e, s).

(** A computation without effect that may raise, inside [M]. *)
Definition of_outcome {St A} (o : outcome A) : M St A := fun s => (o, s).

Definition bind {St A B} (m : M St A) (f : A -> M St B) : M St B :=
  fun s =>
    match m s with
    | (Ret a, s') => f a s'
    | (Raise e, s') => (Raise e, s')
    end.

(** [try: m  except Exception as e: h e] *)
Definition try_except {St A} (m : M St A) (h : exn -> M St A) : M St A :=
  fun s =>
    match m s with
    | (Ret a, s') => (Ret a, s')
    | (Raise e, s') => h e s'
    end.

Declare Scope monad_scope.
Delimit Scope monad_scope with monad.
Notation "x <- m ;; k" := (bind m (fun x => k))
  (at level 61, m at next level, right associativity) : monad_scope.
Notation "m ;;; k" := (bind m (fun _ => k))
  (at level 61, right associativity) : monad_scope.

(** The same for a pure computation that may raise. *)
Definition obind {A B} (m : outcome A) (f : A -> outcome B) : outcome B :=
  match m with
  | Ret a => f a
  | Raise e => Raise e
  end.

Fixpoint omap {A B} (f : A -> outcome B) (l : list A) : outcome (list B) :=
  match l with
  | [] => Ret []
  | x :: l' => obind (f x) (fun y => obind (omap f l') (fun ys => Ret (y :: ys)))
  end.

Definition mk_exn (c : exn_class) (msg : string) : exn :=
  {| exn_cls := c; exn_str := py msg |}.

(** [str(x)] for an optional string *)
Definition str_of_optional (o : option str) : str :=
  match o with Some s => s | None => py "None" end.

(* ===================================================================== *)
(** * [src/models/cv_data.py] *)
(* ===================================================================== *)

(** The data classes. The annotations of the sources ([str],
    [Optional[str]], [list[str]]) are not enforced at run time, and
    [from_dict] stores whatever the parsed document holds, so a field holds
    a [pyval]; the lists of entries are built by [from_dict] itself and
    are lists of records. *)

Definition empty_str : pyval := PStr [].
Definition empty_list : pyval := PList [].

Module PersonalInfo.
Record t := make {
    name : pyval; title : pyval; tagline : pyval; bio : pyval;
    email : pyval; phone : pyval; location : pyval }.
Definition default : t :=
    make empty_str empty_str empty_str empty_str PNone PNone PNone.
End PersonalInfo.

Module Links.
Record t := make {
    linkedin : pyval; github : pyval; website : pyval; other : pyval }.
Definition default : t := make PNone PNone PNone empty_list.
End Links.

Module Experience.
Record t := make {
    company : pyval; role : pyval; period : pyval; description : pyval;
    highlights : pyval }.
End Experience.

Module Project.
Record t := make {
    name : pyval; description : pyval; tech_stack : pyval; link : pyval;
    type : pyval }.
End Project.

Module Education.
Record t := make { institution : pyval; degree : pyval; period : pyval }.
End Education.

Module Skills.
Record t := make {
    languages : pyval; frameworks : pyval; tools : pyval; specialties : pyval }.
Definition default : t := make empty_list empty_list empty_list empty_list.
End Skills.

Module CVData.
Record t := make {
    personal : PersonalInfo.t;
    links : Links.t;
    experience : list Experience.t;
    projects : list Project.t;
    education : list Education.t;
    skills : Skills.t;
    certifications : pyval;
    languages_spoken : pyval;
    raw_analysis : pyval;
    original_cv_text : str }.

  (** [CVData()] *)
Definition default : t :=
    make PersonalInfo.default Links.default [] [] [] Skills.default
         empty_list empty_list PNone [].

Definition exp_to_dict (e : Experience.t) : pyval :=
    PDict [ (py "company", Experience.company e);
            (py "role", Experience.role e);
            (py "period", Experience.period e);
            (py "description", Experience.description e);
            (py "highlights", Experience.highlights e) ].

Definition proj_to_dict (p : Project.t) : pyval :=
    PDict [ (py "name", Project.name p);
            (py "description", Project.description p);
            (py "tech_stack", Project.tech_stack p);
            (py "link", Project.link p);
            (py "type", Project.type p) ].

Definition edu_to_dict (e : Education.t) : pyval :=
    PDict [ (py "institution", Education.institution e);
            (py "degree", Education.degree e);
            (py "period", Education.period e) ].

  (** [CVData.to_dict] *)
Definition to_dict (self : t) : pydict :=
    [ (py "personal",
        PDict [ (py "name", PersonalInfo.name (personal self));
                (py "title", PersonalInfo.title (personal self));
                (py "tagline", PersonalInfo.tagline (personal self));
                (py "bio", PersonalInfo.bio (personal self));
                (py "email", PersonalInfo.email (personal self));
                (py "phone", PersonalInfo.phone (personal self));
                (py "location", PersonalInfo.location (personal self)) ]);
      (py "links",
        PDict [ (py "linkedin", Links.linkedin (links self));
                (py "github", Links.github (links self));
                (py "website", Links.website (links self));
                (py "other", Links.other (links self)) ]);
      (py "experience", PList (map exp_to_dict (experience self)));
      (py "projects", PList (map proj_to_dict (projects self)));
      (py "education", PList (map edu_to_dict (education self)));
      (py "skills",
        PDict [ (py "languages", Skills.languages (skills self));
                (py "frameworks", Skills.frameworks (skills self));
                (py "tools", Skills.tools (skills self));
                (py "specialties", Skills.specialties (skills self)) ]);
      (py "certifications", certifications self);
      (py "languages_spoken", languages_spoken self) ].

  (** [v.get] on a value that must be a dict: any other value has no
      [get] attribute. *)
Definition as_dict (v : pyval) : outcome pydict :=
    match v with
    | PDict d => Ret d
    | _ => Raise (mk_exn AttributeError "object has no attribute 'get'")
    end.

  (** [for x in v]: the items a value yields when iterated. *)
Definition iterate (v : pyval) : outcome (list pyval) :=
    match v with
    | PList l => Ret l
    | PStr s => Ret (map (fun c => PStr [c]) s)
    | PDict d => Ret (map (fun kv => PStr (fst kv)) d)
    | _ => Raise (mk_exn TypeError "object is not iterable")
    end.

Definition exp_of (v : pyval) : outcome Experience.t :=
    obind (as_dict v) (fun exp =>
    Ret (Experience.make
           (dict_get (py "company") empty_str exp)
           (dict_get (py "role") empty_str exp)
           (dict_get (py "period") empty_str exp)
           (dict_get (py "description") empty_str exp)
           (dict_get (py "highlights") empty_list exp))).

Definition proj_of (v : pyval) : outcome Project.t :=
    obind (as_dict v) (fun proj =>
    Ret (Project.make
           (dict_get (py "name") empty_str proj)
           (dict_get (py "description") empty_str proj)
           (dict_get (py "tech_stack") empty_list proj)
           (dict_get (py "link") PNone proj)
           (dict_get (py "type") empty_str proj))).

Definition edu_of (v : pyval) : outcome Education.t :=
    obind (as_dict v) (fun edu =>
    Ret (Education.make
           (dict_get (py "institution") empty_str edu)
           (dict_get (py "degree") empty_str edu)
           (dict_get (py "period") empty_str edu))).

  (** One [if key in data: ...] block of [from_dict]: the field keeps its
      value when the key is absent. *)
Definition if_key {A} (k : string) (data : pydict) (keep : A)
             (f : pyval -> outcome A) : outcome A :=
    match dict_find (py k) data with
    | Some v => f v
    | None => Ret keep
    end.

  (** [CVData.from_dict(data, cv_text)] *)
Definition from_dict (data : pydict) (cv_text : str) : outcome t :=
    let cv := default in
    obind (if_key "personal" data (personal cv) (fun v =>
             obind (as_dict v) (fun p =>
             Ret (PersonalInfo.make
                    (dict_get (py "name") empty_str p)
                    (dict_get (py "title") empty_str p)
                    (dict_get (py "tagline") empty_str p)
                    (dict_get (py "bio") empty_str p)
                    (dict_get (py "email") PNone p)
                    (dict_get (py "phone") PNone p)
                    (dict_get (py "location") PNone p))))) (fun personal' =>
    obind (if_key "links" data (links cv) (fun v =>
             obind (as_dict v) (fun l =>
             Ret (Links.make
                    (dict_get (py "linkedin") PNone l)
                    (dict_get (py "github") PNone l)
                    (dict_get (py "website") PNone l)
                    (dict_get (py "other") empty_list l))))) (fun links' =>
    obind (if_key "experience" data (experience cv) (fun v =>
             obind (iterate v) (omap exp_of))) (fun experience' =>
    obind (if_key "projects" data (projects cv) (fun v =>
             obind (iterate v) (omap proj_of))) (fun projects' =>
    obind (if_key "education" data (education cv) (fun v =>
             obind (iterate v) (omap edu_of))) (fun education' =>
    obind (if_key "skills" data (skills cv) (fun v =>
             obind (as_dict v) (fun s =>
             Ret (Skills.make
                    (dict_get (py "languages") empty_list s)
                    (dict_get (py "frameworks") empty_list s)
                    (dict_get (py "tools") empty_list s)
                    (dict_get (py "specialties") empty_list s))))) (fun skills' =>
    let certifications' := dict_get (py "certifications") empty_list data in
    let languages_spoken' := dict_get (py "languages_spoken") empty_list data in
    let raw_analysis' := dict_get (py "raw_analysis") (raw_analysis cv) data in
    Ret (make personal' links' experience' projects' education' skills'
              certifications' languages_spoken' raw_analysis' cv_text))))))).
End CVData.

(* ===================================================================== *)
(** * [src/utils/parsers.py] *)
(* ===================================================================== *)

Module ResponseParser.

(** The functions of [re] take a text and raise [TypeError] on any other
    value, before they look at it. The three functions below hand their
    argument to [re.sub] or [re.search] first, so this is what they do with
    an argument that is no text. *)
Definition text_of (v : pyval) : outcome str :=
  match v with
  | PStr text => Ret text
  | _ => Raise (mk_exn TypeError "expected string or bytes-like object")
  end.

Section Json.
(** [json.loads] of the Python standard library: a value, or an
    exception ([json.JSONDecodeError] when the text is no JSON document). *)
Variable json_loads : str -> outcome pyval.

(** [try: return json.loads(x)  except json.JSONDecodeError: pass], followed
    by [otherwise] *)
Definition try_loads (x : str) (otherwise : outcome (option pyval))
  : outcome (option pyval) :=
  match json_loads x with
  | Ret v => Ret (Some v)
  | Raise e => if is_JSONDecodeError e then otherwise else Raise e
  end.

(** [ResponseParser.extract_json] *)
Definition extract_json (text : str) : outcome (option pyval) :=
  let text := re_sub false think_re [] text in
  let raw_attempt :=
    match re_search false json_raw_re text with
    | Some m => try_loads (group0 text m) (Ret None)
    | None => Ret None
    end in
  match re_search false json_fence_re text with
  | Some m => try_loads (group1 text m) raw_attempt
  | None => raw_attempt
  end.
End Json.

(** [ResponseParser.extract_html] *)
Definition extract_html (text : str) : str :=
  match re_search true html_fence_re text with
  | Some m => strip (group1 text m)
  | None =>
      match re_search true html_raw_re text with
      | Some m => strip (group1 text m)
      | None => strip text
      end
  end.

(** [ResponseParser.clean_thinking_tags] *)
Definition clean_thinking_tags (text : str) : str :=
  strip (re_sub false think_re [] text).

End ResponseParser.

(* ===================================================================== *)
(** * [src/interfaces/llm_service.py] *)
(* ===================================================================== *)

Record LLMConfig := {
  temperature : Q;
  max_tokens : Z;
  context_window : Z }.

(** [LLMConfig()] *)
Definition LLMConfig_default : LLMConfig :=
  {| temperature := (3 # 10)%Q; max_tokens := 4096; context_window := 8192 |}.

(** [LLMResponse]. The field [content] is declared a text; nothing checks
    that when a response is built, so it holds whatever it was given. *)
Record LLMResponse := {
  content : pyval;
  model : str;
  success : bool;
  error : option str }.

(** One entry of a chat transcript: [{"role": ..., "content": ...}]. *)
Record Message := { role : str; msg_content : str }.

(** [ILLMService], over the state [W] of the service behind it. *)
Module ILLMService.
Record t (W : Type) := make {
  generate : str -> str -> option LLMConfig -> W -> LLMResponse * W;
  chat : list Message -> str -> option LLMConfig -> W -> LLMResponse * W;
  unload_model : str -> W -> bool * W;
  is_available : W -> bool * W }.
End ILLMService.

(* ===================================================================== *)
(** * [src/services/ollama_service.py] *)
(* ===================================================================== *)

Module OllamaService.

(** The keyword arguments of a request to the runtime: the [options]
    dictionary of [generate] and [chat], or [keep_alive]. *)
Inductive request_args :=
| Options (temperature : Q) (num_ctx num_predict : Z)
| KeepAlive (seconds : Z).

(** The [ollama] client library: each call returns or raises, and may
    change the runtime's state [RT]. A reply of [ollama.generate] or of
    [ollama.chat] is a mapping; the service reads the entry ["response"] of
    the first, and the entry ["content"] of the entry ["message"] of the
    second, whatever values they hold. *)
Record Runtime (RT : Type) := {
  ollama_generate : str -> str -> request_args -> RT -> outcome pydict * RT;
  ollama_chat : str -> list Message -> request_args -> RT -> outcome pydict * RT;
  ollama_list : RT -> outcome unit * RT;
  sleep : Z -> RT -> RT }.

Section Service.
Variable RT : Type.
Variable rt : Runtime RT.

Definition options_of (config : LLMConfig) : request_args :=
  Options (temperature config) (context_window config) (max_tokens config).

Definition or_default (config : option LLMConfig) : LLMConfig :=
  match config with Some c => c | None => LLMConfig_default end.

(** [response.get("response", "")]: the value stored under the key,
    whatever it is, or the empty text when the key is absent. *)
Definition response_text (response : pydict) : pyval :=
  dict_get (py "response") (PStr []) response.

(** [response.get("message", {}).get("content", "")]: the second [get]
    needs a mapping and raises [AttributeError] on any other value; it
    returns the value stored under the key, whatever it is, or the empty
    text when the key is absent. *)
Definition message_content (response : pydict) : outcome pyval :=
  obind (CVData.as_dict (dict_get (py "message") (PDict []) response))
        (fun message => Ret (dict_get (py "content") (PStr []) message)).

(** [OllamaService.generate]; [except Exception] catches whatever the
    runtime raised. *)
Definition generate (prompt model : str) (config : option LLMConfig)
  : M RT LLMResponse :=
  (let config := or_default config in
   try_except
     (response <- ollama_generate rt model prompt (options_of config) ;;
      ret {| content := response_text response; model := model;
             success := true; error := None |})
     (fun e =>
        ret {| content := PStr []; model := model; success := false;
               error := Some (exn_str e) |}))%monad.

(** [OllamaService.chat] *)
Definition chat (messages : list Message) (model : str) (config : option LLMConfig)
  : M RT LLMResponse :=
  (let config := or_default config in
   try_except
     (response <- ollama_chat rt model messages (options_of config) ;;
      content <- of_outcome (message_content response) ;;
      ret {| content := content; model := model; success := true;
             error := None |})
     (fun e =>
        ret {| content := PStr []; model := model; success := false;
               error := Some (exn_str e) |}))%monad.

(** [time.sleep(seconds)] *)
Definition do_sleep (seconds : Z) : M RT unit :=
  fun w => (Ret tt, sleep rt seconds w).

(** [OllamaService.unload_model] *)
Definition unload_model (model : str) : M RT bool :=
  (try_except
     (ollama_generate rt model [] (KeepAlive 0) ;;;
      do_sleep 2 ;;;
      ret true)
     (fun _ => ret false))%monad.

(** [OllamaService.is_available] *)
Definition is_available : M RT bool :=
  (try_except (ollama_list rt ;;; ret true) (fun _ => ret false))%monad.
End Service.

End OllamaService.

(* ===================================================================== *)
(** * Calls to the model service, recorded *)
(* ===================================================================== *)

(** The analyzer and the generator run against an [ILLMService]. The
    state they run in holds the state of the service and the list of the
    calls made to it so far, oldest first. Console logging is left out. *)
Inductive llm_call :=
| CallChat (model : str) (messages : list Message) (config : option LLMConfig)
| CallUnload (model : str).

Record world (W : Type) := { svc_state : W; calls : list llm_call }.

Section Calls.
Variable W : Type.
Variable llm : ILLMService.t W.

Definition call_chat (messages : list Message) (model : str)
           (config : option LLMConfig) : M (world W) LLMResponse :=
  fun w =>
    let (r, s) := ILLMService.chat llm messages model config (svc_state w) in
    (Ret r, {| svc_state := s;
               calls := calls w ++ [CallChat model messages config] |}).

Definition call_unload_model (model : str) : M (world W) bool :=
  fun w =>
    let (b, s) := ILLMService.unload_model llm model (svc_state w) in
    (Ret b, {| svc_state := s; calls := calls w ++ [CallUnload model] |}).

(** A pure computation, run inside [M]. *)
Definition lift {A} (o : outcome A) : M (world W) A := fun w => (o, w).
End Calls.

Definition is_unload (model : str) (c : llm_call) : bool :=
  match c with
  | CallUnload m => str_eqb m model
  | CallChat _ _ _ => false
  end.

(** How many times [unload_model(model)] was called. *)
Definition unload_count (model : str) (cs : list llm_call) : nat :=
  List.length (filter (is_unload model) cs).

(* ===================================================================== *)
(** * [src/services/deepseek_analyzer.py] *)
(* ===================================================================== *)

Module DeepSeekAnalyzer.

Definition analysis_prompt_head : str := pyq "You are a precise CV data extractor. Your job is to extract ONLY what exists in the CV text below.

## RAW CV TEXT (THIS IS YOUR ONLY SOURCE OF TRUTH):
---
".

Definition analysis_prompt_tail : str := pyq "
---

## CRITICAL ANTI-HALLUCINATION RULES:
1. **EXACT TEXT ONLY**: Copy titles, names, dates EXACTLY as written in the CV
2. **NO INVENTION**: Do NOT invent years of experience, degrees, or titles
3. **NO ASSUMPTIONS**: If the CV says ~Junior Game Developer~, output ~Junior Game Developer~ - NOT ~Senior~ or ~Lead~
4. **DATES**: Use exact date ranges from CV. If CV says ~2023-Present~, use that exactly
5. **PROJECTS**: Use the EXACT project names (e.g., ~ROWA Space Station~, ~Untouchables~)
6. **VALIDATION**: If you're unsure, set ~uncertain~: true and copy raw text

## EXTRACTION TASK:
Extract the following into JSON. Use null for missing fields. DO NOT GUESS.

```json
{
    ~validation~: {
        ~source~: ~Extracted from provided CV text only~,
        ~hallucination_check~: ~All data verified against source text~
    },
    ~personal~: {
        ~name~: ~EXACT full name from CV~,
        ~title~: ~EXACT job title from CV (e.g., 'Junior Game Developer' - no modifications)~,
        ~tagline~: ~Brief tagline based on actual CV content~,
        ~bio~: ~2-3 sentences using ONLY facts from CV~,
        ~email~: ~exact email or null~,
        ~phone~: ~exact phone or null~,
        ~location~: ~exact location or null~
    },
    ~links~: {
        ~linkedin~: ~exact LinkedIn URL or null~,
        ~github~: ~exact GitHub URL or null~,
        ~website~: ~exact website URL or null~,
        ~other~: [~any other URLs found~]
    },
    ~experience~: [
        {
            ~company~: ~EXACT company name~,
            ~role~: ~EXACT job title from CV~,
            ~period~: ~EXACT date range from CV~,
            ~description~: ~Summary using ONLY CV content~,
            ~highlights~: [~actual achievements from CV~]
        }
    ],
    ~projects~: [
        {
            ~name~: ~EXACT project name (e.g., 'ROWA Space Station')~,
            ~description~: ~Description using ONLY CV content~,
            ~tech_stack~: [~technologies mentioned in CV~],
            ~link~: ~project URL if in CV, else null~,
            ~type~: ~Game/Web/App based on CV~
        }
    ],
    ~education~: [
        {
            ~institution~: ~EXACT school name~,
            ~degree~: ~EXACT degree/program name~,
            ~period~: ~EXACT date range~
        }
    ],
    ~skills~: {
        ~languages~: [~programming languages from CV~],
        ~frameworks~: [~frameworks from CV~],
        ~tools~: [~tools from CV~],
        ~specialties~: [~specialties from CV~]
    },
    ~certifications~: [~EXACT certification names~],
    ~languages_spoken~: [~languages from CV~]
}
```

IMPORTANT: Output ONLY the JSON. No explanations. Use EXACT text from CV.".

(** [DeepSeekAnalyzer._build_prompt] *)
Definition _build_prompt (cv_text : str) : str :=
  analysis_prompt_head ++ cv_text ++ analysis_prompt_tail.

Section Analyzer.
Variable json_loads : str -> outcome pyval.
Variable W : Type.
(** the attributes of [self] *)
Variable _llm : ILLMService.t W.
Variable _model : str.
Variable _temperature : Q.

(** [CVData.from_dict(parsed_data, cv_text)] on the value [extract_json]
    returned; a value that is no dict supports none of the operations
    [from_dict] applies to it. *)
Definition from_parsed (parsed_data : option pyval) (cv_text : str)
  : outcome CVData.t :=
  match parsed_data with
  | Some (PDict data) => CVData.from_dict data cv_text
  | _ => Raise (mk_exn TypeError "argument is not a dict")
  end.

(** [CVData(raw_analysis=content, original_cv_text=cv_text)] *)
Definition raw_record (content cv_text : str) : CVData.t :=
  CVData.make PersonalInfo.default Links.default [] [] [] Skills.default
              empty_list empty_list (PStr content) cv_text.

(** [not parsed_data] *)
Definition not_parsed (parsed_data : option pyval) : bool :=
  match parsed_data with
  | None => true
  | Some v => negb (truthy v)
  end.

(** [DeepSeekAnalyzer.analyze] *)
Definition analyze (cv_text : str) : M (world W) CVData.t :=
  (let prompt := _build_prompt cv_text in
   let config := {| temperature := _temperature;
                    max_tokens := max_tokens LLMConfig_default;
                    context_window := 8192 |} in
   response <- call_chat _llm [{| role := py "user"; msg_content := prompt |}]
                         _model (Some config) ;;
   if negb (success response) then
     call_unload_model _llm _model ;;;
     raise {| exn_cls := AnalysisError;
              exn_str := py "LLM request failed: "
                         ++ str_of_optional (error response) |}
   else
     text <- lift (ResponseParser.text_of (content response)) ;;
     parsed_data <- lift (ResponseParser.extract_json json_loads text) ;;
     cv_data <- (if not_parsed parsed_data
                 then ret (raw_record text cv_text)
                 else lift (from_parsed parsed_data cv_text)) ;;
     call_unload_model _llm _model ;;;
     ret cv_data)%monad.
End Analyzer.

End DeepSeekAnalyzer.

(* ===================================================================== *)
(** * [src/services/qwen_portfolio_generator.py] *)
(* ===================================================================== *)

Module QwenPortfolioGenerator.

Definition generation_prompt_head : str := pyq "You are an elite frontend developer. Generate a COMPLETE, PRODUCTION-READY index.html portfolio.

".

Definition generation_prompt_mid : str := pyq "

## ORIGINAL CV TEXT (FOR VERIFICATION - USE EXACT DATA):
```
".

Definition generation_prompt_tail : str := pyq "
```

## CRITICAL: AOS VISIBILITY FIX
The page MUST NOT be black. Include these MANDATORY fixes:

### 1. CSS Fallback (in <style> tag):
```css
/* AOS Fallback - Prevent black screen */
[data-aos] {
    opacity: 1 !important;
    transform: none !important;
    transition: opacity 0.6s ease, transform 0.6s ease;
}
.aos-animate {
    pointer-events: auto;
}
/* Ensure visibility before JS loads */
body {
    opacity: 1;
}
```

### 2. Proper Script Loading (at end of body):
```html
<script src=~https://unpkg.com/aos@2.3.1/dist/aos.js~></script>
<script src=~https://unpkg.com/lucide@latest/dist/umd/lucide.js~></script>
<script>
    window.addEventListener('load', function() {
        // Initialize Lucide icons
        if (typeof lucide !== 'undefined') {
            lucide.createIcons();
        }
        
        // Initialize AOS with safe settings
        if (typeof AOS !== 'undefined') {
            AOS.init({
                duration: 800,
                once: true,
                offset: 50,
                disable: 'mobile'
            });
        }
        
        // Fallback: ensure all elements visible after 1 second
        setTimeout(function() {
            document.querySelectorAll('[data-aos]').forEach(function(el) {
                el.classList.add('aos-animate');
            });
        }, 1000);
    });
</script>
```

## TECHNICAL STACK:
- Tailwind CSS: <script src=~https://cdn.tailwindcss.com~></script>
- AOS.js: <link href=~https://unpkg.com/aos@2.3.1/dist/aos.css~ rel=~stylesheet~>
- Lucide Icons: Use <i data-lucide=~icon-name~></i>
- Google Fonts: Inter + Space Grotesk

## DESIGN: VERCEL-STYLE BENTO GRID

### Layout Structure:
```html
<div class=~grid grid-cols-12 gap-4 p-4~>
    <!-- Hero: spans full width -->
    <div class=~col-span-12~>...</div>
    
    <!-- About: 8 cols, Skills: 4 cols -->
    <div class=~col-span-12 md:col-span-8~>...</div>
    <div class=~col-span-12 md:col-span-4~>...</div>
    
    <!-- Projects: varying spans (6, 4, 8, etc.) -->
    <div class=~col-span-12 md:col-span-6~>...</div>
    <div class=~col-span-12 md:col-span-6~>...</div>
</div>
```

### Theme: PITCH BLACK + EMERALD
- Background: #000000 (pure black)
- Cards: bg-white/5 backdrop-blur-md border border-white/10 rounded-2xl
- Text: text-white, text-gray-400
- Accent: text-emerald-400, bg-emerald-500/10, border-emerald-500/30
- Hover: hover:bg-white/10 hover:border-emerald-500/50

### Card Style:
```html
<div class=~bg-white/5 backdrop-blur-md border border-white/10 rounded-2xl p-6 
            hover:bg-white/10 hover:border-emerald-500/50 transition-all duration-300~
     data-aos=~fade-up~>
    <!-- content -->
</div>
```

## SECTIONS:
1. **Hero**: Name (large), exact title from CV, tagline, social icons
2. **About**: Bio card (col-span-8)
3. **Skills**: Grouped skill tags (col-span-4)
4. **Projects**: Bento cards with EXACT project names, descriptions, tech stacks
5. **Experience**: Timeline with EXACT roles and dates
6. **Contact**: Footer with real links

## ABSOLUTE RULES:
1. Use ONLY the exact data provided - NO PLACEHOLDERS
2. NO <img> tags - Lucide icons only
3. If title is ~Junior Game Developer~, use that EXACTLY
4. All links must be real URLs from the data
5. Include the AOS visibility fixes EXACTLY as shown above
6. Start with <!DOCTYPE html>, end with </html>

Generate the COMPLETE HTML now.".

Definition aos_css_fix : str := py "
    <style>
        /* AOS Visibility Fallback */
        [data-aos] {
            opacity: 1 !important;
            transform: none !important;
        }
        .aos-init [data-aos] {
            opacity: 0;
            transform: translateY(20px);
        }
        .aos-init .aos-animate {
            opacity: 1 !important;
            transform: none !important;
        }
    </style>
    ".

Definition aos_js_fix : str := py "
    <script>
        window.addEventListener('load', function() {
            if (typeof lucide !== 'undefined') lucide.createIcons();
            if (typeof AOS !== 'undefined') {
                AOS.init({ duration: 800, once: true, offset: 50 });
            }
            setTimeout(function() {
                document.querySelectorAll('[data-aos]').forEach(function(el) {
                    el.classList.add('aos-animate');
                });
            }, 1000);
        });
    </script>
    ".

(** [QwenPortfolioGenerator.apply_fixes] *)
Definition apply_fixes (html : str) : str :=
  let html :=
    if contains (py "</head>") html
    then replace (py "</head>") (aos_css_fix ++ nl ++ py "</head>") html
    else html in
  let html :=
    if contains (py "</body>") html
    then replace (py "</body>") (aos_js_fix ++ nl ++ py "</body>") html
    else html in
  html.

Section Generator.
(** [json.dumps(obj, indent=2, ensure_ascii=False)] and the text of a value
    that is no string inside an f-string, both of the Python library *)
Variable json_dumps : pyval -> str.
Variable repr : pyval -> str.

(** [f"{v}"] *)
Definition format (v : pyval) : str :=
  match v with
  | PStr s => s
  | _ => repr v
  end.

(** [QwenPortfolioGenerator._build_prompt] *)
Definition _build_prompt (cv_data : CVData.t) (original_cv_text : str) : str :=
  let data_section :=
    if truthy (CVData.raw_analysis cv_data)
    then py "## ANALYZED CV DATA:" ++ nl ++ format (CVData.raw_analysis cv_data)
    else py "## PORTFOLIO DATA (JSON):" ++ nl ++ py "```json" ++ nl
         ++ json_dumps (PDict (CVData.to_dict cv_data)) ++ nl ++ py "```" in
  generation_prompt_head ++ data_section ++ generation_prompt_mid
  ++ firstn 2000 original_cv_text ++ generation_prompt_tail.

Variable W : Type.
(** the attributes of [self] *)
Variable _llm : ILLMService.t W.
Variable _model : str.
Variable _temperature : Q.

(** [QwenPortfolioGenerator.generate] *)
Definition generate (cv_data : CVData.t) (original_cv_text : str)
  : M (world W) str :=
  (let original_cv_text :=
     match original_cv_text with
     | [] => CVData.original_cv_text cv_data
     | _ => original_cv_text
     end in
   let prompt := _build_prompt cv_data original_cv_text in
   let config := {| temperature := _temperature;
                    context_window := 8192;
                    max_tokens := 4096 |} in
   response <- call_chat _llm [{| role := py "user"; msg_content := prompt |}]
                         _model (Some config) ;;
   if negb (success response) then
     call_unload_model _llm _model ;;;
     raise {| exn_cls := GenerationError;
              exn_str := py "LLM request failed: "
                         ++ str_of_optional (error response) |}
   else
     text <- lift (ResponseParser.text_of (content response)) ;;
     let html_content := ResponseParser.extract_html text in
     let html_content :=
       if negb (contains (py "aos-animate") (lower html_content))
       then apply_fixes html_content
       else html_content in
     call_unload_model _llm _model ;;;
     ret html_content)%monad.
End Generator.

End QwenPortfolioGenerator.

(* ===================================================================== *)
(** * [src/pipeline/cv_portfolio_pipeline.py] *)
(* ===================================================================== *)

Module CVPortfolioPipeline.

(** The calls the pipeline makes to its collaborators, in the order made. *)
Inductive event :=
| SelectFile
| Extract (path : str)
| Analyze (cv_text : str)
| Generate (cv_data : CVData.t)
| Save (content filename extension : str)
| ShowSuccess (title message : str)
| ShowError (title message : str).

Section Pipeline.
(** The state of everything outside the pipeline. *)
Variable W : Type.

(** The services of [self._container]. Each call returns or raises, the
    dialogs of the user interface too: a selection returns an optional
    path, a notification returns nothing. A path is held as its text. *)
Variable select_file : str -> list (str * str) -> W -> outcome (option str) * W.
Variable show_success : str -> str -> W -> outcome unit * W.
Variable show_error : str -> str -> W -> outcome unit * W.
Variable extract : str -> W -> outcome str * W.
Variable analyze : str -> W -> outcome CVData.t * W.
Variable generate : CVData.t -> W -> outcome str * W.
Variable save : str -> str -> str -> W -> outcome str * W.
Variable output_directory : str.

(** Of the Python library: [json.dumps], [Path.stem], [Path / name],
    and [datetime.now().strftime(...)]. *)
Variable json_dumps : pyval -> str.
Variable stem : str -> str.
Variable joinpath : str -> str -> str.
Variable now : W -> str.

Record state := { outside : W; trace : list event }.

Definition do_select_file (title : str) (filetypes : list (str * str))
  : M state (option str) :=
  fun s =>
    let (r, w) := select_file title filetypes (outside s) in
    (r, {| outside := w; trace := trace s ++ [SelectFile] |}).

Definition do_extract (path : str) : M state str :=
  fun s =>
    let (r, w) := extract path (outside s) in
    (r, {| outside := w; trace := trace s ++ [Extract path] |}).

Definition do_analyze (cv_text : str) : M state CVData.t :=
  fun s =>
    let (r, w) := analyze cv_text (outside s) in
    (r, {| outside := w; trace := trace s ++ [Analyze cv_text] |}).

Definition do_generate (cv_data : CVData.t) : M state str :=
  fun s =>
    let (r, w) := generate cv_data (outside s) in
    (r, {| outside := w; trace := trace s ++ [Generate cv_data] |}).

Definition do_save (content filename extension : str) : M state str :=
  fun s =>
    let (r, w) := save content filename extension (outside s) in
    (r, {| outside := w; trace := trace s ++ [Save content filename extension] |}).

Definition do_show_success (title message : str) : M state unit :=
  fun s =>
    let (r, w) := show_success title message (outside s) in
    (r, {| outside := w; trace := trace s ++ [ShowSuccess title message] |}).

Definition do_show_error (title message : str) : M state unit :=
  fun s =>
    let (r, w) := show_error title message (outside s) in
    (r, {| outside := w; trace := trace s ++ [ShowError title message] |}).

Definition get_now : M state str := fun s => (Ret (now (outside s)), s).

(** [_select_pdf] *)
Definition _select_pdf : M state (option str) :=
  do_select_file (py "Select Your CV (PDF)")
                 [(py "PDF files", py "*.pdf"); (py "All files", py "*.*")].

(** [_extract_text] *)
Definition _extract_text (pdf_path : str) : M state (option str) :=
  (cv_text <- do_extract pdf_path ;;
   match strip cv_text with
   | [] => ret None
   | _ =>
       do_save cv_text (py "cv_raw_text") (py "txt") ;;;
       ret (Some cv_text)
   end)%monad.

(** [_analyze_cv]; an instance of [CVData] is never false. *)
Definition _analyze_cv (cv_text : str) : M state (option CVData.t) :=
  (cv_data <- do_analyze cv_text ;;
   do_save (json_dumps (PDict (CVData.to_dict cv_data)))
           (py "cv_extracted_data") (py "json") ;;;
   ret (Some cv_data))%monad.

(** [_generate_portfolio] *)
Definition _generate_portfolio (cv_data : CVData.t) : M state (option str) :=
  (html_content <- do_generate cv_data ;;
   match html_content with
   | [] => ret None
   | _ => ret (Some html_content)
   end)%monad.

(** [_save_outputs] *)
Definition _save_outputs (html_content pdf_path : str) : M state str :=
  (timestamp <- get_now ;;
   let base_name := stem pdf_path in
   output_path <- do_save html_content
                    (base_name ++ py "_portfolio_" ++ timestamp) (py "html") ;;
   do_save html_content (py "index") (py "html") ;;;
   ret output_path)%monad.

(** [_print_success] *)
Definition _print_success (output_path : str) : M state unit :=
  let index_path := joinpath output_directory (py "index.html") in
  do_show_success (py "Success! " ++ [127881%N])
    (py "Your portfolio has been generated!" ++ nl ++ nl
     ++ py "Main file:" ++ nl ++ output_path ++ nl ++ nl
     ++ py "Quick access:" ++ nl ++ index_path).

(** [_handle_error] *)
Definition _handle_error (error : exn) : M state unit :=
  do_show_error (py "Pipeline Error")
    (py "An error occurred:" ++ nl ++ nl ++ exn_str error).

(** The body of the [try] statement of [run]. *)
Definition run_body : M state (option str) :=
  (pdf_path <- _select_pdf ;;
   match pdf_path with
   | None => ret None
   | Some pdf_path =>
       cv_text <- _extract_text pdf_path ;;
       match cv_text with
       | None => ret None
       | Some cv_text =>
           cv_data <- _analyze_cv cv_text ;;
           match cv_data with
           | None => ret None
           | Some cv_data =>
               html_content <- _generate_portfolio cv_data ;;
               match html_content with
               | None => ret None
               | Some html_content =>
                   output_path <- _save_outputs html_content pdf_path ;;
                   _print_success output_path ;;;
                   ret (Some output_path)
               end
           end
       end
   end)%monad.

(** [CVPortfolioPipeline.run] *)
Definition run : M state (option str) :=
  try_except run_body (fun e => (_handle_error e ;;; ret None)%monad).
End Pipeline.

(** How many events of a trace satisfy [f]. *)
Definition count (f : event -> bool) (tr : list event) : nat :=
  List.length (filter f tr).

Definition is_select_file (e : event) : bool :=
  match e with SelectFile => true | _ => false end.
Definition is_extract (e : event) : bool :=
  match e with Extract _ => true | _ => false end.
Definition is_analyze (e : event) : bool :=
  match e with Analyze _ => true | _ => false end.
Definition is_generate (e : event) : bool :=
  match e with Generate _ => true | _ => false end.
Definition is_show_error (e : event) : bool :=
  match e with ShowError _ _ => true | _ => false end.

(** No stage is entered twice. *)
Definition no_retry (tr : list event) : Prop :=
  count is_select_file tr <= 1 /\ count is_extract tr <= 1 /\
  count is_analyze tr <= 1 /\ count is_generate tr <= 1 /\
  count is_show_error tr <= 1.

End CVPortfolioPipeline.

(* ===================================================================== *)
(** * What a pattern denotes *)
(* ===================================================================== *)

(** [lit_eq ic l a]: the text [a] is the literal [l], up to the case of
    ASCII letters when [ic] is set. *)
Definition lit_eq (ic : bool) (l a : str) : Prop :=
  Forall2 (fun p c => char_match ic p c = true) l a.

Definition all_in (c : cclass) (a : str) : Prop :=
  Forall (fun ch => in_class c ch = true) a.

(** [den ic p n u ms]: the text [u], standing at offset [n], is matched by
    the whole of [p], the marks falling at the offsets [ms]. *)
Fixpoint den (ic : bool) (p : regex) (n : nat) (u : str) (ms : list nat) : Prop :=
  match p with
  | [] => u = [] /\ ms = []
  | Lit l :: p' =>
      exists a v, u = a ++ v /\ lit_eq ic l a /\ den ic p' (n + length a) v ms
  | OptLit l :: p' =>
      den ic p' n u ms \/
      exists a v, u = a ++ v /\ lit_eq ic l a /\ den ic p' (n + length a) v ms
  | Star c :: p' =>
      exists a v, u = a ++ v /\ all_in c a /\ den ic p' (n + length a) v ms
  | LazyStar c :: p' =>
      exists a v, u = a ++ v /\ all_in c a /\ den ic p' (n + length a) v ms
  | Mark :: p' => exists ms', ms = n :: ms' /\ den ic p' n u ms'
  end.

Definition all_space (w : str) : Prop := Forall (fun c => is_space c = true) w.

(** [x] occurs in [s]. *)
Definition substring (x s : str) : Prop := exists a c, s = a ++ x ++ c.

(** [g] is a brace-delimited text inside a code fence of [t]:
    three backticks, an optional [json], blanks, [g], blanks, three
    backticks. *)
Definition fenced_object (t g : str) : Prop :=
  exists a o w1 x w2 c,
    t = a ++ py "```" ++ o ++ w1 ++ g ++ w2 ++ py "```" ++ c /\
    (o = [] \/ o = py "json") /\ all_space w1 /\ all_space w2 /\
    g = py "{" ++ x ++ py "}".

(** [u] starts with a code fence that holds a brace-delimited text. *)
Definition fence_opens (u : str) : Prop :=
  exists o w1 x w2 c,
    u = py "```" ++ o ++ w1 ++ (py "{" ++ x ++ py "}") ++ w2 ++ py "```" ++ c /\
    (o = [] \/ o = py "json") /\ all_space w1 /\ all_space w2.

(** [u] is made of blanks and a fence, and anything. *)
Definition closes_fence (u : str) : Prop :=
  exists w c, u = w ++ py "```" ++ c /\ all_space w.

(** [g] is the first fenced object of [t]: no fence that holds a
    brace-delimited text starts before the one that holds [g], and [g] ends
    at the first closing brace that blanks and a fence follow. *)
Definition first_fenced_object (t g : str) : Prop :=
  exists a o w1 x w2 c,
    t = a ++ py "```" ++ o ++ w1 ++ g ++ w2 ++ py "```" ++ c /\
    (o = [] \/ o = py "json") /\ all_space w1 /\ all_space w2 /\
    g = py "{" ++ x ++ py "}" /\
    (forall a1 a2, a = a1 ++ a2 -> a2 <> [] ->
       ~ fence_opens (a2 ++ py "```" ++ o ++ w1 ++ g ++ w2 ++ py "```" ++ c)) /\
    (forall x1 x2, x = x1 ++ py "}" ++ x2 ->
       ~ closes_fence (x2 ++ py "}" ++ w2 ++ py "```" ++ c)).

(** [g] runs from the first opening brace of [t] to its last closing
    brace. *)
Definition outermost_span (t g : str) : Prop :=
  exists a x c,
    t = a ++ g ++ c /\ g = py "{" ++ x ++ py "}" /\
    ~ In 123%N a /\ ~ In 125%N c.

(** [g] starts with the document-type marker and ends with the closing
    root tag, in any case. *)
Definition html_document (g : str) : Prop :=
  exists d x h, g = d ++ x ++ h /\ lit_eq true (py "<!DOCTYPE") d /\
                lit_eq true (py "</html>") h.

(** [g] is such a document inside a code fence of [t]. *)
Definition fenced_html (t g : str) : Prop :=
  exists a o w1 w2 c,
    t = a ++ py "```" ++ o ++ w1 ++ g ++ w2 ++ py "```" ++ c /\
    (o = [] \/ lit_eq true (py "html") o) /\ all_space w1 /\ all_space w2 /\
    html_document g.

(** [g] is such a document anywhere in [t]. *)
Definition raw_html (t g : str) : Prop :=
  substring g t /\ html_document g.

(** A result of the gateway is a success without an error, or a failure
    with an error text and no content. *)
Definition well_formed (r : LLMResponse) : Prop :=
  (success r = true /\ error r = None) \/
  (success r = false /\ (exists msg, error r = Some msg) /\ content r = PStr []).

(** The two shapes of a record that [analyze] returns on the reply
    [content]: the unparsed one, and the one built from an object [d]. *)
Definition raw_or_structured (json_loads : str -> outcome pyval)
           (content cv_text : str) (cv : CVData.t) : Prop :=
  exists parsed_data,
    ResponseParser.extract_json json_loads content = Ret parsed_data /\
    ((DeepSeekAnalyzer.not_parsed parsed_data = true /\
      CVData.raw_analysis cv = PStr content /\
      truthy (CVData.raw_analysis cv) = negb (str_eqb content []) /\
      CVData.personal cv = PersonalInfo.default /\
      CVData.links cv = Links.default /\
      CVData.experience cv = [] /\ CVData.projects cv = [] /\
      CVData.education cv = [] /\ CVData.skills cv = Skills.default /\
      CVData.certifications cv = empty_list /\
      CVData.languages_spoken cv = empty_list) \/
     (exists d,
         parsed_data = Some (PDict d) /\ d <> [] /\
         CVData.from_dict d cv_text = Ret cv /\
         CVData.raw_analysis cv = dict_get (py "raw_analysis") PNone d /\
         (dict_has (py "raw_analysis") d = false ->
          CVData.raw_analysis cv = PNone))).

(** The request [analyze] sends for [cv_text]. *)
Definition analysis_request (cv_text : str) : list Message :=
  [{| role := py "user"; msg_content := DeepSeekAnalyzer._build_prompt cv_text |}].

Definition analysis_config (temperature : Q) : option LLMConfig :=
  Some {| temperature := temperature; max_tokens := 4096; context_window := 8192 |}.


(** The shape [from_dict] needs of an object. A section ([personal],
    [links], [skills]) is read with [get]: when present it must be an
    object. A list of entries ([experience], [projects], [education]) is
    iterated and each item read with [get]: when present it must yield
    objects only, which a list of objects does, and so does anything that
    yields nothing (an empty text, an empty object). *)
Definition is_dict (v : pyval) : bool :=
  match v with PDict _ => true | _ => false end.

Definition section_ok (k : string) (d : pydict) : bool :=
  match dict_find (py k) d with
  | None => true
  | Some v => is_dict v
  end.

Definition entries_ok (k : string) (d : pydict) : bool :=
  match dict_find (py k) d with
  | None => true
  | Some (PList l) => forallb is_dict l
  | Some (PStr []) => true
  | Some (PDict []) => true
  | Some _ => false
  end.

Definition well_shaped (d : pydict) : bool :=
  section_ok "personal" d && section_ok "links" d &&
  entries_ok "experience" d && entries_ok "projects" d &&
  entries_ok "education" d && section_ok "skills" d.

(** The exception of [v.get] on a value that is no object. *)
Definition no_get : exn := mk_exn AttributeError "object has no attribute 'get'".

(** The keys [from_dict] looks up. *)
Definition known_keys : list str :=
  [py "personal"; py "links"; py "experience"; py "projects"; py "education";
   py "skills"; py "certifications"; py "languages_spoken"; py "raw_analysis"].


(* ===================================================================== *)
(** * The calls of a complete run *)
(* ===================================================================== *)

(** The calls a run makes up to the last artifact, for the selected file
    [pdf_path], the extracted text, the record, the page and the time
    stamp: the text is saved before it is analysed, the record before the
    page is generated, and the page is saved twice. *)
Definition stages (json_dumps : pyval -> str) (stem : str -> str)
           (pdf_path cv_text : str) (cv_data : CVData.t)
           (html_content timestamp : str) : list CVPortfolioPipeline.event :=
  [CVPortfolioPipeline.SelectFile;
   CVPortfolioPipeline.Extract pdf_path;
   CVPortfolioPipeline.Save cv_text (py "cv_raw_text") (py "txt");
   CVPortfolioPipeline.Analyze cv_text;
   CVPortfolioPipeline.Save (json_dumps (PDict (CVData.to_dict cv_data)))
                            (py "cv_extracted_data") (py "json");
   CVPortfolioPipeline.Generate cv_data;
   CVPortfolioPipeline.Save html_content
                            (stem pdf_path ++ py "_portfolio_" ++ timestamp)
                            (py "html");
   CVPortfolioPipeline.Save html_content (py "index") (py "html")].

(** The success dialog of a run that saved its page at [output_path]. *)
Definition success_dialog (joinpath : str -> str -> str)
           (output_directory output_path : str) : CVPortfolioPipeline.event :=
  CVPortfolioPipeline.ShowSuccess
    (py "Success! " ++ [127881%N])
    (py "Your portfolio has been generated!" ++ nl ++ nl
     ++ py "Main file:" ++ nl ++ output_path ++ nl ++ nl
     ++ py "Quick access:" ++ nl
     ++ joinpath output_directory (py "index.html")).

(** The error dialog of a run stopped by the exception [e]. *)
Definition error_dialog (e : exn) : CVPortfolioPipeline.event :=
  CVPortfolioPipeline.ShowError
    (py "Pipeline Error") (py "An error occurred:" ++ nl ++ nl ++ exn_str e).

(** How a run ends once the exception [e] has reached its handler, in the
    world [w] and after the calls [tr]: the error dialog is shown and the
    run returns [None]. The dialog itself may raise; nothing catches that. *)
Definition after_error {W : Type} (show_error : str -> str -> W -> outcome unit * W)
           (e : exn) (w : W) (tr : list CVPortfolioPipeline.event)
  : outcome (option str) * CVPortfolioPipeline.state W :=
  match show_error (py "Pipeline Error")
                   (py "An error occurred:" ++ nl ++ nl ++ exn_str e) w with
  | (Ret _, w') =>
      (Ret None, {| CVPortfolioPipeline.outside := w';
                    CVPortfolioPipeline.trace := tr ++ [error_dialog e] |})
  | (Raise e', w') =>
      (Raise e', {| CVPortfolioPipeline.outside := w';
                    CVPortfolioPipeline.trace := tr ++ [error_dialog e] |})
  end.


(* ===================================================================== *)
(** * [OllamaService] behind the interface *)
(* ===================================================================== *)

(** A method that catches every exception always yields a value; [settle]
    reads it off. The value [otherwise] stands where the method would have
    raised, which the methods of [OllamaService] never do. *)
Definition settle {St A} (m : M St A) (otherwise : A) : St -> A * St :=
  fun s =>
    match m s with
    | (Ret a, s') => (a, s')
    | (Raise _, s') => (otherwise, s')
    end.

Definition no_response : LLMResponse :=
  {| content := PStr []; model := []; success := false; error := None |}.

(** [OllamaService()] as an [ILLMService] *)
Definition ollama_service {RT} (rt : OllamaService.Runtime RT) : ILLMService.t RT :=
  ILLMService.make
    (fun prompt model config =>
       settle (OllamaService.generate rt prompt model config) no_response)
    (fun messages model config =>
       settle (OllamaService.chat rt messages model config) no_response)
    (fun model => settle (OllamaService.unload_model rt model) false)
    (settle (OllamaService.is_available rt) false).

(** The state of the runtime after [unload_model(model)] in the state [w]:
    the request to drop the model, and then the pause when the request
    returned. *)
Definition after_unload {RT} (rt : OllamaService.Runtime RT) (model : str) (w : RT) : RT :=
  match OllamaService.ollama_generate rt model [] (OllamaService.KeepAlive 0) w with
  | (Ret _, w') => OllamaService.sleep rt 2 w'
  | (Raise _, w') => w'
  end.


(* ===================================================================== *)
(** * [src/models/config.py] *)
(* ===================================================================== *)

Module LLMModelsConfig.
Record t := make { brain_model : str; coder_model : str }.
Definition default : t := make (py "deepseek-r1:7b") (py "qwen2.5-coder:14b").
End LLMModelsConfig.

Module AppConfig.
Record t := make {
    models : LLMModelsConfig.t;
    output_dir : str;
    debug_mode : bool;
    analysis_temperature : Q;
    generation_temperature : Q;
    context_window : Z;
    max_tokens : Z }.

(** [AppConfig()] and [AppConfig.default()] *)
Definition default : t :=
  make LLMModelsConfig.default (py "outputs") false (3 # 10)%Q (2 # 10)%Q 8192 4096.

(** [AppConfig.with_models]; an argument left out is [None]. *)
Definition with_models (brain_model coder_model : option str) : t :=
  make (LLMModelsConfig.make
          (match brain_model with Some m => m | None => py "deepseek-r1:7b" end)
          (match coder_model with Some m => m | None => py "qwen2.5-coder:14b" end))
       (py "outputs") false (3 # 10)%Q (2 # 10)%Q 8192 4096.
End AppConfig.

(* ===================================================================== *)
(** * [src/pipeline/container.py] *)
(* ===================================================================== *)

Module DependencyContainer.

Section Container.
(** The runtime behind [OllamaService()], and the functions of the Python
    library the analyzer and the generator use. *)
Variable RT : Type.
Variable rt : OllamaService.Runtime RT.
Variable json_loads : str -> outcome pyval.
Variable json_dumps : pyval -> str.
Variable repr : pyval -> str.

(** The document extractors, file services and user interfaces; the
    container only stores them. *)
Variable IDocumentExtractor : Type.
Variable IFileService : Type.
Variable IUIService : Type.

(** An [ICVAnalyzer] is its method [analyze], an [IPortfolioGenerator] its
    method [generate]. *)
Definition ICVAnalyzer : Type := str -> M (world RT) CVData.t.
Definition IPortfolioGenerator : Type := CVData.t -> str -> M (world RT) str.

Record t := make {
    _config : AppConfig.t;
    _llm_service : option (ILLMService.t RT);
    _document_extractor : option IDocumentExtractor;
    _cv_analyzer : option ICVAnalyzer;
    _portfolio_generator : option IPortfolioGenerator;
    _file_service : option IFileService;
    _ui_service : option IUIService }.

(** [DependencyContainer(config)] *)
Definition init (config : option AppConfig.t) : t :=
  make (match config with Some c => c | None => AppConfig.default end)
       None None None None None None.

(** The properties build a service on first use and keep it: each returns
    the service and the container as it is afterwards. *)

(** [DependencyContainer.llm_service] *)
Definition llm_service (self : t) : ILLMService.t RT * t :=
  match _llm_service self with
  | Some s => (s, self)
  | None =>
      let s := ollama_service rt in
      (s, make (_config self) (Some s) (_document_extractor self)
               (_cv_analyzer self) (_portfolio_generator self)
               (_file_service self) (_ui_service self))
  end.

(** [DependencyContainer.cv_analyzer] *)
Definition cv_analyzer (self : t) : ICVAnalyzer * t :=
  match _cv_analyzer self with
  | Some a => (a, self)
  | None =>
      let (llm, self) := llm_service self in
      let a := DeepSeekAnalyzer.analyze json_loads llm
                 (LLMModelsConfig.brain_model (AppConfig.models (_config self)))
                 (AppConfig.analysis_temperature (_config self)) in
      (a, make (_config self) (_llm_service self) (_document_extractor self)
               (Some a) (_portfolio_generator self)
               (_file_service self) (_ui_service self))
  end.

(** [DependencyContainer.portfolio_generator] *)
Definition portfolio_generator (self : t) : IPortfolioGenerator * t :=
  match _portfolio_generator self with
  | Some g => (g, self)
  | None =>
      let (llm, self) := llm_service self in
      let g := QwenPortfolioGenerator.generate json_dumps repr llm
                 (LLMModelsConfig.coder_model (AppConfig.models (_config self)))
                 (AppConfig.generation_temperature (_config self)) in
      (g, make (_config self) (_llm_service self) (_document_extractor self)
               (_cv_analyzer self) (Some g)
               (_file_service self) (_ui_service self))
  end.

(** [DependencyContainer.set_llm_service]: the services built on the
    former one are dropped. *)
Definition set_llm_service (service : ILLMService.t RT) (self : t) : t :=
  make (_config self) (Some service) (_document_extractor self)
       None None (_file_service self) (_ui_service self).

Definition set_document_extractor (extractor : IDocumentExtractor) (self : t) : t :=
  make (_config self) (_llm_service self) (Some extractor)
       (_cv_analyzer self) (_portfolio_generator self)
       (_file_service self) (_ui_service self).

Definition set_cv_analyzer (analyzer : ICVAnalyzer) (self : t) : t :=
  make (_config self) (_llm_service self) (_document_extractor self)
       (Some analyzer) (_portfolio_generator self)
       (_file_service self) (_ui_service self).

Definition set_portfolio_generator (generator : IPortfolioGenerator) (self : t) : t :=
  make (_config self) (_llm_service self) (_document_extractor self)
       (_cv_analyzer self) (Some generator)
       (_file_service self) (_ui_service self).

Definition set_file_service (service : IFileService) (self : t) : t :=
  make (_config self) (_llm_service self) (_document_extractor self)
       (_cv_analyzer self) (_portfolio_generator self)
       (Some service) (_ui_service self).

Definition set_ui_service (service : IUIService) (self : t) : t :=
  make (_config self) (_llm_service self) (_document_extractor self)
       (_cv_analyzer self) (_portfolio_generator self)
       (_file_service self) (Some service).

(** The service the container hands to what it builds. *)
Definition the_llm_service (self : t) : ILLMService.t RT :=
  match _llm_service self with
  | Some s => s
  | None => ollama_service rt
  end.
End Container.

End DependencyContainer.

(* ===================================================================== *)
(** * The pipeline over the container *)
(* ===================================================================== *)

(** [CVPortfolioPipeline(container=...).run()] with the analyzer and the
    generator that the container hands out. The runtime of the models is
    kept apart from the rest of the world (screen, files, clock), which
    the analyzer and the generator do not touch. *)
Section Application.
Variable RT : Type.
Variable rt : OllamaService.Runtime RT.
Variable json_loads : str -> outcome pyval.
Variable json_dumps : pyval -> str.
Variable repr : pyval -> str.
Variable IDocumentExtractor : Type.
Variable IFileService : Type.
Variable IUIService : Type.

(** The rest of the world, and the services that act on it. *)
Variable O : Type.
Variable select_file : str -> list (str * str) -> O -> outcome (option str) * O.
Variable show_success : str -> str -> O -> outcome unit * O.
Variable show_error : str -> str -> O -> outcome unit * O.
Variable extract : str -> O -> outcome str * O.
Variable save : str -> str -> str -> O -> outcome str * O.
Variable output_directory : str.
Variable stem : str -> str.
Variable joinpath : str -> str -> str.
Variable now : O -> str.

Record app_world := {
  container : DependencyContainer.t RT IDocumentExtractor IFileService IUIService;
  model_side : world RT;
  other : O }.

Definition aside {A} (f : O -> A * O) : app_world -> A * app_world :=
  fun w =>
    let (a, o) := f (other w) in
    (a, {| container := container w; model_side := model_side w; other := o |}).

(** [self._container.cv_analyzer.analyze(cv_text)] *)
Definition app_analyze (cv_text : str) : app_world -> outcome CVData.t * app_world :=
  fun w =>
    let (analyzer, c) := DependencyContainer.cv_analyzer rt json_loads (container w) in
    let (r, l) := analyzer cv_text (model_side w) in
    (r, {| container := c; model_side := l; other := other w |}).

(** [self._container.portfolio_generator.generate(cv_data)] *)
Definition app_generate (cv_data : CVData.t) : app_world -> outcome str * app_world :=
  fun w =>
    let (generator, c) :=
      DependencyContainer.portfolio_generator rt json_dumps repr (container w) in
    let (r, l) := generator cv_data [] (model_side w) in
    (r, {| container := c; model_side := l; other := other w |}).

Definition app_run : M (CVPortfolioPipeline.state app_world) (option str) :=
  CVPortfolioPipeline.run
    (fun title filetypes => aside (select_file title filetypes))
    (fun title message => aside (show_success title message))
    (fun title message => aside (show_error title message))
    (fun path => aside (extract path))
    app_analyze app_generate
    (fun content filename extension => aside (save content filename extension))
    output_directory json_dumps stem joinpath
    (fun w => now (other w)).
End Application.

(** The requests a complete run makes to the model service: the first
    model is asked and dropped before the second is asked. *)
Definition model_requests (brain coder : str)
           (messages1 : list Message) (config1 : option LLMConfig)
           (messages2 : list Message) (config2 : option LLMConfig) : list llm_call :=
  [CallChat brain messages1 config1; CallUnload brain;
   CallChat coder messages2 config2; CallUnload coder].


(* ===================================================================== *)
(** * [src/services/pdf_extractor.py] *)
(* ===================================================================== *)

(** [sep.join(l)] *)
Fixpoint join (sep : str) (l : list str) : str :=
  match l with
  | [] => []
  | x :: l' =>
      match l' with
      | [] => x
      | _ :: _ => x ++ sep ++ join sep l'
      end
  end.

Module PDFExtractor.

Section Extractor.
(** The file system, and what the extractor uses of the libraries:
    [Path.exists], [Path.suffix], and [pdfplumber]: opening a file gives
    its pages, [extract_text] of a page gives a text or [None], and either
    may raise. *)
Variable FS : Type.
Variable path_exists : str -> FS -> bool.
Variable suffix : str -> str.
Variable pdf_pages : str -> FS -> outcome (list (option str)) * FS.

Definition _supported_extensions : list str := [py ".pdf"].

(** [PDFExtractor.supports] *)
Definition supports (file_path : str) : bool :=
  existsb (str_eqb (lower (suffix file_path))) _supported_extensions.

(** The texts [extract] keeps: [if text:] *)
Fixpoint page_texts (pages : list (option str)) : list str :=
  match pages with
  | [] => []
  | Some (c :: text) :: pages' => (c :: text) :: page_texts pages'
  | _ :: pages' => page_texts pages'
  end.

(** [PDFExtractor.extract] *)
Definition extract (file_path : str) : M FS str :=
  fun fs =>
    if negb (path_exists file_path fs) then
      (Raise {| exn_cls := OtherException (py "FileNotFoundError");
                exn_str := py "PDF file not found: " ++ file_path |}, fs)
    else if negb (supports file_path) then
      (Raise {| exn_cls := OtherException (py "ValueError");
                exn_str := py "Unsupported file type: " ++ suffix file_path |}, fs)
    else
      (pages <- pdf_pages file_path ;;
       ret (join (nl ++ nl) (page_texts pages)))%monad fs.
End Extractor.

End PDFExtractor.

(** A page without visible text: no text at all, or blanks only. *)
Definition blank_page (page : option str) : bool :=
  match page with
  | None => true
  | Some text => forallb is_space text
  end.


(* ===================================================================== *)
(** * [src/services/local_file_service.py] *)
(* ===================================================================== *)

Module LocalFileService.

Section Service.
(** The file system, and what the service uses of the library:
    [Path.mkdir(parents=True, exist_ok=True)], writing and reading a text
    file, [Path.exists], and [Path / name]. *)
Variable FS : Type.
Variable mkdir : str -> FS -> outcome unit * FS.
Variable write_text : str -> str -> FS -> outcome unit * FS.
Variable read_text : str -> FS -> outcome str * FS.
Variable path_exists : str -> FS -> bool.
Variable joinpath : str -> str -> str.
(** the attribute of [self] *)
Variable _output_dir : str.

(** [LocalFileService.ensure_directory] *)
Definition ensure_directory (directory : str) : M FS str :=
  (mkdir directory ;;; ret directory)%monad.

(** [LocalFileService.output_directory] *)
Definition output_directory : str := _output_dir.

(** [LocalFileService.save]; a directory that is given is a [Path], which
    is never false. *)
Definition save (content filename extension : str) (directory : option str)
  : M FS str :=
  (let target_dir :=
     match directory with
     | Some d => d
     | None => _output_dir
     end in
   ensure_directory target_dir ;;;
   let output_path := joinpath target_dir (filename ++ py "." ++ extension) in
   write_text output_path content ;;;
   ret output_path)%monad.

(** [LocalFileService.read] *)
Definition read (file_path : str) : M FS str :=
  fun fs =>
    if negb (path_exists file_path fs) then
      (Raise {| exn_cls := OtherException (py "FileNotFoundError");
                exn_str := py "File not found: " ++ file_path |}, fs)
    else read_text file_path fs.
End Service.

End LocalFileService.


(* ===================================================================== *)
(** * A decoder for a fragment of JSON *)
(* ===================================================================== *)

(** The examples below need [json.loads] on a few concrete texts. This
    decoder reads the documents made of objects, arrays, strings without
    escape sequences, [null], [true] and [false], as [json.loads] reads
    them; any other text is refused with [JSONDecodeError]. *)
Module RefJson.

Definition is_ws (c : char) : bool :=
  ((c =? 32) || (c =? 9) || (c =? 10) || (c =? 13))%N.

Fixpoint skip_ws (s : str) : str :=
  match s with
  | c :: s' => if is_ws c then skip_ws s' else s
  | [] => []
  end.

(** The body of a string, up to its closing quote, and what follows. *)
Fixpoint scan_string (s : str) : option (str * str) :=
  match s with
  | [] => None
  | c :: s' =>
      if (c =? 34)%N then Some ([], s')
      else if ((c =? 92) || (c <? 32))%N then None
      else match scan_string s' with
           | Some (x, r) => Some (c :: x, r)
           | None => None
           end
  end.

(** [d[k] = v] *)
Fixpoint dict_set (k : str) (v : pyval) (d : pydict) : pydict :=
  match d with
  | [] => [(k, v)]
  | (k', v') :: d' =>
      if str_eqb k k' then (k', v) :: d' else (k', v') :: dict_set k v d'
  end.

Definition keyword (w : string) (v : pyval) (s : str) : option (pyval * str) :=
  if starts_with (py w) s then Some (v, skipn (length (py w)) s) else None.

Fixpoint value (fuel : nat) (s : str) : option (pyval * str) :=
  match fuel with
  | O => None
  | S f =>
      match s with
      | [] => None
      | c :: s' =>
          if (c =? 34)%N then
            match scan_string s' with
            | Some (x, r) => Some (PStr x, r)
            | None => None
            end
          else if (c =? 123)%N then
            match skip_ws s' with
            | c1 :: r => if (c1 =? 125)%N then Some (PDict [], r)
                         else members f (c1 :: r) []
            | [] => None
            end
          else if (c =? 91)%N then
            match skip_ws s' with
            | c1 :: r => if (c1 =? 93)%N then Some (PList [], r)
                         else elements f (c1 :: r) []
            | [] => None
            end
          else if (c =? 110)%N then keyword "null" PNone s
          else if (c =? 116)%N then keyword "true" (PBool true) s
          else if (c =? 102)%N then keyword "false" (PBool false) s
          else None
      end
  end
with members (fuel : nat) (s : str) (acc : pydict) : option (pyval * str) :=
  match fuel with
  | O => None
  | S f =>
      match s with
      | c :: s1 =>
          if (c =? 34)%N then
            match scan_string s1 with
            | Some (k, s2) =>
                match skip_ws s2 with
                | c2 :: s3 =>
                    if (c2 =? 58)%N then
                      match value f (skip_ws s3) with
                      | Some (v, s4) =>
                          match skip_ws s4 with
                          | c4 :: r =>
                              if (c4 =? 125)%N then Some (PDict (dict_set k v acc), r)
                              else if (c4 =? 44)%N
                                   then members f (skip_ws r) (dict_set k v acc)
                                   else None
                          | [] => None
                          end
                      | None => None
                      end
                    else None
                | [] => None
                end
            | None => None
            end
          else None
      | [] => None
      end
  end
with elements (fuel : nat) (s : str) (acc : list pyval) : option (pyval * str) :=
  match fuel with
  | O => None
  | S f =>
      match value f s with
      | Some (v, s1) =>
          match skip_ws s1 with
          | c :: r =>
              if (c =? 93)%N then Some (PList (acc ++ [v]), r)
              else if (c =? 44)%N then elements f (skip_ws r) (acc ++ [v])
              else None
          | [] => None
          end
      | None => None
      end
  end.

Definition decode_error : exn := mk_exn JSONDecodeError "Expecting value".

Definition loads (s : str) : outcome pyval :=
  match value (S (length s)) (skip_ws s) with
  | Some (v, r) =>
      match skip_ws r with
      | [] => Ret v
      | _ :: _ => Raise decode_error
      end
  | None => Raise decode_error
  end.

End RefJson.

(** [json.loads] turns an integer literal into a number with [int], and
    [int] refuses a literal of more than 4300 digits
    ([sys.int_info.default_max_str_digits]) with a [ValueError], which is no
    [JSONDecodeError]. This decoder adds to [RefJson] the objects with a
    single member whose value is an unsigned integer literal. *)
Module IntJson.

Definition max_str_digits : nat := 4300.

Definition is_digit (c : char) : bool := ((48 <=? c) && (c <=? 57))%N.

(** The digits at the head of a text, and what follows. *)
Fixpoint digits (s : str) : str * str :=
  match s with
  | c :: s' =>
      if is_digit c then let (d, r) := digits s' in (c :: d, r) else ([], s)
  | [] => ([], [])
  end.

Definition int_of (d : str) : Z :=
  fold_left (fun z c => (10 * z + Z.of_N (c - 48))%Z) d 0%Z.

(** A literal with a leading zero is no number of JSON. *)
Definition leading_zero (d : str) : bool :=
  match d with
  | c :: _ :: _ => (c =? 48)%N
  | _ => false
  end.

(** [str(n)] for a natural number *)
Fixpoint decimal_go (fuel : nat) (n : N) (acc : str) : str :=
  match fuel with
  | O => acc
  | S f =>
      let acc' := (48 + n mod 10)%N :: acc in
      if (n / 10 =? 0)%N then acc' else decimal_go f (n / 10)%N acc'
  end.

Definition decimal (n : nat) : str := decimal_go (S n) (N.of_nat n) [].

(** What [int] raises on a literal of [n] digits, [n] over the limit. *)
Definition digit_limit_error (n : nat) : exn :=
  {| exn_cls := OtherException (py "ValueError");
     exn_str := py "Exceeds the limit (4300 digits) for integer string conversion: value has "
                ++ decimal n
                ++ py " digits; use sys.set_int_max_str_digits() to increase the limit" |}.

(** The key and the digits of a text that is an object with one member
    whose value is an unsigned integer literal. *)
Definition integer_member (s : str) : option (str * str) :=
  match RefJson.skip_ws s with
  | c0 :: s1 =>
      if (c0 =? 123)%N then
        match RefJson.skip_ws s1 with
        | c1 :: s2 =>
            if (c1 =? 34)%N then
              match RefJson.scan_string s2 with
              | Some (k, s3) =>
                  match RefJson.skip_ws s3 with
                  | c3 :: s4 =>
                      if (c3 =? 58)%N then
                        let (d, s5) := digits (RefJson.skip_ws s4) in
                        match d, RefJson.skip_ws s5 with
                        | _ :: _, c5 :: s6 =>
                            if (c5 =? 125)%N then
                              match RefJson.skip_ws s6 with
                              | [] => Some (k, d)
                              | _ :: _ => None
                              end
                            else None
                        | _, _ => None
                        end
                      else None
                  | [] => None
                  end
              | None => None
              end
            else None
        | [] => None
        end
      else None
  | [] => None
  end.

Definition loads (s : str) : outcome pyval :=
  match integer_member s with
  | Some (k, d) =>
      if leading_zero d then Raise RefJson.decode_error
      else if max_str_digits <? length d then Raise (digit_limit_error (length d))
      else Ret (PDict [(k, PInt (int_of d))])
  | None => RefJson.loads s
  end.

End IntJson.

(* ===================================================================== *)
(** * Services and texts used in the examples *)
(* ===================================================================== *)

(** A service that answers every request with [text], and one that fails
    every request. Neither has a state. *)
Definition answering_llm (text : str) : ILLMService.t unit :=
  ILLMService.make
    (fun _ model _ w =>
       ({| content := PStr text; model := model; success := true; error := None |}, w))
    (fun _ model _ w =>
       ({| content := PStr text; model := model; success := true; error := None |}, w))
    (fun _ w => (true, w))
    (fun w => (true, w)).

Definition failing_llm : ILLMService.t unit :=
  ILLMService.make
    (fun _ model _ w =>
       ({| content := PStr []; model := model; success := false;
           error := Some (py "connection refused") |}, w))
    (fun _ model _ w =>
       ({| content := PStr []; model := model; success := false;
           error := Some (py "connection refused") |}, w))
    (fun _ w => (false, w))
    (fun w => (true, w)).

(** A service whose replies are successes with the content [None]. *)
Definition null_llm : ILLMService.t unit :=
  ILLMService.make
    (fun _ model _ w =>
       ({| content := PNone; model := model; success := true; error := None |}, w))
    (fun _ model _ w =>
       ({| content := PNone; model := model; success := true; error := None |}, w))
    (fun _ w => (true, w))
    (fun w => (true, w)).

Definition fresh : world unit := {| svc_state := tt; calls := [] |}.

Definition deepseek : str := py "deepseek-r1:7b".

(** A filled record. *)
Definition jane : CVData.t :=
  CVData.make
    (PersonalInfo.make (PStr (py "Jane Doe")) (PStr (py "Engineer")) empty_str
                       empty_str (PStr (py "jane@example.org")) PNone PNone)
    (Links.make PNone (PStr (py "https://github.com/jane")) PNone empty_list)
    [Experience.make (PStr (py "Acme")) (PStr (py "Developer"))
                     (PStr (py "2020-2023")) empty_str
                     (PList [PStr (py "shipped")])]
    [Project.make (PStr (py "Rover")) empty_str (PList [PStr (py "Python")])
                  PNone (PStr (py "App"))]
    [Education.make (PStr (py "MIT")) (PStr (py "BSc")) (PStr (py "2016-2020"))]
    (Skills.make (PList [PStr (py "Python"); PStr (py "Rust")]) empty_list
                 (PList [PStr (py "git")]) empty_list)
    (PList [PStr (py "AWS")]) (PList [PStr (py "English")])
    PNone [].

(** A page with both closing tags and the marker, and a fragment with
    neither. *)
Definition marked_page : str :=
  py "<html><head></head><body><p class='aos-animate'>x</p></body></html>".
Definition bare_fragment : str := py "<p>hello</p>".

(** Replies of the model: an empty one, an object that carries its own
    ["raw_analysis"] entry beside a structured list, a fenced object after
    a reasoning preamble with the name under ["personal"], the same with the
    name at the top level, a fenced object inside the preamble, and two
    fenced objects after the preamble. *)
Definition empty_reply : str := [].

Definition reply_with_raw_entry : str :=
  pyq "{~raw_analysis~: ~x~, ~certifications~: [~a~]}".

Definition jane_reply : str :=
  pyq "<think>The CV names Jane Doe.</think>
```json
{~personal~: {~name~: ~Jane Doe~, ~email~: null}, ~certifications~: [~AWS~]}
```".

Definition jane_reply_flat : str :=
  pyq "<think>The CV names Jane Doe.</think>
```json
{~name~: ~Jane Doe~}
```".

Definition jane_reply_inside : str :=
  pyq "<think>
```json
{~personal~: {~name~: ~Jane Doe~}}
```
</think>".

Definition jane_reply_second : str :=
  pyq "<think>One object per person.</think>
```json
{~personal~: {~name~: ~John Roe~}}
```
```json
{~personal~: {~name~: ~Jane Doe~}}
```".

Definition reply (text : str) : LLMResponse :=
  {| content := PStr text; model := deepseek; success := true; error := None |}.

(** The record [analyze] builds from [jane_reply]. *)
Definition jane_record (cv_text : str) : CVData.t :=
  CVData.make
    (PersonalInfo.make (PStr (py "Jane Doe")) empty_str empty_str empty_str
                       PNone PNone PNone)
    Links.default [] [] [] Skills.default
    (PList [PStr (py "AWS")]) empty_list PNone cv_text.

(** An object whose one member is an integer of 4301 digits, alone and
    inside a fence. *)
Definition long_integer_object : str :=
  pyq "{~n~: " ++ repeat 49%N 4301 ++ py "}".

Definition long_integer_fenced : str :=
  py "```json" ++ nl ++ long_integer_object ++ nl ++ py "```".

(** A reply whose [personal] section is [null], and a page without the
    marker. *)
Definition null_section_reply : str := pyq "{~personal~: null}".

Definition unmarked_page : str :=
  py "<!DOCTYPE html><html><head></head><body><p>x</p></body></html>".


(** A runtime that refuses every request, one that answers every chat
    with a reply that has no message, and one whose replies hold a message
    with the content [None]; each keeps a log of what was asked of it. *)
Definition connection_refused : exn :=
  mk_exn (OtherException (py "ConnectionError")) "connection refused".

Definition refusing_runtime : OllamaService.Runtime (list str) :=
  {| OllamaService.ollama_generate :=
       fun _ _ _ log => (Raise connection_refused, log ++ [py "generate"]);
     OllamaService.ollama_chat :=
       fun _ _ _ log => (Raise connection_refused, log ++ [py "chat"]);
     OllamaService.ollama_list :=
       fun log => (Raise connection_refused, log ++ [py "list"]);
     OllamaService.sleep := fun _ log => log ++ [py "sleep"] |}.

Definition silent_runtime : OllamaService.Runtime (list str) :=
  {| OllamaService.ollama_generate :=
       fun _ _ _ log => (Ret [], log ++ [py "generate"]);
     OllamaService.ollama_chat :=
       fun _ _ _ log => (Ret [], log ++ [py "chat"]);
     OllamaService.ollama_list := fun log => (Ret tt, log ++ [py "list"]);
     OllamaService.sleep := fun _ log => log ++ [py "sleep"] |}.

Definition null_reply : pydict := [(py "message", PDict [(py "content", PNone)])].

Definition null_runtime : OllamaService.Runtime (list str) :=
  {| OllamaService.ollama_generate :=
       fun _ _ _ log => (Ret [], log ++ [py "generate"]);
     OllamaService.ollama_chat :=
       fun _ _ _ log => (Ret null_reply, log ++ [py "chat"]);
     OllamaService.ollama_list := fun log => (Ret tt, log ++ [py "list"]);
     OllamaService.sleep := fun _ log => log ++ [py "sleep"] |}.

Definition idle : world (list str) := {| svc_state := []; calls := [] |}.


(** A runtime that answers every chat with [unmarked_page], and a world in
    which a file is selected, its text is extracted and every file is
    written; the container is a new one. *)
Definition page_runtime : OllamaService.Runtime (list str) :=
  {| OllamaService.ollama_generate :=
       fun _ _ _ log => (Ret [], log ++ [py "generate"]);
     OllamaService.ollama_chat :=
       fun _ _ _ log =>
         (Ret [(py "message", PDict [(py "content", PStr unmarked_page)])],
          log ++ [py "chat"]);
     OllamaService.ollama_list := fun log => (Ret tt, log ++ [py "list"]);
     OllamaService.sleep := fun _ log => log ++ [py "sleep"] |}.

(** A runtime that answers the first chat with [unmarked_page] and every
    later one with a message whose content is [None]. *)
Definition fickle_runtime : OllamaService.Runtime (list str) :=
  {| OllamaService.ollama_generate :=
       fun _ _ _ log => (Ret [], log ++ [py "generate"]);
     OllamaService.ollama_chat :=
       fun _ _ _ log =>
         (Ret match log with
              | [] => [(py "message", PDict [(py "content", PStr unmarked_page)])]
              | _ :: _ => null_reply
              end,
          log ++ [py "chat"]);
     OllamaService.ollama_list := fun log => (Ret tt, log ++ [py "list"]);
     OllamaService.sleep := fun _ log => log ++ [py "sleep"] |}.

Definition desk : CVPortfolioPipeline.state (app_world (list str) unit unit unit unit) :=
  {| CVPortfolioPipeline.outside :=
       {| container := DependencyContainer.init (list str) unit unit unit None;
          model_side := idle;
          other := tt |};
     CVPortfolioPipeline.trace := [] |}.

Definition desk_run (rt : OllamaService.Runtime (list str))
  : M (CVPortfolioPipeline.state (app_world (list str) unit unit unit unit))
      (option str) :=
  app_run rt RefJson.loads (fun _ => []) (fun _ => [])
    (fun _ _ o => (Ret (Some (py "cv.pdf")), o))
    (fun _ _ o => (Ret tt, o)) (fun _ _ o => (Ret tt, o))
    (fun _ o => (Ret (py "Jane Doe, engineer"), o))
    (fun _ filename extension o =>
       (Ret (py "outputs/" ++ filename ++ py "." ++ extension), o))
    (py "outputs") (fun _ => py "cv") (fun a b => a ++ py "/" ++ b)
    (fun _ => py "20240101_120000").


(** A scanned document: it exists, its suffix is in capitals, and none of
    its three pages has visible text. *)
Definition scanned_pages : list (option str) := [None; Some (py "  "); Some []].

Definition scanner_run : M (CVPortfolioPipeline.state unit) (option str) :=
  CVPortfolioPipeline.run
    (fun _ _ w => (Ret (Some (py "scan.PDF")), w))
    (fun _ _ w => (Ret tt, w)) (fun _ _ w => (Ret tt, w))
    (PDFExtractor.extract (fun _ _ => true) (fun _ => py ".PDF")
                          (fun _ w => (Ret scanned_pages, w)))
    (fun _ w => (Ret CVData.default, w))
    (fun _ w => (Ret unmarked_page, w))
    (fun _ filename extension w =>
       (Ret (py "outputs/" ++ filename ++ py "." ++ extension), w))
    (py "outputs") (fun _ => []) (fun _ => py "scan") (fun a b => a ++ py "/" ++ b)
    (fun _ => py "20240101_120000").

Definition at_start : CVPortfolioPipeline.state unit :=
  {| CVPortfolioPipeline.outside := tt; CVPortfolioPipeline.trace := [] |}.

(** A session without a display: [tk.Tk()], with which every dialog of
    [TkinterUIService] starts, raises [TclError]. And a session in which
    the selection dialog works, the document cannot be read and the error
    dialog raises. *)
Definition no_display : exn :=
  mk_exn (OtherException (py "TclError"))
         "no display name and no $DISPLAY environment variable".

Definition headless_run : M (CVPortfolioPipeline.state unit) (option str) :=
  CVPortfolioPipeline.run
    (fun _ _ w => (Raise no_display, w))
    (fun _ _ w => (Raise no_display, w)) (fun _ _ w => (Raise no_display, w))
    (fun _ w => (Ret (py "Jane Doe, engineer"), w))
    (fun _ w => (Ret jane, w))
    (fun _ w => (Ret unmarked_page, w))
    (fun _ filename extension w =>
       (Ret (py "outputs/" ++ filename ++ py "." ++ extension), w))
    (py "outputs") (fun _ => py "{}") (fun _ => py "cv") (fun a b => a ++ py "/" ++ b)
    (fun _ => py "20240101_120000").

Definition unreadable : exn :=
  mk_exn (OtherException (py "FileNotFoundError")) "PDF file not found: cv.pdf".

Definition unreadable_run : M (CVPortfolioPipeline.state unit) (option str) :=
  CVPortfolioPipeline.run
    (fun _ _ w => (Ret (Some (py "cv.pdf")), w))
    (fun _ _ w => (Ret tt, w)) (fun _ _ w => (Raise no_display, w))
    (fun _ w => (Raise unreadable, w))
    (fun _ w => (Ret jane, w))
    (fun _ w => (Ret unmarked_page, w))
    (fun _ filename extension w =>
       (Ret (py "outputs/" ++ filename ++ py "." ++ extension), w))
    (py "outputs") (fun _ => py "{}") (fun _ => py "cv") (fun a b => a ++ py "/" ++ b)
    (fun _ => py "20240101_120000").


(** A file system that keeps what was written, oldest first, and a run
    over it in which every stage returns. *)
Definition shelf : Type := list (str * str).

Definition shelf_run : M (CVPortfolioPipeline.state shelf) (option str) :=
  CVPortfolioPipeline.run
    (fun _ _ w => (Ret (Some (py "cv.pdf")), w))
    (fun _ _ w => (Ret tt, w)) (fun _ _ w => (Ret tt, w))
    (fun _ w => (Ret (py "Jane Doe, engineer"), w))
    (fun _ w => (Ret jane, w))
    (fun _ w => (Ret unmarked_page, w))
    (fun content filename extension =>
       LocalFileService.save (fun _ w => (Ret tt, w))
                             (fun path text w => (Ret tt, w ++ [(path, text)]))
                             (fun a b => a ++ py "/" ++ b) (py "outputs")
                             content filename extension None)
    (LocalFileService.output_directory (py "outputs"))
    (fun _ => py "{}") (fun _ => py "cv") (fun a b => a ++ py "/" ++ b)
    (fun _ => py "20240101_120000").

Definition empty_shelf : CVPortfolioPipeline.state shelf :=
  {| CVPortfolioPipeline.outside := []; CVPortfolioPipeline.trace := [] |}.


(* ===================================================================== *)
(** * Properties of strings and of the matcher *)
(* ===================================================================== *)

Unset Implicit Arguments.

Example search_demo :
  option_map (group1 (pyq "a```json {~k~: {}} ``` b"))
             (re_search false json_fence_re (pyq "a```json {~k~: {}} ``` b"))
  = Some (pyq "{~k~: {}}").
Proof. vm_compute. reflexivity. Qed.

Example sub_demo :
  re_sub false think_re [] (py "a<think>x</think>b<think>
y</think>c") = py "abc".
Proof. vm_compute. reflexivity. Qed.

Example loads_demo :
  RefJson.loads (pyq "{~personal~: {~name~: ~Jane Doe~, ~email~: null}, ~certifications~: [~a~, ~b~]}")
  = Ret (PDict [(py "personal", PDict [(py "name", PStr (py "Jane Doe")); (py "email", PNone)]);
                (py "certifications", PList [PStr (py "a"); PStr (py "b")])]).
Proof. vm_compute. reflexivity. Qed.

Example loads_bad : RefJson.loads (py "{bad}") = Raise RefJson.decode_error.
Proof. vm_compute. reflexivity. Qed.

(** The preamble is matched lazily: it ends at the first closing tag. *)
Example sub_lazy :
  re_sub false think_re [] (py "a<think>x</think>y</think>") = py "ay</think>".
Proof. vm_compute. reflexivity. Qed.

(** The unfenced attempt takes the span from the first opening brace to
    the last closing brace, which may hold more than one object. *)
Example outermost_overmatch :
  option_map (group0 (pyq "see {~a~: ~x~} and {~b~: ~y~}."))
             (re_search false json_raw_re (pyq "see {~a~: ~x~} and {~b~: ~y~}."))
  = Some (pyq "{~a~: ~x~} and {~b~: ~y~}") /\
  ResponseParser.extract_json RefJson.loads (pyq "see {~a~: ~x~} and {~b~: ~y~}.")
  = Ret None.
Proof. vm_compute. split; reflexivity. Qed.

Example html_fenced :
  ResponseParser.extract_html
    (py "Here it is:
```html
<!doctype html><html><body>hi</body></html>
```
Enjoy.")
  = py "<!doctype html><html><body>hi</body></html>".
Proof. vm_compute. reflexivity. Qed.

Example html_unfenced :
  ResponseParser.extract_html (py "Sure. <!DOCTYPE html><html></html> Done.")
  = py "<!DOCTYPE html><html></html>".
Proof. vm_compute. reflexivity. Qed.

Example html_absent :
  ResponseParser.extract_html (py "  <p>no document</p>
") = py "<p>no document</p>".
Proof. vm_compute. reflexivity. Qed.

(** ** Strings *)

Lemma str_eqb_eq (a b : str) : str_eqb a b = true <-> a = b.
Proof.
  revert b; induction a as [|x a IH]; intros [|y b]; simpl; split; intros H;
    try reflexivity; try discriminate.
  - apply andb_true_iff in H as [Hx Hab]. apply N.eqb_eq in Hx.
    apply IH in Hab. now subst.
  - injection H as -> ->. rewrite N.eqb_refl. simpl. now apply IH.
Qed.

Lemma str_eqb_refl (a : str) : str_eqb a a = true.
Proof. now apply str_eqb_eq. Qed.

Lemma starts_with_spec (p s : str) :
  starts_with p s = true <-> exists r, s = p ++ r.
Proof.
  revert s; induction p as [|a p IH]; intros s; simpl.
  - split; [intros _; now exists s | reflexivity].
  - destruct s as [|b s].
    + split; [discriminate | intros [r Hr]; discriminate].
    + rewrite andb_true_iff, N.eqb_eq, IH. split.
      * intros [-> [r ->]]. now exists r.
      * intros [r Hr]. injection Hr as -> ->. split; [reflexivity | now exists r].
Qed.

Lemma contains_spec (sub s : str) :
  contains sub s = true <-> substring sub s.
Proof.
  induction s as [|c s IH]; simpl.
  - rewrite orb_false_r, starts_with_spec. split.
    + intros [r Hr]. exists [], r. exact Hr.
    + intros [a [r Hr]]. destruct a; [now exists r | discriminate].
  - rewrite orb_true_iff, starts_with_spec, IH. split.
    + intros [[r Hr] | [a [r Hr]]].
      * exists [], r. exact Hr.
      * exists (c :: a), r. simpl. now rewrite Hr.
    + intros [a [r Hr]]. destruct a as [|c' a].
      * left. now exists r.
      * right. injection Hr as -> ->. now exists a, r.
Qed.

Lemma slice_app (x g y : str) :
  slice (x ++ g ++ y) (length x) (length x + length g) = g.
Proof.
  unfold slice. rewrite skipn_app, skipn_all, Nat.sub_diag. simpl.
  replace (length x + length g - length x) with (length g + 0) by lia.
  rewrite firstn_app_2. simpl. apply app_nil_r.
Qed.

(** ** Literals *)

Lemma lit_eq_length ic l a : lit_eq ic l a -> length a = length l.
Proof. intros H. symmetry. exact (Forall2_length H). Qed.

Lemma lit_eq_exact l a : lit_eq false l a -> a = l.
Proof.
  induction 1 as [|p c l a Hpc _ IH]; [reflexivity|].
  simpl in Hpc. apply N.eqb_eq in Hpc. now subst.
Qed.

Lemma lit_eq_refl ic l : lit_eq ic l l.
Proof.
  induction l as [|p l IH]; constructor; [|exact IH].
  unfold char_match. destruct ic; apply N.eqb_refl.
Qed.

Lemma lit_match_sound ic l s s' :
  lit_match ic l s = Some s' -> exists a, s = a ++ s' /\ lit_eq ic l a.
Proof.
  revert s; induction l as [|p l IH]; intros s H; simpl in H.
  - injection H as ->. exists []. split; [reflexivity | constructor].
  - destruct s as [|c s]; [discriminate|].
    destruct (char_match ic p c) eqn:Hpc; [|discriminate].
    destruct (IH _ H) as [a [-> Ha]].
    exists (c :: a). split; [reflexivity | now constructor].
Qed.

Lemma lit_match_complete ic l a s' :
  lit_eq ic l a -> lit_match ic l (a ++ s') = Some s'.
Proof.
  induction 1 as [|p c l a Hpc _ IH]; simpl; [reflexivity|].
  now rewrite Hpc.
Qed.

(** ** Repetitions *)

Section RepetitionFacts.
Variable R : Type.
Variable c : cclass.
Variable k : str -> nat -> option R.

Lemma star_greedy_sound s n r :
  star_greedy c k s n = Some r ->
  exists a s', s = a ++ s' /\ all_in c a /\ k s' (n + length a) = Some r.
Proof.
  revert n; induction s as [|ch s IH]; intros n H; simpl in H.
  - exists [], []. rewrite Nat.add_0_r. repeat split; [constructor | exact H].
  - destruct (in_class c ch) eqn:Hch.
    + destruct (star_greedy c k s (S n)) eqn:Hrec.
      * injection H as ->. destruct (IH _ Hrec) as [a [s' [-> [Ha Hk]]]].
        exists (ch :: a), s'. simpl. rewrite <- plus_n_Sm.
        repeat split; [now constructor | exact Hk].
      * exists [], (ch :: s). rewrite Nat.add_0_r.
        repeat split; [constructor | exact H].
    + exists [], (ch :: s). rewrite Nat.add_0_r.
      repeat split; [constructor | exact H].
Qed.

Lemma star_greedy_complete a s' n :
  all_in c a -> k s' (n + length a) <> None ->
  star_greedy c k (a ++ s') n <> None.
Proof.
  revert n; induction a as [|ch a IH]; intros n Ha Hk; simpl.
  - rewrite Nat.add_0_r in Hk. destruct s' as [|ch s']; simpl; [exact Hk|].
    destruct (in_class c ch); [|exact Hk].
    destruct (star_greedy c k s' (S n)); [discriminate | exact Hk].
  - inversion Ha as [|? ? Hch Ha']; subst. rewrite Hch.
    simpl in Hk. rewrite <- plus_n_Sm in Hk.
    specialize (IH (S n) Ha' Hk).
    destruct (star_greedy c k (a ++ s') (S n)); [discriminate | contradiction].
Qed.

Lemma star_lazy_sound s n r :
  star_lazy c k s n = Some r ->
  exists a s', s = a ++ s' /\ all_in c a /\ k s' (n + length a) = Some r.
Proof.
  revert n; induction s as [|ch s IH]; intros n H; simpl in H.
  - destruct (k [] n) eqn:Hk; [|discriminate]. injection H as ->.
    exists [], []. rewrite Nat.add_0_r. repeat split; [constructor | exact Hk].
  - destruct (k (ch :: s) n) eqn:Hk.
    + injection H as ->. exists [], (ch :: s). rewrite Nat.add_0_r.
      repeat split; [constructor | exact Hk].
    + destruct (in_class c ch) eqn:Hch; [|discriminate].
      destruct (IH _ H) as [a [s' [-> [Ha Hk']]]].
      exists (ch :: a), s'. simpl. rewrite <- plus_n_Sm.
      repeat split; [now constructor | exact Hk'].
Qed.

Lemma star_lazy_complete a s' n :
  all_in c a -> k s' (n + length a) <> None ->
  star_lazy c k (a ++ s') n <> None.
Proof.
  revert n; induction a as [|ch a IH]; intros n Ha Hk; simpl.
  - rewrite Nat.add_0_r in Hk. destruct s' as [|ch s']; simpl;
      destruct (k _ n); try discriminate; contradiction.
  - inversion Ha as [|? ? Hch Ha']; subst. rewrite Hch.
    simpl in Hk. rewrite <- plus_n_Sm in Hk.
    destruct (k (ch :: a ++ s') n); [discriminate|].
    now apply IH.
Qed.

(** The lazy repetition stops at the first place where the rest of the
    pattern matches. *)
Lemma star_lazy_first a s' n r :
  all_in c a ->
  (forall a1 ch a2, a = a1 ++ ch :: a2 ->
                    k (ch :: a2 ++ s') (n + length a1) = None) ->
  k s' (n + length a) = Some r ->
  star_lazy c k (a ++ s') n = Some r.
Proof.
  revert n; induction a as [|ch a IH]; intros n Ha Hfail Hk; simpl.
  - rewrite Nat.add_0_r in Hk. destruct s'; simpl; now rewrite Hk.
  - inversion Ha as [|? ? Hch Ha']; subst.
    pose proof (Hfail [] ch a eq_refl) as H0. simpl in H0.
    rewrite Nat.add_0_r in H0. rewrite H0, Hch.
    apply IH; [exact Ha' | | ].
    + intros a1 ch' a2 ->. specialize (Hfail (ch :: a1) ch' a2 eq_refl).
      simpl in Hfail. now rewrite <- plus_n_Sm in Hfail.
    + simpl in Hk. now rewrite <- plus_n_Sm in Hk.
Qed.

(** The greedy repetition takes a whole run when the rest of the pattern
    matches after it and the run cannot be extended. *)
Lemma star_greedy_run a s' n r :
  all_in c a ->
  match s' with [] => True | ch :: _ => in_class c ch = false end ->
  k s' (n + length a) = Some r ->
  star_greedy c k (a ++ s') n = Some r.
Proof.
  revert n; induction a as [|ch a IH]; intros n Ha Hstop Hk; simpl.
  - rewrite Nat.add_0_r in Hk. destruct s' as [|ch s']; simpl; [exact Hk|].
    now rewrite Hstop.
  - inversion Ha as [|? ? Hch Ha']; subst. rewrite Hch.
    simpl in Hk. rewrite <- plus_n_Sm in Hk.
    now rewrite (IH (S n) Ha' Hstop Hk).
Qed.
End RepetitionFacts.

(** ** The matcher against the denotation *)

Lemma mt_sound ic p : forall s n ms e,
  mt ic p s n = Some (ms, e) ->
  exists u rest, s = u ++ rest /\ e = n + length u /\ den ic p n u ms.
Proof.
  induction p as [|a p IH]; intros s n ms e H; simpl in H.
  - injection H as <- <-. exists [], s. simpl. rewrite Nat.add_0_r. auto.
  - destruct a as [l | l | c | c | ].
    + destruct (lit_match ic l s) as [s'|] eqn:Hl; [|discriminate].
      destruct (lit_match_sound _ _ _ _ Hl) as [a [-> Ha]].
      rewrite <- (lit_eq_length _ _ _ Ha) in H.
      destruct (IH _ _ _ _ H) as [u [rest [-> [-> Hd]]]].
      exists (a ++ u), rest. rewrite <- app_assoc, length_app.
      repeat split; [lia|]. simpl. now exists a, u.
    + assert (Hskip : mt ic p s n = Some (ms, e) ->
                exists u rest, s = u ++ rest /\ e = n + length u
                               /\ den ic (OptLit l :: p) n u ms).
      { intros H'. destruct (IH _ _ _ _ H') as [u [rest [-> [-> Hd]]]].
        exists u, rest. repeat split. simpl. now left. }
      destruct (lit_match ic l s) as [s'|] eqn:Hl; [|now apply Hskip].
      destruct (mt ic p s' (n + length l)) as [r|] eqn:Hin; [|now apply Hskip].
      injection H as ->.
      destruct (lit_match_sound _ _ _ _ Hl) as [a [-> Ha]].
      rewrite <- (lit_eq_length _ _ _ Ha) in Hin.
      destruct (IH _ _ _ _ Hin) as [u [rest [-> [-> Hd]]]].
      exists (a ++ u), rest. rewrite <- app_assoc, length_app.
      repeat split; [lia|]. simpl. right. now exists a, u.
    + destruct (star_greedy_sound _ _ _ _ _ _ H) as [a [s' [-> [Ha Hk]]]].
      destruct (IH _ _ _ _ Hk) as [u [rest [-> [-> Hd]]]].
      exists (a ++ u), rest. rewrite <- app_assoc, length_app.
      repeat split; [lia|]. simpl. now exists a, u.
    + destruct (star_lazy_sound _ _ _ _ _ _ H) as [a [s' [-> [Ha Hk]]]].
      destruct (IH _ _ _ _ Hk) as [u [rest [-> [-> Hd]]]].
      exists (a ++ u), rest. rewrite <- app_assoc, length_app.
      repeat split; [lia|]. simpl. now exists a, u.
    + destruct (mt ic p s n) as [[ms' e']|] eqn:Hin; [|discriminate].
      injection H as <- <-.
      destruct (IH _ _ _ _ Hin) as [u [rest [-> [-> Hd]]]].
      exists u, rest. repeat split. simpl. now exists ms'.
Qed.

Lemma mt_complete ic p : forall n u ms rest,
  den ic p n u ms -> mt ic p (u ++ rest) n <> None.
Proof.
  induction p as [|a p IH]; intros n u ms rest H; simpl in H |- *.
  - discriminate.
  - destruct a as [l | l | c | c | ].
    + destruct H as [a [v [-> [Ha Hd]]]].
      rewrite <- app_assoc, (lit_match_complete _ _ _ _ Ha).
      rewrite <- (lit_eq_length _ _ _ Ha). now apply IH with (ms := ms).
    + destruct H as [Hd | [a [v [-> [Ha Hd]]]]].
      * pose proof (IH _ _ _ rest Hd) as Hne.
        destruct (lit_match ic l (u ++ rest)); [|exact Hne].
        destruct (mt ic p _ (n + length l)); [discriminate | exact Hne].
      * rewrite <- app_assoc, (lit_match_complete _ _ _ _ Ha).
        rewrite <- (lit_eq_length _ _ _ Ha).
        pose proof (IH _ _ _ rest Hd) as Hne.
        destruct (mt ic p (v ++ rest) (n + length a)); [discriminate | contradiction].
    + destruct H as [a [v [-> [Ha Hd]]]]. rewrite <- app_assoc.
      apply star_greedy_complete; [exact Ha | now apply IH with (ms := ms)].
    + destruct H as [a [v [-> [Ha Hd]]]]. rewrite <- app_assoc.
      apply star_lazy_complete; [exact Ha | now apply IH with (ms := ms)].
    + destruct H as [ms' [-> Hd]].
      pose proof (IH _ _ _ rest Hd) as Hne.
      destruct (mt ic p (u ++ rest) n) as [[? ?]|]; [discriminate | contradiction].
Qed.

(** ** Searching *)

Lemma search_sound ic p : forall s i m,
  search_from ic p s i = Some m ->
  exists a u rest,
    s = a ++ u ++ rest /\ m_start m = i + length a /\
    m_end m = m_start m + length u /\ den ic p (m_start m) u (m_marks m).
Proof.
  induction s as [|ch s IH]; intros i m H; simpl in H.
  - destruct (mt ic p [] i) as [[ms e]|] eqn:Hm; [|discriminate].
    injection H as <-. simpl.
    destruct (mt_sound _ _ _ _ _ _ Hm) as [u [rest [Hs [-> Hd]]]].
    exists [], u, rest. simpl. rewrite Nat.add_0_r. auto.
  - destruct (mt ic p (ch :: s) i) as [[ms e]|] eqn:Hm.
    + injection H as <-. simpl.
      destruct (mt_sound _ _ _ _ _ _ Hm) as [u [rest [Hs [-> Hd]]]].
      exists [], u, rest. simpl. rewrite Nat.add_0_r. auto.
    + destruct (IH _ _ H) as [a [u [rest [-> [Hst [Hen Hd]]]]]].
      exists (ch :: a), u, rest. simpl. rewrite <- plus_n_Sm. auto.
Qed.

Lemma search_complete ic p : forall a i u ms rest,
  den ic p (i + length a) u ms ->
  search_from ic p (a ++ u ++ rest) i <> None.
Proof.
  induction a as [|ch a IH]; intros i u ms rest Hd; simpl in Hd |- *.
  - rewrite Nat.add_0_r in Hd. pose proof (mt_complete _ _ _ _ _ rest Hd) as Hne.
    destruct (u ++ rest); simpl;
      destruct (mt ic p _ i) as [[? ?]|]; try discriminate; contradiction.
  - destruct (mt ic p (ch :: a ++ u ++ rest) i) as [[? ?]|]; [discriminate|].
    rewrite <- plus_n_Sm in Hd. now apply IH with (ms := ms).
Qed.

(* ===================================================================== *)
(** * The model gateway *)
(* ===================================================================== *)

(** C8. Whatever the runtime does (return or raise), [OllamaService.generate]
    and [OllamaService.chat] return: the result is a value, never a raised
    exception, and it is either a success with no error or a failure with
    an error text and empty content, never both. *)
Theorem ollama_never_raises_and_results_are_exclusive :
  forall (RT : Type) (rt : OllamaService.Runtime RT)
         (prompt model : str) (messages : list Message)
         (config : option LLMConfig) (w : RT),
    (exists r w', OllamaService.generate rt prompt model config w = (Ret r, w')
                  /\ well_formed r
                  /\ (success r = true -> error r = None)
                  /\ (error r <> None -> success r = false)) /\
    (exists r w', OllamaService.chat rt messages model config w = (Ret r, w')
                  /\ well_formed r
                  /\ (success r = true -> error r = None)
                  /\ (error r <> None -> success r = false)).
Proof.
  intros RT rt prompt model messages config w. split.
  - unfold OllamaService.generate, try_except, bind, ret.
    destruct (OllamaService.ollama_generate rt model prompt _ w) as [[response | e] w'];
      eexists; eexists; (split; [reflexivity|]); simpl.
    + split; [left; split; reflexivity|]. split; [reflexivity|].
      intros H; now elim H.
    + split; [right; split; [reflexivity | split; [eexists; reflexivity | reflexivity]]|].
      split; [discriminate | reflexivity].
  - unfold OllamaService.chat, try_except, bind, ret, of_outcome.
    destruct (OllamaService.ollama_chat rt model messages _ w) as [[response | e] w'];
      [destruct (OllamaService.message_content response) as [c | e]|];
      eexists; eexists; (split; [reflexivity|]); simpl.
    + split; [left; split; reflexivity|]. split; [reflexivity|].
      intros H; now elim H.
    + split; [right; split; [reflexivity | split; [eexists; reflexivity | reflexivity]]|].
      split; [discriminate | reflexivity].
    + split; [right; split; [reflexivity | split; [eexists; reflexivity | reflexivity]]|].
      split; [discriminate | reflexivity].
Qed.

(* ===================================================================== *)
(** * Eviction on the failure path *)
(* ===================================================================== *)

(** C5. Against a service whose [chat] always returns a failure,
    [DeepSeekAnalyzer.analyze] calls [unload_model] on its model exactly
    once, after the request, and then raises [AnalysisError];
    [QwenPortfolioGenerator.generate] does the same and raises
    [GenerationError]. The eviction is already recorded in the state in
    which the exception is raised. *)
Theorem eviction_on_failure :
  forall (W : Type) (llm : ILLMService.t W)
         (json_loads : str -> outcome pyval)
         (json_dumps repr : pyval -> str)
         (model : str) (temperature : Q),
    (forall msgs m cfg s,
        success (fst (ILLMService.chat llm msgs m cfg s)) = false) ->
    forall (cv_text original : str) (cv_data : CVData.t) (w : world W),
      (exists e w' msgs cfg,
          DeepSeekAnalyzer.analyze json_loads llm model temperature cv_text w
          = (Raise e, w')
          /\ exn_cls e = AnalysisError
          /\ calls w' = calls w ++ [CallChat model msgs cfg; CallUnload model]
          /\ unload_count model (calls w') = S (unload_count model (calls w)))
      /\
      (exists e w' msgs cfg,
          QwenPortfolioGenerator.generate json_dumps repr llm model temperature
                                          cv_data original w
          = (Raise e, w')
          /\ exn_cls e = GenerationError
          /\ calls w' = calls w ++ [CallChat model msgs cfg; CallUnload model]
          /\ unload_count model (calls w') = S (unload_count model (calls w))).
Proof.
  intros W llm json_loads json_dumps repr model temperature Hfail
         cv_text original cv_data w.
  assert (Hcount : forall cs c,
             unload_count model (cs ++ [CallChat model (fst c) (snd c); CallUnload model])
             = S (unload_count model cs)).
  { intros cs c. unfold unload_count. rewrite filter_app, length_app. simpl.
    rewrite str_eqb_refl. simpl. lia. }
  split.
  - unfold DeepSeekAnalyzer.analyze, bind, call_chat.
    match goal with
    | |- context [ILLMService.chat llm ?ms ?m ?c ?s] =>
        pose proof (Hfail ms m c s) as Hf;
        destruct (ILLMService.chat llm ms m c s) as [r s'] eqn:Hchat
    end.
    simpl in Hf. rewrite Hf. simpl.
    unfold bind, call_unload_model. simpl.
    destruct (ILLMService.unload_model llm model s') as [b s''].
    unfold raise. do 4 eexists. split; [reflexivity|]. simpl.
    split; [reflexivity|]. rewrite <- app_assoc. simpl.
    split; [reflexivity|].
    match goal with
    | |- context [CallChat model ?ms ?c] => exact (Hcount (calls w) (ms, c))
    end.
  - unfold QwenPortfolioGenerator.generate, bind, call_chat.
    match goal with
    | |- context [ILLMService.chat llm ?ms ?m ?c ?s] =>
        pose proof (Hfail ms m c s) as Hf;
        destruct (ILLMService.chat llm ms m c s) as [r s'] eqn:Hchat
    end.
    simpl in Hf. rewrite Hf. simpl.
    unfold bind, call_unload_model. simpl.
    destruct (ILLMService.unload_model llm model s') as [b s''].
    unfold raise. do 4 eexists. split; [reflexivity|]. simpl.
    split; [reflexivity|]. rewrite <- app_assoc. simpl.
    split; [reflexivity|].
    match goal with
    | |- context [CallChat model ?ms ?c] => exact (Hcount (calls w) (ms, c))
    end.
Qed.

Lemma eviction_on_failure_witness :
  (forall msgs m cfg s,
      success (fst (ILLMService.chat failing_llm msgs m cfg s)) = false) /\
  (exists e w' msgs cfg,
      DeepSeekAnalyzer.analyze RefJson.loads failing_llm deepseek (3 # 10)%Q
                               (py "Jane Doe, engineer") fresh
      = (Raise e, w')
      /\ exn_cls e = AnalysisError
      /\ calls w' = calls fresh ++ [CallChat deepseek msgs cfg; CallUnload deepseek]
      /\ unload_count deepseek (calls w') = S (unload_count deepseek (calls fresh))).
Proof.
  split.
  - intros msgs m cfg s. reflexivity.
  - exact (proj1 (eviction_on_failure unit failing_llm RefJson.loads
                    (fun _ => []) (fun _ => []) deepseek (3 # 10)%Q
                    (fun _ _ _ _ => eq_refl)
                    (py "Jane Doe, engineer") [] CVData.default fresh)).
Defined.

(* ===================================================================== *)
(** * The orchestrator *)
(* ===================================================================== *)

Section PipelineFacts.
Import CVPortfolioPipeline.
Variable W : Type.
Variable select_file : str -> list (str * str) -> W -> outcome (option str) * W.
Variable show_success : str -> str -> W -> outcome unit * W.
Variable show_error : str -> str -> W -> outcome unit * W.
Variable extract : str -> W -> outcome str * W.
Variable analyze : str -> W -> outcome CVData.t * W.
Variable generate : CVData.t -> W -> outcome str * W.
Variable save : str -> str -> str -> W -> outcome str * W.
Variable output_directory : str.
Variable json_dumps : pyval -> str.
Variable stem : str -> str.
Variable joinpath : str -> str -> str.
Variable now : W -> str.

Local Abbreviation the_run_body :=
  (run_body select_file show_success extract analyze generate save
            output_directory json_dumps stem joinpath now).
Local Abbreviation the_run :=
  (run select_file show_success show_error extract analyze generate save
       output_directory json_dumps stem joinpath now).
Local Abbreviation st := (state W).
Local Abbreviation the_selection :=
  (select_file (py "Select Your CV (PDF)")
               [(py "PDF files", py "*.pdf"); (py "All files", py "*.*")]).
Local Abbreviation caught := (after_error show_error).
Local Abbreviation the_stages := (stages json_dumps stem).

Ltac red_pipeline :=
  cbv beta iota zeta delta
    [run run_body try_except bind ret _select_pdf _extract_text
     _analyze_cv _generate_portfolio _save_outputs _print_success
     _handle_error do_select_file do_extract do_analyze do_generate
     do_save do_show_success do_show_error get_now after_error error_dialog
     success_dialog stages];
  cbn [fst snd trace outside].

Ltac step_pipeline :=
  match goal with
  | |- context [select_file ?a ?b ?w] =>
      destruct (select_file a b w) as [[[?|]|?] ?] eqn:?
  | |- context [extract ?a ?w] =>
      destruct (extract a w) as [[?|?] ?] eqn:?
  | |- context [analyze ?a ?w] =>
      destruct (analyze a w) as [[?|?] ?] eqn:?
  | |- context [generate ?a ?w] =>
      destruct (generate a w) as [[?|?] ?] eqn:?
  | |- context [save ?a ?b ?c ?w] =>
      destruct (save a b c w) as [[?|?] ?] eqn:?
  | |- context [show_success ?a ?b ?w] =>
      destruct (show_success a b w) as [[?|?] ?] eqn:?
  | |- context [show_error ?a ?b ?w] =>
      destruct (show_error a b w) as [[?|?] ?] eqn:?
  | |- context [match strip ?x with _ => _ end] =>
      destruct (strip x) eqn:?
  | |- context [match ?x with [] => _ | _ :: _ => _ end] =>
      is_var x; destruct x
  end; red_pipeline.

(** Run the pipeline along the outcomes that the hypotheses give. *)
Ltac follow :=
  red_pipeline;
  repeat (match goal with
          | H : ?f = (_, _) |- context [?f] => rewrite H
          | H : strip ?t <> [] |- context [strip ?t] =>
              destruct (strip t); [contradiction|]
          | H : ?x <> [] |- context [match ?x with [] => _ | _ :: _ => _ end] =>
              destruct x; [contradiction|]
          end; red_pipeline);
  repeat rewrite <- app_assoc; cbn [app].

(** The body of [run] never shows the error dialog itself, and enters
    no stage twice. *)
Lemma run_body_trace (s : st) :
  exists tr,
    trace (snd (the_run_body s)) = trace s ++ SelectFile :: tr /\
    count is_select_file tr = 0 /\ count is_show_error tr = 0 /\
    count is_extract tr <= 1 /\ count is_analyze tr <= 1 /\
    count is_generate tr <= 1.
Proof.
  red_pipeline.
  repeat step_pipeline;
    repeat rewrite <- app_assoc; cbn [app];
    eexists; (split; [reflexivity|]); unfold count; cbn;
    repeat split; lia.
Qed.

(** [run] is its body, and the handler on what the body raised. *)
Lemma run_catches (s : st) :
  the_run s =
  match the_run_body s with
  | (Ret v, s') => (Ret v, s')
  | (Raise e, s') => caught e (outside s') (trace s')
  end.
Proof.
  unfold run, try_except, after_error, _handle_error, do_show_error, bind, ret,
    error_dialog.
  destruct (the_run_body s) as [[v|e] s']; [reflexivity|].
  now destruct (show_error _ _ (outside s')) as [[[]|e'] w'].
Qed.

(** C9, as the code has it. An exception of a stage never leaves [run]:
    what [run] raises, if anything, was raised by the error dialog inside
    the handler, and [run] returns whenever that dialog returns. When no file
    is selected, [run] returns [None] after the selection dialog alone. When
    a call raises (the selection, the extraction, the analysis, the
    generation, any of the four saves, the success dialog), nothing more is
    called but the error dialog, once, with the text of the exception, and
    [run] returns [None] when the dialog returns. No stage is entered
    twice. *)
Theorem run_catches_every_stage_and_never_retries :
  forall s : st,
    (forall e, fst (the_run s) = Raise e ->
       exists e0 w,
         fst (the_run_body s) = Raise e0 /\
         fst (show_error (py "Pipeline Error")
                         (py "An error occurred:" ++ nl ++ nl ++ exn_str e0) w)
         = Raise e) /\
    ((forall title message w,
         exists w', show_error title message w = (Ret tt, w')) ->
     exists v, fst (the_run s) = Ret v) /\
    (forall w1, the_selection (outside s) = (Ret None, w1) ->
       the_run s = (Ret None, {| outside := w1; trace := trace s ++ [SelectFile] |})) /\
    (forall e w1, the_selection (outside s) = (Raise e, w1) ->
       the_run s = caught e w1 (trace s ++ [SelectFile])) /\
    (forall p w1, the_selection (outside s) = (Ret (Some p), w1) ->
     (forall e w2, extract p w1 = (Raise e, w2) ->
        the_run s = caught e w2 (trace s ++ [SelectFile; Extract p])) /\
     (forall t w2, extract p w1 = (Ret t, w2) -> strip t <> [] ->
      (forall e w3, save t (py "cv_raw_text") (py "txt") w2 = (Raise e, w3) ->
         the_run s
         = caught e w3 (trace s ++ [SelectFile; Extract p;
                                    Save t (py "cv_raw_text") (py "txt")])) /\
      (forall q1 w3, save t (py "cv_raw_text") (py "txt") w2 = (Ret q1, w3) ->
       (forall e w4, analyze t w3 = (Raise e, w4) ->
          the_run s
          = caught e w4 (trace s ++ [SelectFile; Extract p;
                                     Save t (py "cv_raw_text") (py "txt");
                                     Analyze t])) /\
       (forall cv w4, analyze t w3 = (Ret cv, w4) ->
        (forall e w5,
           save (json_dumps (PDict (CVData.to_dict cv)))
                (py "cv_extracted_data") (py "json") w4 = (Raise e, w5) ->
           the_run s = caught e w5 (trace s ++ firstn 5 (the_stages p t cv [] []))) /\
        (forall q2 w5,
           save (json_dumps (PDict (CVData.to_dict cv)))
                (py "cv_extracted_data") (py "json") w4 = (Ret q2, w5) ->
         (forall e w6, generate cv w5 = (Raise e, w6) ->
            the_run s = caught e w6 (trace s ++ firstn 6 (the_stages p t cv [] []))) /\
         (forall html w6, generate cv w5 = (Ret html, w6) -> html <> [] ->
          (forall e w7,
             save html (stem p ++ py "_portfolio_" ++ now w6) (py "html") w6
             = (Raise e, w7) ->
             the_run s
             = caught e w7 (trace s ++ firstn 7 (the_stages p t cv html (now w6)))) /\
          (forall out w7,
             save html (stem p ++ py "_portfolio_" ++ now w6) (py "html") w6
             = (Ret out, w7) ->
           (forall e w8, save html (py "index") (py "html") w7 = (Raise e, w8) ->
              the_run s
              = caught e w8 (trace s ++ the_stages p t cv html (now w6))) /\
           (forall q3 w8, save html (py "index") (py "html") w7 = (Ret q3, w8) ->
            forall e w9,
              show_success (py "Success! " ++ [127881%N])
                (py "Your portfolio has been generated!" ++ nl ++ nl
                 ++ py "Main file:" ++ nl ++ out ++ nl ++ nl
                 ++ py "Quick access:" ++ nl
                 ++ joinpath output_directory (py "index.html")) w8
              = (Raise e, w9) ->
              the_run s
              = caught e w9 (trace s ++ the_stages p t cv html (now w6)
                             ++ [success_dialog joinpath output_directory out]))))))))) /\
    (exists tr, trace (snd (the_run s)) = trace s ++ tr /\ no_retry tr).
Proof.
  intros s. split; [|split; [|split; [|split; [|split; [|]]]]].
  - intros e He. rewrite run_catches in He.
    destruct (the_run_body s) as [[v|e0] s']; [discriminate He|].
    exists e0, (outside s'). split; [reflexivity|].
    unfold after_error in He.
    destruct (show_error _ _ (outside s')) as [[[]|e'] w']; [discriminate He|].
    cbn [fst] in *. now injection He as ->.
  - intros Hshow. rewrite run_catches.
    destruct (the_run_body s) as [[v|e0] s']; [now exists v|].
    unfold after_error.
    destruct (Hshow (py "Pipeline Error")
                    (py "An error occurred:" ++ nl ++ nl ++ exn_str e0) (outside s'))
      as [w' ->].
    now exists None.
  - intros w1 H. now follow.
  - intros e w1 H. follow. now destruct (show_error _ _ w1) as [[[]|] ?].
  - intros p w1 Hsel. split.
    { intros e w2 H. follow. now destruct (show_error _ _ w2) as [[[]|] ?]. }
    intros t w2 Hext Ht. split.
    { intros e w3 H. follow. now destruct (show_error _ _ w3) as [[[]|] ?]. }
    intros q1 w3 Hraw. split.
    { intros e w4 H. follow. now destruct (show_error _ _ w4) as [[[]|] ?]. }
    intros cv w4 Han. split.
    { intros e w5 H. follow. now destruct (show_error _ _ w5) as [[[]|] ?]. }
    intros q2 w5 Hjson. split.
    { intros e w6 H. follow. now destruct (show_error _ _ w6) as [[[]|] ?]. }
    intros html w6 Hgen Hne. split.
    { intros e w7 H. follow. now destruct (show_error _ _ w7) as [[[]|] ?]. }
    intros out w7 Hout. split.
    { intros e w8 H. follow. now destruct (show_error _ _ w8) as [[[]|] ?]. }
    intros q3 w8 Hidx e w9 H. follow.
    now destruct (show_error _ _ w9) as [[[]|] ?].
  - rewrite run_catches.
    destruct (run_body_trace s) as [tr [Htr [Hsel [Herr [Hex [Han Hge]]]]]].
    destruct (the_run_body s) as [[v|e] s']; cbn [snd] in *.
    + exists (SelectFile :: tr). split; [exact Htr|].
      unfold no_retry, count in *. simpl. repeat split; lia.
    + exists (SelectFile :: tr ++ [error_dialog e]).
      unfold after_error.
      destruct (show_error _ _ (outside s')) as [[[]|e'] w']; cbn [snd trace];
        rewrite Htr; (split; [now rewrite <- app_assoc|]);
        unfold no_retry, count, error_dialog in *; simpl;
        repeat rewrite filter_app, length_app; simpl; repeat split; lia.
Qed.
End PipelineFacts.

(** C9 as stated fails: [run] can raise. Without a display the selection
    dialog raises, the handler catches that and calls the error dialog,
    which raises in turn, and nothing catches this second exception. In the
    same way, when the extraction raises and the error dialog raises, [run]
    does not return [None]: it raises what the dialog raised. *)
Lemma run_raises_counterexample :
  headless_run at_start
  = (Raise no_display,
     {| CVPortfolioPipeline.outside := tt;
        CVPortfolioPipeline.trace :=
          [CVPortfolioPipeline.SelectFile; error_dialog no_display] |}) /\
  unreadable_run at_start
  = (Raise no_display,
     {| CVPortfolioPipeline.outside := tt;
        CVPortfolioPipeline.trace :=
          [CVPortfolioPipeline.SelectFile; CVPortfolioPipeline.Extract (py "cv.pdf");
           error_dialog unreadable] |}).
Proof. split; vm_compute; reflexivity. Qed.

(* ===================================================================== *)
(** * The record and its dictionary *)
(* ===================================================================== *)

Lemma exp_round_trip (l : list Experience.t) :
  omap CVData.exp_of (map CVData.exp_to_dict l) = Ret l.
Proof.
  induction l as [|e l IH]; [reflexivity|].
  cbn [map omap]. rewrite IH. now destruct e.
Qed.

Lemma proj_round_trip (l : list Project.t) :
  omap CVData.proj_of (map CVData.proj_to_dict l) = Ret l.
Proof.
  induction l as [|e l IH]; [reflexivity|].
  cbn [map omap]. rewrite IH. now destruct e.
Qed.

Lemma edu_round_trip (l : list Education.t) :
  omap CVData.edu_of (map CVData.edu_to_dict l) = Ret l.
Proof.
  induction l as [|e l IH]; [reflexivity|].
  cbn [map omap]. rewrite IH. now destruct e.
Qed.

(** C10. A record without raw analysis and without source text is
    recovered from its dictionary: [from_dict (to_dict cv)] is [cv]. *)
Theorem from_dict_to_dict :
  forall cv : CVData.t,
    CVData.raw_analysis cv = PNone ->
    CVData.original_cv_text cv = [] ->
    CVData.from_dict (CVData.to_dict cv) [] = Ret cv.
Proof.
  intros [[n ti ta bi em ph lo] [li gi we ot] exps projs edus [la fr to sp]
          certs langs raw orig] Hraw Horig.
  cbn in Hraw, Horig. subst raw orig.
  unfold CVData.from_dict, CVData.to_dict, CVData.if_key.
  cbn -[omap CVData.exp_of CVData.proj_of CVData.edu_of
        CVData.exp_to_dict CVData.proj_to_dict CVData.edu_to_dict].
  rewrite exp_round_trip, proj_round_trip, edu_round_trip.
  reflexivity.
Qed.

Lemma from_dict_to_dict_witness :
  CVData.from_dict (CVData.to_dict jane) [] = Ret jane.
Proof. exact (from_dict_to_dict jane eq_refl eq_refl). Defined.

(* ===================================================================== *)
(** * The generation prompt *)
(* ===================================================================== *)

(** C7. When the raw analysis of a record is empty the prompt embeds the
    JSON text of [to_dict], which holds the skills lists and has no
    ["raw_analysis"] entry; when it is not empty the prompt embeds the raw
    analysis instead. In both cases the source text enters the prompt
    through its first 2000 characters only. *)
Theorem prompt_embeds_record_or_raw_analysis :
  forall (json_dumps repr : pyval -> str) (cv : CVData.t) (original : str),
    (truthy (CVData.raw_analysis cv) = false ->
       QwenPortfolioGenerator._build_prompt json_dumps repr cv original
       = QwenPortfolioGenerator.generation_prompt_head
         ++ (py "## PORTFOLIO DATA (JSON):" ++ nl ++ py "```json" ++ nl
             ++ json_dumps (PDict (CVData.to_dict cv)) ++ nl ++ py "```")
         ++ QwenPortfolioGenerator.generation_prompt_mid
         ++ firstn 2000 original
         ++ QwenPortfolioGenerator.generation_prompt_tail) /\
    (forall raw, CVData.raw_analysis cv = PStr raw -> raw <> [] ->
       QwenPortfolioGenerator._build_prompt json_dumps repr cv original
       = QwenPortfolioGenerator.generation_prompt_head
         ++ (py "## ANALYZED CV DATA:" ++ nl ++ raw)
         ++ QwenPortfolioGenerator.generation_prompt_mid
         ++ firstn 2000 original
         ++ QwenPortfolioGenerator.generation_prompt_tail) /\
    (truthy (CVData.raw_analysis cv) = true ->
       QwenPortfolioGenerator._build_prompt json_dumps repr cv original
       = QwenPortfolioGenerator.generation_prompt_head
         ++ (py "## ANALYZED CV DATA:" ++ nl
             ++ QwenPortfolioGenerator.format repr (CVData.raw_analysis cv))
         ++ QwenPortfolioGenerator.generation_prompt_mid
         ++ firstn 2000 original
         ++ QwenPortfolioGenerator.generation_prompt_tail) /\
    dict_find (py "skills") (CVData.to_dict cv)
    = Some (PDict [ (py "languages", Skills.languages (CVData.skills cv));
                    (py "frameworks", Skills.frameworks (CVData.skills cv));
                    (py "tools", Skills.tools (CVData.skills cv));
                    (py "specialties", Skills.specialties (CVData.skills cv)) ]) /\
    dict_has (py "raw_analysis") (CVData.to_dict cv) = false /\
    length (firstn 2000 original) <= 2000 /\
    original = firstn 2000 original ++ skipn 2000 original.
Proof.
  intros json_dumps repr cv original.
  unfold QwenPortfolioGenerator._build_prompt.
  repeat split.
  - intros ->. reflexivity.
  - intros raw Hraw Hne. rewrite Hraw. cbn [truthy QwenPortfolioGenerator.format].
    destruct raw; [contradiction | reflexivity].
  - intros ->. reflexivity.
  - apply firstn_le_length.
  - symmetry. apply firstn_skipn.
Qed.

(* ===================================================================== *)
(** * The fix pass *)
(* ===================================================================== *)

(** ** [replace] *)

Lemma starts_with_length p s : starts_with p s = true -> length p <= length s.
Proof.
  intros H. apply starts_with_spec in H as [r ->]. rewrite length_app. lia.
Qed.

Lemma replace_go_substring old new : old <> [] -> forall s,
  contains old s = true -> substring new (replace_go old new 0 s).
Proof.
  intros Hold. induction s as [|c s IH]; intros H.
  - destruct old; [contradiction | discriminate].
  - cbn [replace_go]. cbn [contains] in H.
    destruct (starts_with old (c :: s)) eqn:Hs.
    + exists [], (replace_go old new (length old - 1) s). reflexivity.
    + simpl in H. destruct (IH H) as [a [b Hab]].
      exists (c :: a), b. simpl. now rewrite Hab.
Qed.

Lemma starts_with_past l c : ~ In c l -> forall a b,
  starts_with l (a ++ c :: b) = starts_with l a.
Proof.
  induction l as [|y l IH]; intros Hc a b; [reflexivity|].
  destruct a as [|z a]; simpl.
  - destruct (N.eqb_spec y c) as [->|_]; [|reflexivity].
    exfalso. apply Hc. now left.
  - rewrite IH; [reflexivity|]. intros Hin. apply Hc. now right.
Qed.

Lemma starts_with_boundary old c : ~ In c (tl old) -> forall x a b,
  starts_with old ((x :: a) ++ c :: b) = starts_with old (x :: a).
Proof.
  intros Hc x a b. destruct old as [|o old]; [reflexivity|].
  simpl in *. now rewrite starts_with_past.
Qed.

(** A text may be cut before a character that no occurrence of [old] can
    step over. *)
Lemma replace_go_cut old new c : ~ In c (tl old) -> forall a skip b,
  skip <= length a ->
  replace_go old new skip (a ++ c :: b)
  = replace_go old new skip a ++ replace_go old new 0 (c :: b).
Proof.
  intros Hc. induction a as [|x a IH]; intros skip b Hskip.
  - simpl in Hskip. now replace skip with 0 by lia.
  - destruct skip as [|k].
    + change (replace_go old new 0 ((x :: a) ++ c :: b))
        with (if starts_with old ((x :: a) ++ c :: b)
              then new ++ replace_go old new (length old - 1) (a ++ c :: b)
              else x :: replace_go old new 0 (a ++ c :: b)).
      rewrite starts_with_boundary by exact Hc.
      cbn [replace_go].
      destruct (starts_with old (x :: a)) eqn:Hs.
      * apply starts_with_length in Hs. simpl in Hs.
        rewrite IH by lia. now rewrite app_assoc.
      * rewrite IH by lia. reflexivity.
    + simpl in Hskip. cbn [app replace_go]. apply IH. lia.
Qed.

(** An occurrence of [x] survives the replacement of [old] when [x]
    starts with a character that no occurrence of [old] can step over and
    holds no part of an occurrence itself. *)
Lemma replace_keeps old new c x :
  ~ In c (tl old) ->
  (forall b, replace old new ((c :: x) ++ b) = (c :: x) ++ replace old new b) ->
  forall s, substring (c :: x) s -> substring (c :: x) (replace old new s).
Proof.
  intros Hc Hx s [a [b ->]]. unfold replace.
  change (a ++ (c :: x) ++ b) with (a ++ c :: (x ++ b)).
  rewrite replace_go_cut by (exact Hc || lia).
  change (replace_go old new 0 (c :: x ++ b)) with (replace old new ((c :: x) ++ b)).
  rewrite Hx. now exists (replace_go old new 0 a), (replace old new b).
Qed.

Import QwenPortfolioGenerator.

Lemma head_tag_skips_body_tag b :
  replace (py "</head>") (aos_css_fix ++ nl ++ py "</head>") (py "</body>" ++ b)
  = py "</body>" ++ replace (py "</head>") (aos_css_fix ++ nl ++ py "</head>") b.
Proof. vm_compute. reflexivity. Qed.

Lemma body_tag_skips_css b :
  replace (py "</body>") (aos_js_fix ++ nl ++ py "</body>") (aos_css_fix ++ b)
  = aos_css_fix ++ replace (py "</body>") (aos_js_fix ++ nl ++ py "</body>") b.
Proof. vm_compute. reflexivity. Qed.

Lemma substring_app_l (a b s : str) : substring (a ++ b) s -> substring a s.
Proof.
  intros [u [v ->]]. exists u, (b ++ v). now rewrite <- app_assoc.
Qed.

(** What [generate] returns when the request succeeds. *)
Lemma generate_on_success (W : Type) (llm : ILLMService.t W)
      (json_dumps repr : pyval -> str) (model : str) (temperature : Q)
      (cv : CVData.t) (w : world W) (r : LLMResponse) (s : W) (text : str) :
  ILLMService.chat llm
    [{| role := py "user";
        msg_content := _build_prompt json_dumps repr cv
                                     (CVData.original_cv_text cv) |}]
    model
    (Some {| temperature := temperature; max_tokens := 4096;
             context_window := 8192 |}) (svc_state w) = (r, s) ->
  success r = true ->
  content r = PStr text ->
  fst (generate json_dumps repr llm model temperature cv [] w)
  = Ret (let html := ResponseParser.extract_html text in
         if contains (py "aos-animate") (lower html)
         then html else apply_fixes html).
Proof.
  intros Hchat Hs Hc.
  unfold generate, bind, call_chat. rewrite Hchat, Hs. cbn [negb].
  rewrite Hc. unfold lift. cbn [ResponseParser.text_of].
  unfold call_unload_model, ret. cbn [svc_state calls].
  destruct (ILLMService.unload_model llm model s) as [b s']. cbn [fst].
  now destruct (contains (py "aos-animate")
                         (lower (ResponseParser.extract_html text))).
Qed.

(** C2, as the code has it. [apply_fixes] injects the style block before
    [</head>] and the script block before [</body>]: markup without the
    marker that has both closing tags comes out with both blocks, and
    markup with neither closing tag comes out unchanged. The guard on the
    marker is in [generate], which applies the fixes only to extracted
    markup without the marker and returns marked markup as extracted. *)
Theorem apply_fixes_injects_before_closing_tags :
  forall html : str,
    (contains (py "aos-animate") (lower html) = false ->
     contains (py "</head>") html = true ->
     contains (py "</body>") html = true ->
     substring aos_css_fix (apply_fixes html) /\
     substring aos_js_fix (apply_fixes html)) /\
    (contains (py "</head>") html = false ->
     contains (py "</body>") html = false ->
     apply_fixes html = html) /\
    (forall (W : Type) (llm : ILLMService.t W) (json_dumps repr : pyval -> str)
            (model : str) (temperature : Q) (cv : CVData.t) (w : world W)
            (r : LLMResponse) (s : W),
        ILLMService.chat llm
          [{| role := py "user";
              msg_content := _build_prompt json_dumps repr cv
                                           (CVData.original_cv_text cv) |}]
          model
          (Some {| temperature := temperature; max_tokens := 4096;
                   context_window := 8192 |}) (svc_state w) = (r, s) ->
        success r = true ->
        content r = PStr html ->
        fst (generate json_dumps repr llm model temperature cv [] w)
        = Ret (if contains (py "aos-animate") (lower (ResponseParser.extract_html html))
               then ResponseParser.extract_html html
               else apply_fixes (ResponseParser.extract_html html))).
Proof.
  intros html. split; [|split].
  - intros _ Hh Hb. unfold apply_fixes. rewrite Hh.
    set (html1 := replace (py "</head>") (aos_css_fix ++ nl ++ py "</head>") html).
    assert (Hcss1 : substring aos_css_fix html1).
    { apply substring_app_l with (b := nl ++ py "</head>").
      apply replace_go_substring; [discriminate | exact Hh]. }
    assert (Hb1 : contains (py "</body>") html1 = true).
    { apply contains_spec.
      apply (replace_keeps (py "</head>") (aos_css_fix ++ nl ++ py "</head>")
                           60%N (py "/body>")).
      - cbv. intuition discriminate.
      - exact head_tag_skips_body_tag.
      - apply contains_spec. exact Hb. }
    rewrite Hb1. split.
    + apply (replace_keeps (py "</body>") (aos_js_fix ++ nl ++ py "</body>")
                           10%N (tl aos_css_fix)).
      * cbv. intuition discriminate.
      * exact body_tag_skips_css.
      * exact Hcss1.
    + apply substring_app_l with (b := nl ++ py "</body>").
      apply replace_go_substring; [discriminate | exact Hb1].
  - intros Hh Hb. unfold apply_fixes. now rewrite Hh, Hb.
  - intros W llm json_dumps repr model temperature cv w r s Hchat Hs Hc.
    exact (generate_on_success W llm json_dumps repr model temperature cv w r s
                               html Hchat Hs Hc).
Qed.

(** C2 as stated fails both ways: a fragment without the marker and
    without closing tags comes out unchanged, with neither block; a page
    that has the marker is changed all the same. *)
Lemma apply_fixes_counterexample :
  (contains (py "aos-animate") (lower bare_fragment) = false /\
   apply_fixes bare_fragment = bare_fragment /\
   contains aos_css_fix (apply_fixes bare_fragment) = false /\
   contains aos_js_fix (apply_fixes bare_fragment) = false /\
   contains (py "<style>") (apply_fixes bare_fragment) = false /\
   contains (py "<script>") (apply_fixes bare_fragment) = false) /\
  (contains (py "aos-animate") (lower marked_page) = true /\
   str_eqb (apply_fixes marked_page) marked_page = false /\
   contains aos_css_fix (apply_fixes marked_page) = true).
Proof. vm_compute. repeat split. Qed.

(* ===================================================================== *)
(** * What the patterns of the parsers match *)
(* ===================================================================== *)

Lemma all_any (x : str) : all_in AnyChar x.
Proof. induction x; constructor; auto. Qed.

(** A character of a pattern that is no letter matches itself alone. *)
Lemma char_match_symbol ic (p c : char) :
  (p < 65 \/ 90 < p < 97 \/ 122 < p)%N -> char_match ic p c = true -> c = p.
Proof.
  intros Hp. unfold char_match, fold_case. destruct ic.
  - destruct ((65 <=? p)%N && (p <=? 90)%N) eqn:Hrp;
      destruct ((65 <=? c)%N && (c <=? 90)%N) eqn:Hrc;
      intros H; apply N.eqb_eq in H;
      try (apply andb_true_iff in Hrp as [H1 H2]; apply N.leb_le in H1, H2);
      try (apply andb_true_iff in Hrc as [H3 H4]; apply N.leb_le in H3, H4);
      lia.
  - intros H. apply N.eqb_eq in H. now symmetry.
Qed.

Lemma lit_eq_fence (ic : bool) (a : str) : lit_eq ic (py "```") a -> a = py "```".
Proof.
  assert (Hc : forall c, char_match ic 96%N c = true -> c = 96%N).
  { intros c. apply char_match_symbol. lia. }
  intros H. change (py "```") with [96%N; 96%N; 96%N] in *.
  inversion H as [|? c1 ? ? H1 H']; subst. inversion H' as [|? c2 ? ? H2 H'']; subst.
  inversion H'' as [|? c3 ? ? H3 H3']; subst. inversion H3'; subst.
  now rewrite (Hc _ H1), (Hc _ H2), (Hc _ H3).
Qed.

(** Blanks, a group delimited by [opening] and [closing], blanks, and the
    closing fence. *)
Lemma fence_tail_den ic (opening closing : str) k u ms :
  den ic [Star Space; Mark; Lit opening; LazyStar AnyChar; Lit closing; Mark;
          Star Space; Lit (py "```")] k u ms <->
  exists w1 d x h w2,
    u = w1 ++ (d ++ x ++ h) ++ w2 ++ py "```" /\
    all_space w1 /\ all_space w2 /\
    lit_eq ic opening d /\ lit_eq ic closing h /\
    ms = [k + length w1; k + length w1 + length (d ++ x ++ h)].
Proof.
  cbn [den]. split.
  - intros (w1 & v0 & -> & Hw1 & ms' & -> & d & v1 & -> & Hd & x & v2 & ->
            & _ & h & v3 & -> & Hh & ms'' & -> & w2 & v4 & -> & Hw2
            & f & v5 & -> & Hf & -> & ->).
    apply lit_eq_fence in Hf. subst f.
    exists w1, d, x, h, w2. rewrite app_nil_r, <- !app_assoc.
    repeat split; try assumption.
    rewrite !length_app, !Nat.add_assoc. reflexivity.
  - intros (w1 & d & x & h & w2 & -> & Hw1 & Hw2 & Hd & Hh & ->).
    exists w1, ((d ++ x ++ h) ++ w2 ++ py "```").
    repeat split; try assumption. eexists. split; [reflexivity|].
    exists d, (x ++ h ++ w2 ++ py "```"). rewrite <- !app_assoc.
    repeat split; try assumption.
    exists x, (h ++ w2 ++ py "```"). repeat split; [apply all_any|].
    exists h, (w2 ++ py "```"). repeat split; try assumption.
    eexists. split; [rewrite !length_app, !Nat.add_assoc; reflexivity|].
    exists w2, (py "```"). repeat split; try assumption.
    exists (py "```"), []. repeat split; [apply lit_eq_refl].
Qed.

(** A fence, an optional language tag, and the above. *)
Lemma fence_den ic (lang opening closing : str) n u ms :
  den ic [Lit (py "```"); OptLit lang; Star Space; Mark; Lit opening;
          LazyStar AnyChar; Lit closing; Mark; Star Space; Lit (py "```")]
      n u ms <->
  exists o w1 d x h w2,
    u = py "```" ++ o ++ w1 ++ (d ++ x ++ h) ++ w2 ++ py "```" /\
    (o = [] \/ lit_eq ic lang o) /\ all_space w1 /\ all_space w2 /\
    lit_eq ic opening d /\ lit_eq ic closing h /\
    ms = [n + 3 + length o + length w1;
          n + 3 + length o + length w1 + length (d ++ x ++ h)].
Proof.
  change (den ic [Lit (py "```"); OptLit lang; Star Space; Mark; Lit opening;
          LazyStar AnyChar; Lit closing; Mark; Star Space; Lit (py "```")] n u ms)
    with (exists f v, u = f ++ v /\ lit_eq ic (py "```") f /\
            (den ic [Star Space; Mark; Lit opening; LazyStar AnyChar; Lit closing;
                     Mark; Star Space; Lit (py "```")] (n + length f) v ms \/
             exists o v', v = o ++ v' /\ lit_eq ic lang o /\
               den ic [Star Space; Mark; Lit opening; LazyStar AnyChar; Lit closing;
                       Mark; Star Space; Lit (py "```")]
                   (n + length f + length o) v' ms)).
  split.
  - intros (f & v & -> & Hf & H). apply lit_eq_fence in Hf. subst f.
    change (length (py "```")) with 3 in H.
    destruct H as [H | (o & v' & -> & Ho & H)];
      apply fence_tail_den in H as (w1 & d & x & h & w2 & -> & ? & ? & ? & ? & ->).
    + exists [], w1, d, x, h, w2. cbn [app length]. rewrite !Nat.add_0_r. auto 10.
    + exists o, w1, d, x, h, w2. auto 10.
  - intros (o & w1 & d & x & h & w2 & -> & Ho & Hw1 & Hw2 & Hd & Hh & ->).
    exists (py "```"), (o ++ w1 ++ (d ++ x ++ h) ++ w2 ++ py "```").
    split; [reflexivity|]. split; [apply lit_eq_refl|].
    change (length (py "```")) with 3.
    destruct Ho as [-> | Ho].
    + left. cbn [app length]. rewrite !Nat.add_0_r.
      apply fence_tail_den. exists w1, d, x, h, w2. auto 10.
    + right. exists o, (w1 ++ (d ++ x ++ h) ++ w2 ++ py "```").
      split; [reflexivity|]. split; [exact Ho|].
      apply fence_tail_den. exists w1, d, x, h, w2. auto 10.
Qed.

(** The group of a match of a fenced pattern, cut out of the subject. *)
Lemma fenced_group (t a o w1 g rest : str) (m : rmatch) :
  t = a ++ py "```" ++ o ++ w1 ++ g ++ rest ->
  m_start m = length a ->
  m_marks m = [m_start m + 3 + length o + length w1;
               m_start m + 3 + length o + length w1 + length g] ->
  group1 t m = g.
Proof.
  intros -> Hs Hm. unfold group1. rewrite Hm, Hs.
  replace (a ++ py "```" ++ o ++ w1 ++ g ++ rest)
    with ((a ++ py "```" ++ o ++ w1) ++ g ++ rest) by now rewrite <- !app_assoc.
  replace (length a + 3 + length o + length w1)
    with (length (a ++ py "```" ++ o ++ w1)).
  - apply slice_app.
  - rewrite !length_app. change (length (py "```")) with 3. lia.
Qed.

Lemma html_fence_sound t m :
  re_search true html_fence_re t = Some m -> fenced_html t (group1 t m).
Proof.
  intros H. apply search_sound in H as (a & u & rest & -> & Hs & He & Hd).
  apply fence_den in Hd as (o & w1 & d & x & h & w2 & -> & Ho & Hw1 & Hw2 & Hd & Hh & Hm).
  cbn [Nat.add] in Hs.
  rewrite (fenced_group _ a o w1 (d ++ x ++ h) (w2 ++ py "```" ++ rest) m);
    [ | now rewrite <- !app_assoc | exact Hs | exact Hm ].
  exists a, o, w1, w2, rest. rewrite <- !app_assoc.
  repeat split; try assumption. now exists d, x, h.
Qed.

Lemma html_fence_complete t g :
  fenced_html t g -> re_search true html_fence_re t <> None.
Proof.
  intros (a & o & w1 & w2 & c & -> & Ho & Hw1 & Hw2 & d & x & h & -> & Hd & Hh).
  unfold re_search.
  replace (a ++ py "```" ++ o ++ w1 ++ (d ++ x ++ h) ++ w2 ++ py "```" ++ c)
    with (a ++ (py "```" ++ o ++ w1 ++ (d ++ x ++ h) ++ w2 ++ py "```") ++ c)
    by now rewrite <- !app_assoc.
  eapply search_complete. apply fence_den.
  exists o, w1, d, x, h, w2. auto 10.
Qed.

(** What the unfenced pattern matches. *)
Lemma html_raw_sound t m :
  re_search true html_raw_re t = Some m -> raw_html t (group1 t m).
Proof.
  intros H. apply search_sound in H as (a & u & rest & -> & Hs & He & Hd).
  cbn [Nat.add] in Hs. unfold html_raw_re in Hd. cbn [den] in Hd.
  destruct Hd as (ms' & Hm & d & v0 & -> & Hd & x & v1 & -> & _ & h & v2 & ->
                  & Hh & ms'' & -> & -> & ->).
  unfold group1. rewrite Hm, Hs.
  replace (length a + length d + length x + length h)
    with (length a + length (d ++ x ++ h ++ [])) by (rewrite !length_app; simpl; lia).
  rewrite slice_app. rewrite app_nil_r. split.
  - now exists a, rest.
  - now exists d, x, h.
Qed.

Lemma html_raw_complete t g :
  raw_html t g -> re_search true html_raw_re t <> None.
Proof.
  intros [(a & c & ->) (d & x & h & -> & Hd & Hh)].
  unfold re_search. eapply search_complete.
  unfold html_raw_re. cbn [den]. eexists. split; [reflexivity|].
  exists d, (x ++ h). split; [reflexivity|]. split; [exact Hd|].
  exists x, h. split; [reflexivity|]. split; [apply all_any|].
  exists h, []. split; [now rewrite app_nil_r|]. split; [exact Hh|].
  eexists. repeat split.
Qed.

Lemma fenced_html_is_raw t g : fenced_html t g -> raw_html t g.
Proof.
  intros (a & o & w1 & w2 & c & -> & _ & _ & _ & Hg). split; [|exact Hg].
  exists (a ++ py "```" ++ o ++ w1), (w2 ++ py "```" ++ c).
  now rewrite <- !app_assoc.
Qed.

(** A document starts with [<] and ends with [>], so trimming it changes
    nothing. *)
Lemma lstrip_nonspace c s : is_space c = false -> lstrip (c :: s) = c :: s.
Proof. intros H. simpl. now rewrite H. Qed.

Lemma strip_unchanged c mid e :
  is_space c = false -> is_space e = false ->
  strip ((c :: mid) ++ [e]) = (c :: mid) ++ [e].
Proof.
  intros Hc He. unfold strip, rstrip. cbn [app].
  rewrite (lstrip_nonspace _ _ Hc).
  change (c :: mid ++ [e]) with ((c :: mid) ++ [e]).
  set (l := c :: mid). rewrite rev_app_distr.
  change (rev [e] ++ rev l) with (e :: rev l).
  rewrite (lstrip_nonspace _ _ He).
  change (rev (e :: rev l)) with (rev (rev l) ++ [e]).
  now rewrite rev_involutive.
Qed.

Lemma strip_document g : html_document g -> strip g = g.
Proof.
  intros (d & x & h & -> & Hd & Hh).
  change (py "<!DOCTYPE") with (60%N :: py "!DOCTYPE") in Hd.
  inversion Hd as [|? c ? d' Hc Hd']; subst.
  change (py "</html>") with (py "</html" ++ [62%N]) in Hh.
  apply Forall2_app_inv_l in Hh as (h' & e & _ & He & ->).
  inversion He as [|? e0 ? ? He0 He']; subst. inversion He'; subst.
  apply char_match_symbol in He0; [subst e0 | lia].
  apply char_match_symbol in Hc; [subst c | lia].
  rewrite (app_assoc _ x), (app_assoc _ h').
  exact (strip_unchanged 60%N ((d' ++ x) ++ h') 62%N eq_refl eq_refl).
Qed.

(** C4. [extract_html] is a function from texts to texts, and follows
    this order. When the text holds a fenced document, the result is a
    fenced document of the text, trimmed (which leaves it as it is); when
    it holds none but holds a document outside a fence, the result is a
    document of the text, trimmed; when it holds no document, the result is
    the text itself, trimmed. *)
Theorem extract_html_priority :
  forall text : str,
    ((exists g, fenced_html text g) ->
     exists g, fenced_html text g /\
               ResponseParser.extract_html text = strip g /\ strip g = g) /\
    (~ (exists g, fenced_html text g) -> (exists g, raw_html text g) ->
     exists g, raw_html text g /\
               ResponseParser.extract_html text = strip g /\ strip g = g) /\
    (~ (exists g, raw_html text g) ->
     ResponseParser.extract_html text = strip text).
Proof.
  intros text. unfold ResponseParser.extract_html.
  destruct (re_search true html_fence_re text) as [m|] eqn:Hf.
  - pose proof (html_fence_sound _ _ Hf) as Hg. split; [|split].
    + intros _. exists (group1 text m). split; [exact Hg|]. split; [reflexivity|].
      apply strip_document. now destruct Hg as (? & ? & ? & ? & ? & ? & ? & ? & ? & ?).
    + intros Hno. exfalso. apply Hno. now exists (group1 text m).
    + intros Hno. exfalso. apply Hno. exists (group1 text m).
      now apply fenced_html_is_raw.
  - assert (Hnof : ~ exists g, fenced_html text g).
    { intros [g Hg]. now apply html_fence_complete in Hg. }
    destruct (re_search true html_raw_re text) as [m|] eqn:Hr.
    + pose proof (html_raw_sound _ _ Hr) as Hg. split; [|split].
      * intros H. contradiction.
      * intros _ _. exists (group1 text m). split; [exact Hg|].
        split; [reflexivity|]. apply strip_document. apply Hg.
      * intros Hno. exfalso. apply Hno. now exists (group1 text m).
    + split; [|split].
      * intros H. contradiction.
      * intros _ [g Hg]. now apply html_raw_complete in Hg.
      * reflexivity.
Qed.

(* ===================================================================== *)
(** * Leftmost and longest *)
(* ===================================================================== *)

(** A successful search, taken apart: the match starts where the pattern
    first matches. *)
Lemma search_inv ic p : forall s i m,
  search_from ic p s i = Some m ->
  exists a s',
    s = a ++ s' /\ m_start m = i + length a /\
    mt ic p s' (m_start m) = Some (m_marks m, m_end m) /\
    (forall a1 c a2, a = a1 ++ c :: a2 ->
                     mt ic p (c :: a2 ++ s') (i + length a1) = None).
Proof.
  assert (Hnil : forall (s' : str) i m ms e,
             mt ic p s' i = Some (ms, e) ->
             Some {| m_start := i; m_marks := ms; m_end := e |} = Some m ->
             exists a s'0,
               s' = a ++ s'0 /\ m_start m = i + length a /\
               mt ic p s'0 (m_start m) = Some (m_marks m, m_end m) /\
               (forall a1 c a2, a = a1 ++ c :: a2 ->
                                mt ic p (c :: a2 ++ s'0) (i + length a1) = None)).
  { intros s' i m ms e Hm H. injection H as <-. exists [], s'. cbn.
    rewrite Nat.add_0_r. repeat split; [exact Hm|].
    intros a1 c a2 E. now destruct a1. }
  induction s as [|ch s IH]; intros i m H; simpl in H.
  - destruct (mt ic p [] i) as [[ms e]|] eqn:Hm; [|discriminate].
    now apply (Hnil _ _ _ _ _ Hm).
  - destruct (mt ic p (ch :: s) i) as [[ms e]|] eqn:Hm.
    + now apply (Hnil _ _ _ _ _ Hm).
    + destruct (IH _ _ H) as (a & s' & -> & Hs & Hmt & Hleft).
      exists (ch :: a), s'. cbn [length app]. rewrite <- plus_n_Sm.
      repeat split; [exact Hs | exact Hmt |].
      intros a1 c a2 E. destruct a1 as [|x a1]; cbn in E; injection E as -> ->.
      * now rewrite Nat.add_0_r.
      * cbn [length]. rewrite <- plus_n_Sm. now apply Hleft.
Qed.

(** Conversely, a match at the first place where the pattern matches is
    what the search returns. *)
Lemma search_found ic p : forall a s' i ms e,
  (forall a1 c a2, a = a1 ++ c :: a2 ->
                   mt ic p (c :: a2 ++ s') (i + length a1) = None) ->
  mt ic p s' (i + length a) = Some (ms, e) ->
  search_from ic p (a ++ s') i
  = Some {| m_start := i + length a; m_marks := ms; m_end := e |}.
Proof.
  induction a as [|x a IH]; intros s' i ms e Hleft Hm.
  - cbn in *. rewrite Nat.add_0_r in *.
    destruct s'; simpl; now rewrite Hm.
  - cbn [app search_from].
    pose proof (Hleft [] x a eq_refl) as H0. cbn in H0.
    rewrite Nat.add_0_r in H0. rewrite H0.
    cbn [length]. rewrite <- plus_n_Sm. apply IH.
    + intros a1 c a2 ->. specialize (Hleft (x :: a1) c a2 eq_refl).
      cbn [length] in Hleft. now rewrite <- plus_n_Sm in Hleft.
    + cbn [length] in Hm. now rewrite <- plus_n_Sm in Hm.
Qed.

(** The greedy repetition takes the longest run after which the rest of
    the pattern matches. *)
Lemma star_greedy_longest (R : Type) c (k : str -> nat -> option R) : forall s n r,
  star_greedy c k s n = Some r ->
  exists a s',
    s = a ++ s' /\ all_in c a /\ k s' (n + length a) = Some r /\
    (forall b s3, s' = b ++ s3 -> b <> [] -> all_in c b ->
                  k s3 (n + length a + length b) = None).
Proof.
  induction s as [|ch s IH]; intros n r H; simpl in H.
  - exists [], []. rewrite Nat.add_0_r. repeat split; [constructor | exact H |].
    intros b s3 E Hb. destruct b; [contradiction | discriminate].
  - destruct (in_class c ch) eqn:Hch.
    + destruct (star_greedy c k s (S n)) eqn:Hrec.
      * injection H as ->. destruct (IH _ _ Hrec) as (a & s' & -> & Ha & Hk & Hmax).
        exists (ch :: a), s'. cbn [length app]. rewrite <- plus_n_Sm.
        repeat split; [now constructor | exact Hk | exact Hmax].
      * exists [], (ch :: s). rewrite Nat.add_0_r.
        repeat split; [constructor | exact H |].
        intros b s3 E Hb Hall. destruct b as [|x b]; [contradiction|].
        cbn in E. injection E as <- ->. inversion Hall; subst.
        destruct (k s3 (n + length (ch :: b))) eqn:Hk; [|reflexivity].
        exfalso. apply (star_greedy_complete R c k b s3 (S n)); try assumption.
        cbn [length] in Hk. rewrite <- plus_n_Sm in Hk. cbn [Nat.add]. now rewrite Hk.
    + exists [], (ch :: s). rewrite Nat.add_0_r.
      repeat split; [constructor | exact H |].
      intros b s3 E Hb Hall. destruct b as [|x b]; [contradiction|].
      cbn in E. injection E as <- ->. inversion Hall; subst. congruence.
Qed.

(* ===================================================================== *)
(** * Structured extraction: what the two attempts look at *)
(* ===================================================================== *)

Lemma json_fence_sound t m :
  re_search false json_fence_re t = Some m -> fenced_object t (group1 t m).
Proof.
  intros H. apply search_sound in H as (a & u & rest & -> & Hs & He & Hd).
  apply fence_den in Hd as (o & w1 & d & x & h & w2 & -> & Ho & Hw1 & Hw2 & Hd & Hh & Hm).
  cbn [Nat.add] in Hs. apply lit_eq_exact in Hd, Hh. subst d h.
  rewrite (fenced_group _ a o w1 (py "{" ++ x ++ py "}") (w2 ++ py "```" ++ rest) m);
    [ | now rewrite <- !app_assoc | exact Hs | exact Hm ].
  exists a, o, w1, x, w2, rest. rewrite <- !app_assoc.
  repeat split; try assumption.
  destruct Ho as [-> | Ho]; [now left | right; now apply lit_eq_exact].
Qed.

Lemma json_fence_complete t g :
  fenced_object t g -> re_search false json_fence_re t <> None.
Proof.
  intros (a & o & w1 & x & w2 & c & -> & Ho & Hw1 & Hw2 & ->).
  unfold re_search.
  replace (a ++ py "```" ++ o ++ w1 ++ (py "{" ++ x ++ py "}") ++ w2 ++ py "```" ++ c)
    with (a ++ (py "```" ++ o ++ w1 ++ (py "{" ++ x ++ py "}") ++ w2 ++ py "```") ++ c)
    by now rewrite <- !app_assoc.
  eapply search_complete. apply fence_den.
  exists o, w1, (py "{"), x, (py "}"), w2.
  repeat split; try assumption; try apply lit_eq_refl.
  destruct Ho as [-> | ->]; [now left | right; apply lit_eq_refl].
Qed.

(** The unfenced pattern at the head of a text: an opening brace, and
    everything up to the last closing brace. *)
Lemma json_raw_mt s n ms e :
  mt false json_raw_re s n = Some (ms, e) ->
  exists x c, s = py "{" ++ x ++ py "}" ++ c /\ ~ In 125%N c /\
              e = n + length (py "{" ++ x ++ py "}").
Proof.
  unfold json_raw_re. cbn [mt]. intros H.
  destruct (lit_match false (py "{") s) as [s1|] eqn:Hl; [|discriminate].
  apply lit_match_sound in Hl as (d & -> & Hd). apply lit_eq_exact in Hd. subst d.
  apply star_greedy_longest in H as (x & s' & -> & _ & Hk & Hmax).
  cbn [mt] in Hk.
  destruct (lit_match false (py "}") s') as [c|] eqn:Hc; [|discriminate].
  apply lit_match_sound in Hc as (h & -> & Hh). apply lit_eq_exact in Hh. subst h.
  injection Hk as <- <-.
  exists x, c. repeat split.
  - intros Hin. apply in_split in Hin as (c1 & c2 & ->).
    specialize (Hmax (py "}" ++ c1) (py "}" ++ c2)).
    cbn [mt] in Hmax.
    change (lit_match false (py "}") (py "}" ++ c2)) with (Some c2) in Hmax.
    discriminate Hmax; [now rewrite <- app_assoc | discriminate | apply all_any].
  - rewrite !length_app. change (length (py "{")) with 1. change (length (py "}")) with 1.
    lia.
Qed.

Lemma json_raw_mt_complete x c n :
  mt false json_raw_re (py "{" ++ x ++ py "}" ++ c) n <> None.
Proof.
  assert (Hd : den false json_raw_re n (py "{" ++ x ++ py "}") []).
  { unfold json_raw_re. cbn [den].
    exists (py "{"), (x ++ py "}"). split; [reflexivity|]. split; [apply lit_eq_refl|].
    exists x, (py "}"). split; [reflexivity|]. split; [apply all_any|].
    exists (py "}"), []. repeat split. apply lit_eq_refl. }
  pose proof (mt_complete false json_raw_re n _ [] c Hd) as H.
  now rewrite <- !app_assoc in H.
Qed.

Lemma json_raw_sound t m :
  re_search false json_raw_re t = Some m -> outermost_span t (group0 t m).
Proof.
  intros H. apply search_inv in H as (a & s' & -> & Hs & Hm & Hleft).
  cbn [Nat.add] in Hs.
  apply json_raw_mt in Hm as (x & c & -> & Hc & He).
  assert (Hg : group0 (a ++ py "{" ++ x ++ py "}" ++ c) m = py "{" ++ x ++ py "}").
  { unfold group0. rewrite He, Hs.
    replace (a ++ py "{" ++ x ++ py "}" ++ c)
      with (a ++ (py "{" ++ x ++ py "}") ++ c) by now rewrite <- !app_assoc.
    apply slice_app. }
  rewrite Hg. exists a, x, c. repeat split; [now rewrite <- !app_assoc | | exact Hc].
  intros Hin. apply in_split in Hin as (a1 & a2 & ->).
  specialize (Hleft a1 123%N a2 eq_refl).
  apply (json_raw_mt_complete (a2 ++ py "{" ++ x) c (0 + length a1)).
  rewrite <- Hleft. f_equal. cbn [app]. now rewrite <- !app_assoc.
Qed.

Lemma json_raw_complete t g :
  outermost_span t g -> re_search false json_raw_re t <> None.
Proof.
  intros (a & x & c & -> & -> & _ & _). unfold re_search.
  assert (Hd : den false json_raw_re (0 + length a) (py "{" ++ x ++ py "}") []).
  { unfold json_raw_re. cbn [den].
    exists (py "{"), (x ++ py "}"). split; [reflexivity|]. split; [apply lit_eq_refl|].
    exists x, (py "}"). split; [reflexivity|]. split; [apply all_any|].
    exists (py "}"), []. repeat split. apply lit_eq_refl. }
  exact (search_complete false json_raw_re a 0 _ [] c Hd).
Qed.

Lemma fenced_object_substring t g : fenced_object t g -> substring g t.
Proof.
  intros (a & o & w1 & x & w2 & c & -> & _ & _ & _ & _).
  exists (a ++ py "```" ++ o ++ w1), (w2 ++ py "```" ++ c).
  now rewrite <- !app_assoc.
Qed.

Lemma outermost_span_substring t g : outermost_span t g -> substring g t.
Proof. intros (a & x & c & -> & _). now exists a, c. Qed.

(** ** The reasoning preamble *)

Ltac no_char := let H := fresh in intros H; cbv in H; intuition discriminate.

(** A match of the preamble pattern starts with the opening tag and holds
    the closing tag. *)
Lemma think_mt_shape s n r :
  mt false think_re s n = Some r ->
  exists th y, s = py "<think>" ++ th ++ py "</think>" ++ y.
Proof.
  destruct r as [ms e]. intros H.
  apply mt_sound in H as (u & rest & -> & _ & Hd).
  unfold think_re in Hd. cbn [den] in Hd.
  destruct Hd as (a & v & -> & Ha & th & v' & -> & _ & b & v'' & -> & Hb & -> & _).
  apply lit_eq_exact in Ha, Hb. subst a b.
  exists th, rest. now rewrite <- !app_assoc.
Qed.

Lemma substring_suffix (x a b : str) : substring x b -> substring x (a ++ b).
Proof. intros (u & v & ->). exists (a ++ u), v. now rewrite <- app_assoc. Qed.

Lemma contains_false_suffix (x a b : str) :
  contains x (a ++ b) = false -> contains x b = false.
Proof.
  intros H. destruct (contains x b) eqn:Hb; [|reflexivity].
  apply contains_spec in Hb. apply (substring_suffix x a) in Hb.
  apply contains_spec in Hb. congruence.
Qed.

(** Where the pattern matches nowhere, the substitution changes nothing. *)
Lemma sub_go_no_match ic p repl : forall s,
  (forall a b, s = a ++ b -> mt ic p b 0 = None) ->
  sub_go ic p repl 0 s = s.
Proof.
  induction s as [|c s IH]; intros H; [reflexivity|].
  cbn [sub_go]. rewrite (H [] (c :: s) eq_refl). f_equal. apply IH.
  intros a b ->. apply (H (c :: a) b). reflexivity.
Qed.

(** Where the pattern matches at no place of [x], the substitution keeps
    [x] and goes on after it. *)
Lemma sub_go_before ic p repl : forall x y,
  (forall a1 c a2, x = a1 ++ c :: a2 -> mt ic p (c :: a2 ++ y) 0 = None) ->
  sub_go ic p repl 0 (x ++ y) = x ++ sub_go ic p repl 0 y.
Proof.
  induction x as [|c x IH]; intros y H; [reflexivity|].
  cbn [app sub_go]. rewrite (H [] c x eq_refl). f_equal. apply IH.
  intros a1 c' a2 ->. exact (H (c :: a1) c' a2 eq_refl).
Qed.

Lemma sub_go_skip ic p repl a y :
  sub_go ic p repl (length a) (a ++ y) = sub_go ic p repl 0 y.
Proof. induction a as [|c a IH]; [reflexivity | exact IH]. Qed.

(** A tag whose first character occurs nowhere else in it: an occurrence
    cannot start inside a text that holds none and run into an occurrence
    that follows that text. *)
Lemma occurrence_before (c0 : char) (p' pre rest s' : str) :
  ~ In c0 p' -> contains (c0 :: p') pre = false ->
  forall a1 a2, pre = a1 ++ a2 -> a2 <> [] ->
    a2 ++ (c0 :: p') ++ rest <> (c0 :: p') ++ s'.
Proof.
  intros Hp Hc a1 a2 -> Ha E.
  assert (Hno : forall l, a2 = (c0 :: p') ++ l -> False).
  { intros l ->.
    assert (H : contains (c0 :: p') (a1 ++ (c0 :: p') ++ l) = true)
      by (apply contains_spec; now exists a1, l).
    congruence. }
  apply app_eq_app in E as [l [[H1 H2] | [H1 H2]]].
  - exact (Hno l H1).
  - destruct l as [|y l].
    + rewrite app_nil_r in H1. apply (Hno []). now rewrite app_nil_r.
    + destruct a2 as [|x a2]; [contradiction|].
      cbn [app] in H1, H2. injection H1 as _ H1. injection H2 as H2 _.
      apply Hp. rewrite H1, H2. apply in_or_app. right. now left.
Qed.

(** The preamble pattern matches at no place before the first opening
    tag. *)
Lemma think_not_before pre a1 c a2 rest :
  contains (py "<think>") pre = false -> pre = a1 ++ c :: a2 ->
  mt false think_re (c :: a2 ++ py "<think>" ++ rest) 0 = None.
Proof.
  intros Hc E.
  destruct (mt false think_re (c :: a2 ++ py "<think>" ++ rest) 0) as [r|] eqn:Hm;
    [|reflexivity].
  exfalso. apply think_mt_shape in Hm as (th & y & Hs).
  apply (occurrence_before 60%N (py "think>") pre rest (th ++ py "</think>" ++ y))
    with (a1 := a1) (a2 := c :: a2);
    [no_char | exact Hc | exact E | discriminate | exact Hs].
Qed.

(** The closing tag matches at no place before its first occurrence. *)
Lemma close_think_not_before th a1 c a2 y n :
  contains (py "</think>") th = false -> th = a1 ++ c :: a2 ->
  mt false [Lit (py "</think>")] (c :: a2 ++ py "</think>" ++ y) n = None.
Proof.
  intros Hc E.
  destruct (mt false [Lit (py "</think>")] (c :: a2 ++ py "</think>" ++ y) n)
    as [r|] eqn:Hm; [|reflexivity].
  exfalso. cbn [mt] in Hm.
  destruct (lit_match false (py "</think>") (c :: a2 ++ py "</think>" ++ y))
    as [s'|] eqn:Hl; [|discriminate].
  apply lit_match_sound in Hl as (d & Hs & Hd). apply lit_eq_exact in Hd. subst d.
  apply (occurrence_before 60%N (py "/think>") th y s')
    with (a1 := a1) (a2 := c :: a2);
    [no_char | exact Hc | exact E | discriminate | exact Hs].
Qed.

Lemma think_mt_found th y n :
  contains (py "</think>") th = false ->
  mt false think_re (py "<think>" ++ th ++ py "</think>" ++ y) n
  = Some ([], n + 7 + length th + 8).
Proof.
  intros Hth. unfold think_re. cbn [mt].
  rewrite (lit_match_complete false (py "<think>") (py "<think>") _ (lit_eq_refl _ _)).
  change (length (py "<think>")) with 7.
  apply star_lazy_first.
  - apply all_any.
  - intros a1 ch a2 E. now apply (close_think_not_before th a1 ch a2).
  - cbn [mt].
    rewrite (lit_match_complete false (py "</think>") (py "</think>") _ (lit_eq_refl _ _)).
    reflexivity.
Qed.

(** The first preamble, from the first opening tag to the first closing
    tag after it, is removed; what comes before it is kept, and the pass
    goes on after it. *)
Lemma think_removed pre th y :
  contains (py "<think>") pre = false ->
  contains (py "</think>") th = false ->
  re_sub false think_re [] (pre ++ py "<think>" ++ th ++ py "</think>" ++ y)
  = pre ++ re_sub false think_re [] y.
Proof.
  intros Hpre Hth. unfold re_sub.
  rewrite sub_go_before
    by (intros a1 c a2 E; now apply (think_not_before pre a1 c a2)).
  f_equal.
  change (py "<think>" ++ th ++ py "</think>" ++ y)
    with (60%N :: py "think>" ++ th ++ py "</think>" ++ y).
  cbn [sub_go].
  change (60%N :: py "think>" ++ th ++ py "</think>" ++ y)
    with (py "<think>" ++ th ++ py "</think>" ++ y).
  rewrite (think_mt_found th y 0 Hth). cbn [app].
  replace (py "think>" ++ th ++ py "</think>" ++ y)
    with ((py "think>" ++ th ++ py "</think>") ++ y) by now rewrite <- !app_assoc.
  replace (0 + 7 + length th + 8 - 1) with (length (py "think>" ++ th ++ py "</think>")).
  - apply sub_go_skip.
  - rewrite !length_app. change (length (py "think>")) with 6.
    change (length (py "</think>")) with 8. lia.
Qed.

(** A text without an opening tag is left as it is. *)
Lemma re_sub_without_opening (s : str) :
  contains (py "<think>") s = false -> re_sub false think_re [] s = s.
Proof.
  intros H. unfold re_sub. apply sub_go_no_match. intros a b ->.
  destruct (mt false think_re b 0) as [r|] eqn:Hm; [|reflexivity].
  exfalso. apply think_mt_shape in Hm as (th & y & ->).
  apply contains_false_suffix in H.
  assert (Hc : contains (py "<think>") (py "<think>" ++ th ++ py "</think>" ++ y) = true).
  { apply contains_spec. now exists [], (th ++ py "</think>" ++ y). }
  congruence.
Qed.

(* ===================================================================== *)
(** * Structured extraction *)
(* ===================================================================== *)

Lemma try_loads_spec (json_loads : str -> outcome pyval) :
  (forall s e, json_loads s = Raise e -> is_JSONDecodeError e = true) ->
  forall x otherwise,
    ResponseParser.try_loads json_loads x otherwise
    = match json_loads x with
      | Ret v => Ret (Some v)
      | Raise _ => otherwise
      end.
Proof.
  intros Hf x otherwise. unfold ResponseParser.try_loads.
  destruct (json_loads x) as [v|e] eqn:H; [reflexivity|].
  now rewrite (Hf _ _ H).
Qed.

Lemma refjson_faults s e :
  RefJson.loads s = Raise e -> is_JSONDecodeError e = true.
Proof.
  unfold RefJson.loads.
  destruct (RefJson.value _ _) as [[v r]|]; [destruct (RefJson.skip_ws r)|];
    intros H; try discriminate; now injection H as <-.
Qed.

(** Provided [json.loads] fails with [JSONDecodeError] only,
    [extract_json] returns on every text. With [t] the text after the
    removal of the reasoning preamble: a result is the decoding of a fenced
    object of [t] or of the span from the first opening brace of [t] to its
    last closing brace; a fenced object is tried first and is the result
    when it decodes; when no fenced object decodes the outermost span is
    tried; when neither attempt decodes the result is [None], in particular
    when nothing in [t] decodes. *)
Lemma extract_json_order :
  forall json_loads : str -> outcome pyval,
    (forall s e, json_loads s = Raise e -> is_JSONDecodeError e = true) ->
    forall text : str,
      let t := re_sub false think_re [] text in
      (exists r, ResponseParser.extract_json json_loads text = Ret r) /\
      (forall v, ResponseParser.extract_json json_loads text = Ret (Some v) ->
         exists g, (fenced_object t g \/ outermost_span t g) /\ json_loads g = Ret v) /\
      ((exists g, fenced_object t g) ->
         exists g, fenced_object t g /\
                   forall v, json_loads g = Ret v ->
                             ResponseParser.extract_json json_loads text = Ret (Some v)) /\
      ((forall g v, fenced_object t g -> json_loads g <> Ret v) ->
       (exists g, outermost_span t g) ->
         exists g, outermost_span t g /\
                   ResponseParser.extract_json json_loads text
                   = Ret (match json_loads g with
                          | Ret v => Some v
                          | Raise _ => None
                          end)) /\
      ((forall g v, fenced_object t g -> json_loads g <> Ret v) ->
       (forall g v, outermost_span t g -> json_loads g <> Ret v) ->
         ResponseParser.extract_json json_loads text = Ret None) /\
      ((forall g v, substring g t -> json_loads g <> Ret v) ->
         ResponseParser.extract_json json_loads text = Ret None) /\
      (forall a th y,
         contains (py "<think>") a = false ->
         contains (py "</think>") th = false ->
         text = a ++ py "<think>" ++ th ++ py "</think>" ++ y ->
         t = a ++ re_sub false think_re [] y).
Proof.
  intros json_loads Hfaults text t.
  assert (Hraw :
    forall r,
      match re_search false json_raw_re t with
      | Some m => ResponseParser.try_loads json_loads (group0 t m) (Ret None)
      | None => Ret None
      end = r ->
      (exists o, r = Ret o) /\
      (forall v, r = Ret (Some v) ->
                 exists g, outermost_span t g /\ json_loads g = Ret v) /\
      ((exists g, outermost_span t g) ->
         exists g, outermost_span t g /\
                   r = Ret (match json_loads g with
                            | Ret v => Some v
                            | Raise _ => None
                            end)) /\
      ((forall g v, outermost_span t g -> json_loads g <> Ret v) -> r = Ret None)).
  { intros r <-. destruct (re_search false json_raw_re t) as [m|] eqn:Hs.
    - pose proof (json_raw_sound _ _ Hs) as Hg.
      rewrite (try_loads_spec json_loads Hfaults).
      destruct (json_loads (group0 t m)) as [v|e] eqn:Hl.
      + split; [eauto|]. split; [|split].
        * intros v' H. injection H as <-. eauto.
        * intros _. exists (group0 t m). now rewrite Hl.
        * intros Hno. now elim (Hno _ _ Hg Hl).
      + split; [eauto|]. split; [|split].
        * discriminate.
        * intros _. exists (group0 t m). now rewrite Hl.
        * reflexivity.
    - split; [eauto|]. split; [|split].
      + discriminate.
      + intros [g Hg]. now apply json_raw_complete in Hg.
      + reflexivity. }
  assert (Hex : ResponseParser.extract_json json_loads text
                = match re_search false json_fence_re t with
                  | Some m =>
                      ResponseParser.try_loads json_loads (group1 t m)
                        match re_search false json_raw_re t with
                        | Some m0 => ResponseParser.try_loads json_loads (group0 t m0) (Ret None)
                        | None => Ret None
                        end
                  | None =>
                      match re_search false json_raw_re t with
                      | Some m0 => ResponseParser.try_loads json_loads (group0 t m0) (Ret None)
                      | None => Ret None
                      end
                  end) by reflexivity.
  rewrite Hex. clear Hex.
  destruct (Hraw _ eq_refl) as (Hr1 & Hr2 & Hr3 & Hr4).
  set (raw := match re_search false json_raw_re t with
              | Some m0 => ResponseParser.try_loads json_loads (group0 t m0) (Ret None)
              | None => Ret None
              end) in *.
  assert (Hsub : (forall g v, substring g t -> json_loads g <> Ret v) ->
                 (forall g v, fenced_object t g -> json_loads g <> Ret v) /\
                 (forall g v, outermost_span t g -> json_loads g <> Ret v)).
  { intros H. split; intros g v Hg; apply H.
    - now apply fenced_object_substring.
    - now apply outermost_span_substring. }
  assert (Hthink : forall a th y,
             contains (py "<think>") a = false ->
             contains (py "</think>") th = false ->
             text = a ++ py "<think>" ++ th ++ py "</think>" ++ y ->
             t = a ++ re_sub false think_re [] y).
  { intros a th y Ha Hth ->. now apply think_removed. }
  destruct (re_search false json_fence_re t) as [m|] eqn:Hf.
  - pose proof (json_fence_sound _ _ Hf) as Hg.
    rewrite (try_loads_spec json_loads Hfaults).
    destruct (json_loads (group1 t m)) as [v|e] eqn:Hl.
    + split; [eauto|]. split; [|split; [|split; [|split; [|split]]]].
      * intros v' H. injection H as <-. eauto.
      * intros _. exists (group1 t m). split; [exact Hg|].
        intros v' Hv'. congruence.
      * intros Hno. now elim (Hno _ _ Hg Hl).
      * intros Hno. now elim (Hno _ _ Hg Hl).
      * intros Hno. apply Hsub in Hno as [Hno _]. now elim (Hno _ _ Hg Hl).
      * exact Hthink.
    + split; [exact Hr1|]. split; [|split; [|split; [|split; [|split]]]].
      * intros v H. destruct (Hr2 _ H) as (g & Hg' & Hv). eauto.
      * intros _. exists (group1 t m). split; [exact Hg|]. intros v' Hv'. congruence.
      * intros _. exact Hr3.
      * intros _. exact Hr4.
      * intros Hno. apply Hsub in Hno as [_ Hno]. now apply Hr4.
      * exact Hthink.
  - split; [exact Hr1|]. split; [|split; [|split; [|split; [|split]]]].
    + intros v H. destruct (Hr2 _ H) as (g & Hg' & Hv). eauto.
    + intros [g Hg]. now apply json_fence_complete in Hg.
    + intros _. exact Hr3.
    + intros _. exact Hr4.
    + intros Hno. apply Hsub in Hno as [_ Hno]. now apply Hr4.
    + exact Hthink.
Qed.

(** C3. [extract_json] catches [JSONDecodeError] and nothing else: any
    other exception of [json.loads] leaves it. An exception of
    [extract_json] is an exception of the decoder that is no
    [JSONDecodeError], raised on a fenced object or on the outermost span;
    when the decoder raises such an exception on the object of the first
    fence, or on the outermost span of a text without a fenced object,
    [extract_json] raises it. An object whose one member is an integer of
    4301 digits, alone or inside a fence, makes [json.loads] raise
    [ValueError], and [extract_json] with it; [analyze] then raises the same
    exception after the request alone, the model still loaded. *)
Theorem extract_json_raises_what_the_decoder_raises :
  (forall (json_loads : str -> outcome pyval) (text : str) (e : exn),
      let t := re_sub false think_re [] text in
      (ResponseParser.extract_json json_loads text = Raise e ->
       is_JSONDecodeError e = false /\
       exists g, (fenced_object t g \/ outermost_span t g) /\
                 json_loads g = Raise e) /\
      (forall m, re_search false json_fence_re t = Some m ->
                 json_loads (group1 t m) = Raise e ->
                 is_JSONDecodeError e = false ->
                 ResponseParser.extract_json json_loads text = Raise e) /\
      (forall m, re_search false json_fence_re t = None ->
                 re_search false json_raw_re t = Some m ->
                 json_loads (group0 t m) = Raise e ->
                 is_JSONDecodeError e = false ->
                 ResponseParser.extract_json json_loads text = Raise e)) /\
  is_JSONDecodeError (IntJson.digit_limit_error 4301) = false /\
  IntJson.loads long_integer_object = Raise (IntJson.digit_limit_error 4301) /\
  exn_str (IntJson.digit_limit_error 4301)
  = py "Exceeds the limit (4300 digits) for integer string conversion: value has 4301 digits; use sys.set_int_max_str_digits() to increase the limit" /\
  ResponseParser.extract_json IntJson.loads long_integer_object
  = Raise (IntJson.digit_limit_error 4301) /\
  ResponseParser.extract_json IntJson.loads long_integer_fenced
  = Raise (IntJson.digit_limit_error 4301) /\
  DeepSeekAnalyzer.analyze IntJson.loads (answering_llm long_integer_object) deepseek
                           (3 # 10)%Q (py "cv") fresh
  = (Raise (IntJson.digit_limit_error 4301),
     {| svc_state := tt;
        calls := [CallChat deepseek (analysis_request (py "cv"))
                           (analysis_config (3 # 10)%Q)] |}).
Proof.
  split; [|vm_compute; repeat split].
  intros json_loads text e t.
  assert (Hex : ResponseParser.extract_json json_loads text
                = match re_search false json_fence_re t with
                  | Some m =>
                      ResponseParser.try_loads json_loads (group1 t m)
                        match re_search false json_raw_re t with
                        | Some m0 => ResponseParser.try_loads json_loads (group0 t m0) (Ret None)
                        | None => Ret None
                        end
                  | None =>
                      match re_search false json_raw_re t with
                      | Some m0 => ResponseParser.try_loads json_loads (group0 t m0) (Ret None)
                      | None => Ret None
                      end
                  end) by reflexivity.
  rewrite Hex. clear Hex.
  assert (Hraw :
    match re_search false json_raw_re t with
    | Some m0 => ResponseParser.try_loads json_loads (group0 t m0) (Ret None)
    | None => Ret None
    end = Raise e ->
    is_JSONDecodeError e = false /\
    exists g, (fenced_object t g \/ outermost_span t g) /\ json_loads g = Raise e).
  { destruct (re_search false json_raw_re t) as [m0|] eqn:Hr; [|discriminate].
    unfold ResponseParser.try_loads.
    destruct (json_loads (group0 t m0)) as [v|e0] eqn:Hl; [discriminate|].
    destruct (is_JSONDecodeError e0) eqn:He0; [discriminate|].
    intros H. injection H as <-. split; [exact He0|].
    exists (group0 t m0). split; [right; now apply json_raw_sound | exact Hl]. }
  split; [|split].
  - destruct (re_search false json_fence_re t) as [m|] eqn:Hf; [|exact Hraw].
    unfold ResponseParser.try_loads at 1.
    destruct (json_loads (group1 t m)) as [v|e0] eqn:Hl; [discriminate|].
    destruct (is_JSONDecodeError e0) eqn:He0; [exact Hraw|].
    intros H. injection H as <-. split; [exact He0|].
    exists (group1 t m). split; [left; now apply json_fence_sound | exact Hl].
  - intros m -> Hl He. unfold ResponseParser.try_loads at 1. now rewrite Hl, He.
  - intros m -> -> Hl He. unfold ResponseParser.try_loads. now rewrite Hl, He.
Qed.

(* ===================================================================== *)
(** * The analyzer *)
(* ===================================================================== *)

(** What [analyze] returns when the request succeeds. *)
Lemma analyze_on_success (json_loads : str -> outcome pyval) (W : Type)
      (llm : ILLMService.t W) (model : str) (temperature : Q)
      (cv_text : str) (w : world W) (r : LLMResponse) (s : W) :
  ILLMService.chat llm (analysis_request cv_text) model
                   (analysis_config temperature) (svc_state w) = (r, s) ->
  success r = true ->
  fst (DeepSeekAnalyzer.analyze json_loads llm model temperature cv_text w)
  = match ResponseParser.text_of (content r) with
    | Raise e => Raise e
    | Ret text =>
        match ResponseParser.extract_json json_loads text with
        | Raise e => Raise e
        | Ret parsed_data =>
            if DeepSeekAnalyzer.not_parsed parsed_data
            then Ret (DeepSeekAnalyzer.raw_record text cv_text)
            else DeepSeekAnalyzer.from_parsed parsed_data cv_text
        end
    end.
Proof.
  intros Hchat Hs.
  unfold DeepSeekAnalyzer.analyze, bind, call_chat, analysis_request, analysis_config in *.
  change (max_tokens LLMConfig_default) with 4096%Z.
  rewrite Hchat, Hs. cbn [negb]. unfold lift.
  destruct (ResponseParser.text_of (content r)) as [text|e]; [|reflexivity].
  destruct (ResponseParser.extract_json json_loads text) as [parsed|e];
    [|reflexivity].
  destruct (DeepSeekAnalyzer.not_parsed parsed);
    [|destruct (DeepSeekAnalyzer.from_parsed parsed cv_text); [|reflexivity]];
    unfold call_unload_model, ret; cbn [svc_state];
    destruct (ILLMService.unload_model llm model s); reflexivity.
Qed.

Ltac invert_obind H :=
  repeat match type of H with
         | obind ?x _ = Ret _ =>
             let E := fresh "E" in
             destruct x eqn:E; cbn [obind] in H; [|discriminate H]
         end.

(** The fields [from_dict] reads straight from the object. *)
Lemma from_dict_fields (d : pydict) (cv_text : str) (cv : CVData.t) :
  CVData.from_dict d cv_text = Ret cv ->
  CVData.raw_analysis cv = dict_get (py "raw_analysis") PNone d /\
  CVData.certifications cv = dict_get (py "certifications") empty_list d /\
  CVData.languages_spoken cv = dict_get (py "languages_spoken") empty_list d /\
  CVData.original_cv_text cv = cv_text /\
  (forall p, dict_find (py "personal") d = Some (PDict p) ->
             PersonalInfo.name (CVData.personal cv)
             = dict_get (py "name") empty_str p).
Proof.
  unfold CVData.from_dict. intros H. invert_obind H.
  injection H as <-. repeat split.
  intros p Hp. unfold CVData.if_key in E. rewrite Hp in E.
  cbn [CVData.as_dict obind] in E. now injection E as <-.
Qed.

(** C6, as the code has it. Take a record that [analyze] returns on a
    successful reply: the content of the reply is then a text. When
    structured parsing failed (nothing was extracted,
    or an empty object), its raw analysis is the text of the reply, which is
    not empty exactly when the reply is not, and every structured field has
    its default: the lists are empty. When an object was extracted, the
    record is [from_dict] of it, and its raw analysis is the entry
    ["raw_analysis"] of the object: [None] when the object has no such
    entry. *)
Theorem analyze_raw_or_structured :
  forall (json_loads : str -> outcome pyval) (W : Type) (llm : ILLMService.t W)
         (model : str) (temperature : Q) (cv_text : str) (w : world W)
         (r : LLMResponse) (s : W) (cv : CVData.t),
    ILLMService.chat llm (analysis_request cv_text) model
                     (analysis_config temperature) (svc_state w) = (r, s) ->
    success r = true ->
    fst (DeepSeekAnalyzer.analyze json_loads llm model temperature cv_text w) = Ret cv ->
    exists text,
      content r = PStr text /\ raw_or_structured json_loads text cv_text cv.
Proof.
  intros json_loads W llm model temperature cv_text w r s cv Hchat Hs Hcv.
  rewrite (analyze_on_success json_loads W llm model temperature cv_text w r s Hchat Hs)
    in Hcv.
  destruct (content r) as [| | | |text| |]; try discriminate Hcv.
  cbn [ResponseParser.text_of] in Hcv.
  exists text. split; [reflexivity|].
  unfold raw_or_structured.
  destruct (ResponseParser.extract_json json_loads text) as [parsed|e];
    [|discriminate].
  exists parsed. split; [reflexivity|].
  destruct (DeepSeekAnalyzer.not_parsed parsed) eqn:Hnp.
  - left. injection Hcv as <-. cbn. repeat split.
  - right. destruct parsed as [[| | | | | |d]|]; try discriminate.
    exists d. split; [reflexivity|]. split.
    + intros ->. discriminate.
    + cbn [DeepSeekAnalyzer.from_parsed] in Hcv. split; [exact Hcv|].
      destruct (from_dict_fields _ _ _ Hcv) as (Hraw & _). split; [exact Hraw|].
      intros Hno. rewrite Hraw. unfold dict_get, dict_has in *.
      now destruct (dict_find (py "raw_analysis") d).
Qed.

Lemma analyze_raw_or_structured_witness :
  ILLMService.chat (answering_llm jane_reply) (analysis_request (py "cv")) deepseek
                   (analysis_config (3 # 10)%Q) (svc_state fresh)
  = (reply jane_reply, tt) /\
  success (reply jane_reply) = true /\
  fst (DeepSeekAnalyzer.analyze RefJson.loads (answering_llm jane_reply) deepseek
                                (3 # 10)%Q (py "cv") fresh)
  = Ret (jane_record (py "cv")) /\
  exists text,
    content (reply jane_reply) = PStr text /\
    raw_or_structured RefJson.loads text (py "cv") (jane_record (py "cv")).
Proof.
  assert (H : fst (DeepSeekAnalyzer.analyze RefJson.loads (answering_llm jane_reply)
                     deepseek (3 # 10)%Q (py "cv") fresh)
              = Ret (jane_record (py "cv"))) by (vm_compute; reflexivity).
  split; [reflexivity|]. split; [reflexivity|]. split; [exact H|].
  exact (analyze_raw_or_structured RefJson.loads unit (answering_llm jane_reply)
           deepseek (3 # 10)%Q (py "cv") fresh (reply jane_reply) tt
           (jane_record (py "cv")) eq_refl eq_refl H).
Defined.

(** C6 as stated fails both ways. On an empty reply parsing fails and the
    raw analysis is empty too. On an object that has a ["raw_analysis"]
    entry beside a structured list, the record has a raw analysis and a
    populated list at once. *)
Lemma analyze_invariant_counterexample :
  (ResponseParser.extract_json RefJson.loads empty_reply = Ret None /\
   fst (DeepSeekAnalyzer.analyze RefJson.loads (answering_llm empty_reply) deepseek
                                 (3 # 10)%Q (py "cv") fresh)
   = Ret (DeepSeekAnalyzer.raw_record [] (py "cv")) /\
   truthy (CVData.raw_analysis (DeepSeekAnalyzer.raw_record [] (py "cv"))) = false) /\
  (exists cv,
      fst (DeepSeekAnalyzer.analyze RefJson.loads (answering_llm reply_with_raw_entry)
                                    deepseek (3 # 10)%Q (py "cv") fresh)
      = Ret cv /\
      CVData.raw_analysis cv = PStr (py "x") /\
      truthy (CVData.raw_analysis cv) = true /\
      CVData.certifications cv = PList [PStr (py "a")]).
Proof.
  split.
  - vm_compute. repeat split.
  - eexists. vm_compute. repeat split.
Qed.

(* ===================================================================== *)
(** * A fenced object after the reasoning preamble *)
(* ===================================================================== *)

(** One step of the matcher. *)
Lemma mt_lit ic l p s n :
  mt ic (Lit l :: p) s n
  = match lit_match ic l s with
    | Some s' => mt ic p s' (n + length l)
    | None => None
    end.
Proof. reflexivity. Qed.

Lemma mt_lit_here ic l p s n :
  mt ic (Lit l :: p) (l ++ s) n = mt ic p s (n + length l).
Proof. rewrite mt_lit. now rewrite (lit_match_complete ic l l s (lit_eq_refl ic l)). Qed.

Lemma mt_opt_here ic l p s n r :
  mt ic p s (n + length l) = Some r -> mt ic (OptLit l :: p) (l ++ s) n = Some r.
Proof.
  intros H. cbn [mt]. rewrite (lit_match_complete ic l l s (lit_eq_refl ic l)).
  now rewrite H.
Qed.

Lemma mt_opt_absent ic l p s n :
  lit_match ic l s = None -> mt ic (OptLit l :: p) s n = mt ic p s n.
Proof. intros H. cbn [mt]. now rewrite H. Qed.

Lemma mt_mark ic p s n :
  mt ic (Mark :: p) s n
  = match mt ic p s n with
    | Some (ms, e) => Some (n :: ms, e)
    | None => None
    end.
Proof. reflexivity. Qed.

Lemma mt_star ic c p s n :
  mt ic (Star c :: p) s n = star_greedy c (mt ic p) s n.
Proof. reflexivity. Qed.

Lemma mt_lazy ic c p s n :
  mt ic (LazyStar c :: p) s n = star_lazy c (mt ic p) s n.
Proof. reflexivity. Qed.

(** After a fence without a tag come blanks or the opening brace, not the
    tag. *)
Lemma no_tag_after_fence (w1 s : str) :
  all_space w1 -> lit_match false (py "json") (w1 ++ py "{" ++ s) = None.
Proof.
  intros Hw. destruct w1 as [|ch w1]; [reflexivity|].
  inversion Hw as [|? ? Hch _]; subst. cbn [app].
  change (py "json") with (106%N :: py "son"). cbn [lit_match char_match].
  destruct (N.eqb_spec 106 ch) as [<-|_]; [|reflexivity].
  vm_compute in Hch. discriminate Hch.
Qed.

(** The lazy repetition does not stop at a closing brace that blanks and
    a fence do not follow. *)
Lemma close_fails ch a2 w2 c m :
  (ch = 125%N -> ~ closes_fence (a2 ++ py "}" ++ w2 ++ py "```" ++ c)) ->
  mt false [Lit (py "}"); Mark; Star Space; Lit (py "```")]
     (ch :: a2 ++ py "}" ++ w2 ++ py "```" ++ c) m = None.
Proof.
  intros H. cbn [mt]. change (lit_match false (py "}")) with (lit_match false [125%N]).
  cbn [lit_match char_match].
  destruct (N.eqb_spec 125 ch) as [E|_]; [|reflexivity].
  destruct (star_greedy Space _ _ _) as [[ms e]|] eqn:Hs; [|reflexivity].
  exfalso. apply star_greedy_sound in Hs as (a & s' & Ha & Hsp & Hk).
  cbn [mt] in Hk.
  destruct (lit_match false (py "```") s') as [s''|] eqn:Hl; [|discriminate].
  apply lit_match_sound in Hl as (f & -> & Hf). apply lit_eq_exact in Hf. subst f.
  apply (H (eq_sym E)). exists a, s''. split; [exact Ha | exact Hsp].
Qed.

(** The pattern after the fence and its tag, on blanks, an object that
    ends at the first closing brace that blanks and a fence follow, blanks
    and a fence. *)
Lemma fence_body_mt w1 x w2 c n :
  all_space w1 -> all_space w2 ->
  (forall x1 x2, x = x1 ++ py "}" ++ x2 ->
     ~ closes_fence (x2 ++ py "}" ++ w2 ++ py "```" ++ c)) ->
  mt false [Star Space; Mark; Lit (py "{"); LazyStar AnyChar; Lit (py "}"); Mark;
            Star Space; Lit (py "```")]
     (w1 ++ py "{" ++ x ++ py "}" ++ w2 ++ py "```" ++ c) n
  = Some ([n + length w1; n + length w1 + 1 + length x + 1],
          n + length w1 + 1 + length x + 1 + length w2 + 3).
Proof.
  intros Hw1 Hw2 Hx.
  assert (K3 : forall m,
    mt false [Star Space; Lit (py "```")] (w2 ++ py "```" ++ c) m
    = Some ([], m + length w2 + 3)).
  { intros m. rewrite mt_star. apply star_greedy_run; [exact Hw2 | reflexivity |].
    now rewrite mt_lit_here. }
  assert (K2 : forall m,
    mt false [Lit (py "}"); Mark; Star Space; Lit (py "```")]
       (py "}" ++ w2 ++ py "```" ++ c) m
    = Some ([m + 1], m + 1 + length w2 + 3)).
  { intros m. rewrite mt_lit_here, mt_mark, K3. reflexivity. }
  assert (K1 : forall m,
    mt false [Lit (py "{"); LazyStar AnyChar; Lit (py "}"); Mark; Star Space;
              Lit (py "```")]
       (py "{" ++ x ++ py "}" ++ w2 ++ py "```" ++ c) m
    = Some ([m + 1 + length x + 1], m + 1 + length x + 1 + length w2 + 3)).
  { intros m. rewrite mt_lit_here, mt_lazy.
    apply star_lazy_first.
    - apply all_any.
    - intros a1 ch a2 ->. apply close_fails.
      intros ->. apply (Hx a1 a2). reflexivity.
    - apply K2. }
  rewrite mt_star.
  apply star_greedy_run; [exact Hw1 | reflexivity |].
  rewrite mt_mark, K1. reflexivity.
Qed.

(** The fenced pattern at the fence of a first fenced object. *)
Lemma json_fence_mt o w1 x w2 c n :
  o = [] \/ o = py "json" -> all_space w1 -> all_space w2 ->
  (forall x1 x2, x = x1 ++ py "}" ++ x2 ->
     ~ closes_fence (x2 ++ py "}" ++ w2 ++ py "```" ++ c)) ->
  exists e,
    mt false json_fence_re
       (py "```" ++ o ++ w1 ++ (py "{" ++ x ++ py "}") ++ w2 ++ py "```" ++ c) n
    = Some ([n + 3 + length o + length w1;
             n + 3 + length o + length w1 + length (py "{" ++ x ++ py "}")], e).
Proof.
  intros Ho Hw1 Hw2 Hx.
  pose proof (fence_body_mt w1 x w2 c (n + 3 + length o) Hw1 Hw2 Hx) as K.
  assert (Hlen : length (py "{" ++ x ++ py "}") = 1 + length x + 1).
  { rewrite !length_app. reflexivity. }
  rewrite Hlen, !Nat.add_assoc.
  unfold json_fence_re. rewrite mt_lit_here. change (length (py "```")) with 3.
  rewrite <- !app_assoc.
  destruct Ho as [-> | ->]; eexists.
  - cbn [app length] in *. rewrite Nat.add_0_r in *.
    rewrite mt_opt_absent by now apply no_tag_after_fence.
    exact K.
  - apply mt_opt_here. exact K.
Qed.

(** The search finds the first fenced object. *)
Lemma first_fence_found t g :
  first_fenced_object t g ->
  exists m, re_search false json_fence_re t = Some m /\ group1 t m = g.
Proof.
  intros (a & o & w1 & x & w2 & c & -> & Ho & Hw1 & Hw2 & -> & Hleft & Hshort).
  destruct (json_fence_mt o w1 x w2 c (0 + length a) Ho Hw1 Hw2 Hshort) as [e He].
  eexists. split.
  - unfold re_search. apply search_found; [|exact He].
    intros a1 ch a2 E.
    match goal with
    | |- ?lhs = None => destruct lhs as [[ms e']|] eqn:Hm; [|reflexivity]
    end.
    exfalso. apply (Hleft a1 (ch :: a2) E); [discriminate|].
    apply mt_sound in Hm as (u & rest & Hs & _ & Hd).
    apply fence_den in Hd
      as (o' & w1' & d & x' & h & w2' & -> & Ho' & Hw1' & Hw2' & Hd & Hh & _).
    apply lit_eq_exact in Hd, Hh. subst d h.
    exists o', w1', x', w2', rest. split; [|split; [|split; assumption]].
    + cbn [app]. rewrite Hs. now rewrite <- !app_assoc.
    + destruct Ho' as [-> | Ho']; [now left | right; now apply lit_eq_exact].
  - eapply fenced_group with (a := a) (o := o) (w1 := w1); [reflexivity | reflexivity |].
    cbn [m_marks m_start]. reflexivity.
Qed.

Lemma space_not (c : char) (w : str) : is_space c = false -> all_space w -> ~ In c w.
Proof.
  intros Hc Hw Hin. unfold all_space in Hw. rewrite Forall_forall in Hw.
  specialize (Hw _ Hin). congruence.
Qed.

(** A fenced object is the first one when no backtick stands before its
    fence or inside it. *)
Lemma first_fenced_object_plain (a o w1 x w2 c : str) :
  ~ In 96%N a -> o = [] \/ o = py "json" -> all_space w1 -> all_space w2 ->
  ~ In 96%N x ->
  first_fenced_object
    (a ++ py "```" ++ o ++ w1 ++ (py "{" ++ x ++ py "}") ++ w2 ++ py "```" ++ c)
    (py "{" ++ x ++ py "}").
Proof.
  intros Ha Ho Hw1 Hw2 Hx. exists a, o, w1, x, w2, c.
  split; [reflexivity|]. split; [exact Ho|]. split; [exact Hw1|].
  split; [exact Hw2|]. split; [reflexivity|]. split.
  - intros a1 a2 -> Hne (o' & w1' & x' & w2' & c' & E & _).
    destruct a2 as [|ch a2]; [contradiction|].
    change (py "```" ++ o' ++ w1' ++ (py "{" ++ x' ++ py "}") ++ w2' ++ py "```" ++ c')
      with (96%N :: py "``" ++ o' ++ w1' ++ (py "{" ++ x' ++ py "}") ++ w2'
                 ++ py "```" ++ c') in E.
    cbn [app] in E. injection E as -> _.
    apply Ha. apply in_or_app. right. now left.
  - intros x1 x2 -> (w & c' & E & Hw).
    change (py "}" ++ w2 ++ py "```" ++ c) with ([125%N] ++ w2 ++ py "```" ++ c) in E.
    rewrite app_assoc in E.
    apply app_eq_app in E as [l [[Hu Hv] | [Hu Hv]]].
    + destruct l as [|y l].
      * rewrite app_nil_r in Hu.
        apply (space_not 125%N w); [reflexivity | exact Hw |].
        rewrite <- Hu. apply in_or_app. right. now left.
      * change (py "```" ++ c') with (96%N :: py "``" ++ c') in Hv.
        cbn [app] in Hv. injection Hv as Hy _. subst y.
        assert (Hin : In 96%N (x2 ++ [125%N])).
        { exact (eq_ind_r (fun z : list char => In 96%N z)
                          (in_or_app w (96%N :: l) 96%N (or_intror (or_introl eq_refl)))
                          Hu). }
        apply in_app_or in Hin as [Hin | Hin]; [|cbv in Hin; intuition discriminate].
        apply Hx. apply in_or_app. right. apply in_or_app. now right.
    + apply (space_not 125%N w); [reflexivity | exact Hw |].
      rewrite Hu. apply in_or_app. left. apply in_or_app. right. now left.
Qed.

(** C1, as the code has it. Take a text that has a reasoning preamble:
    [pre], the first opening tag, [th], the first closing tag after it, and
    [after]. The text [extract_json] looks at is [pre] followed by [after]
    without its own preambles, that is by [after] itself when it holds no
    opening tag. If [g] is the first fenced object of that text and
    [json.loads] decodes it, [extract_json] returns exactly that value. If
    the value is a non-empty object from which [from_dict] builds a record,
    [analyze] returns that record on a reply with that text: its personal
    name is ["Jane Doe"] when the object holds that name under
    ["personal"], and its raw analysis is [None] when the object has no
    ["raw_analysis"] entry. *)
Theorem fenced_object_after_preamble :
  forall (json_loads : str -> outcome pyval) (pre th after g : str) (v : pyval),
    contains (py "<think>") pre = false ->
    contains (py "</think>") th = false ->
    let text := pre ++ py "<think>" ++ th ++ py "</think>" ++ after in
    let t := pre ++ re_sub false think_re [] after in
    first_fenced_object t g ->
    json_loads g = Ret v ->
    re_sub false think_re [] text = t /\
    (contains (py "<think>") after = false -> t = pre ++ after) /\
    ResponseParser.extract_json json_loads text = Ret (Some v) /\
    (forall (W : Type) (llm : ILLMService.t W) (model : str) (temperature : Q)
            (cv_text : str) (w : world W) (r : LLMResponse) (s : W)
            (d : pydict) (cv : CVData.t),
        ILLMService.chat llm (analysis_request cv_text) model
                         (analysis_config temperature) (svc_state w) = (r, s) ->
        success r = true -> content r = PStr text ->
        v = PDict d -> d <> [] -> CVData.from_dict d cv_text = Ret cv ->
        fst (DeepSeekAnalyzer.analyze json_loads llm model temperature cv_text w)
        = Ret cv /\
        (forall p, dict_find (py "personal") d = Some (PDict p) ->
                   dict_find (py "name") p = Some (PStr (py "Jane Doe")) ->
                   PersonalInfo.name (CVData.personal cv) = PStr (py "Jane Doe")) /\
        (dict_has (py "raw_analysis") d = false ->
         CVData.raw_analysis cv = PNone)).
Proof.
  intros json_loads pre th after g v Hpre Hth text t Hg Hloads.
  assert (Ht : re_sub false think_re [] text = t).
  { unfold text, t. now apply think_removed. }
  assert (Hex : ResponseParser.extract_json json_loads text = Ret (Some v)).
  { unfold ResponseParser.extract_json. cbv zeta. rewrite Ht.
    destruct (first_fence_found t g Hg) as (m & Hm & Hgm).
    rewrite Hm, Hgm. unfold ResponseParser.try_loads. now rewrite Hloads. }
  split; [exact Ht|]. split.
  { intros Hafter. unfold t. now rewrite re_sub_without_opening. }
  split; [exact Hex|].
  intros W llm model temperature cv_text w r s d cv Hchat Hs Hc -> Hd Hcv.
  rewrite (analyze_on_success json_loads W llm model temperature cv_text w r s Hchat Hs).
  rewrite Hc. cbn [ResponseParser.text_of]. rewrite Hex.
  cbn [DeepSeekAnalyzer.not_parsed truthy].
  destruct d as [|kv d]; [contradiction|]. cbn [negb DeepSeekAnalyzer.from_parsed].
  split; [exact Hcv|].
  destruct (from_dict_fields _ _ _ Hcv) as (Hraw & _ & _ & _ & Hname). split.
  - intros p Hp Hn. rewrite (Hname p Hp). unfold dict_get. now rewrite Hn.
  - intros Hno. rewrite Hraw. unfold dict_get, dict_has in *.
    now destruct (dict_find (py "raw_analysis") (kv :: d)).
Qed.

Lemma fenced_object_after_preamble_witness :
  re_sub false think_re [] jane_reply
  = nl ++ py "```json" ++ nl
    ++ pyq "{~personal~: {~name~: ~Jane Doe~, ~email~: null}, ~certifications~: [~AWS~]}"
    ++ nl ++ py "```" /\
  ResponseParser.extract_json RefJson.loads jane_reply
  = Ret (Some (PDict [(py "personal",
                        PDict [(py "name", PStr (py "Jane Doe")); (py "email", PNone)]);
                      (py "certifications", PList [PStr (py "AWS")])])) /\
  fst (DeepSeekAnalyzer.analyze RefJson.loads (answering_llm jane_reply) deepseek
                                (3 # 10)%Q (py "cv") fresh)
  = Ret (jane_record (py "cv")) /\
  PersonalInfo.name (CVData.personal (jane_record (py "cv"))) = PStr (py "Jane Doe") /\
  CVData.raw_analysis (jane_record (py "cv")) = PNone.
Proof.
  pose (body := pyq "~personal~: {~name~: ~Jane Doe~, ~email~: null}, ~certifications~: [~AWS~]").
  pose (after := nl ++ py "```" ++ py "json" ++ nl ++ (py "{" ++ body ++ py "}")
                    ++ nl ++ py "```" ++ []).
  assert (Hsp : all_space nl) by (repeat constructor).
  assert (H1 : contains (py "<think>") [] = false) by reflexivity.
  assert (H2 : contains (py "</think>") (py "The CV names Jane Doe.") = false)
    by reflexivity.
  assert (H3 : ~ In 96%N nl) by no_char.
  assert (H4 : ~ In 96%N body) by no_char.
  assert (H5 : [] ++ re_sub false think_re [] after = after) by (vm_compute; reflexivity).
  assert (H6 : first_fenced_object ([] ++ re_sub false think_re [] after)
                                   (py "{" ++ body ++ py "}")).
  { exact (eq_ind_r (fun z : str => first_fenced_object z (py "{" ++ body ++ py "}"))
                    (first_fenced_object_plain nl (py "json") nl body nl []
                       H3 (or_intror eq_refl) Hsp Hsp H4)
                    H5). }
  assert (H8 : RefJson.loads (py "{" ++ body ++ py "}")
               = Ret (PDict [(py "personal",
                               PDict [(py "name", PStr (py "Jane Doe")); (py "email", PNone)]);
                             (py "certifications", PList [PStr (py "AWS")])]))
    by (vm_compute; reflexivity).
  assert (H9 : CVData.from_dict
                 [(py "personal",
                    PDict [(py "name", PStr (py "Jane Doe")); (py "email", PNone)]);
                  (py "certifications", PList [PStr (py "AWS")])] (py "cv")
               = Ret (jane_record (py "cv")))
    by (vm_compute; reflexivity).
  assert (H10 : [(py "personal",
                   PDict [(py "name", PStr (py "Jane Doe")); (py "email", PNone)]);
                 (py "certifications", PList [PStr (py "AWS")])] <> (@nil (str * pyval)))
    by discriminate.
  destruct (fenced_object_after_preamble RefJson.loads
              [] (py "The CV names Jane Doe.") after (py "{" ++ body ++ py "}") _
              H1 H2 H6 H8) as (Ht & Hafter & Hex & Han).
  destruct (Han unit (answering_llm jane_reply) deepseek (3 # 10)%Q (py "cv") fresh
                (reply jane_reply) tt _ (jane_record (py "cv"))
                eq_refl eq_refl eq_refl eq_refl H10 H9) as (Hcv & Hname & Hraw).
  split; [rewrite (Hafter eq_refl) in Ht; exact Ht|].
  split; [exact Hex|]. split; [exact Hcv|]. split; reflexivity.
Defined.

(** C1 as stated fails. A fenced object that holds ["name": "Jane Doe"] at
    its top level is extracted as it is, and the record built from it has
    an empty personal name. A fenced object inside the preamble is removed
    with it: nothing is extracted, the personal name is empty and the raw
    analysis is the whole reply. Of two fenced objects after the preamble
    the first is the one extracted, and the record has its name. *)
Lemma jane_doe_counterexample :
  (ResponseParser.extract_json RefJson.loads jane_reply_flat
   = Ret (Some (PDict [(py "name", PStr (py "Jane Doe"))])) /\
   exists cv,
     fst (DeepSeekAnalyzer.analyze RefJson.loads (answering_llm jane_reply_flat)
                                   deepseek (3 # 10)%Q (py "cv") fresh) = Ret cv /\
     PersonalInfo.name (CVData.personal cv) = PStr [] /\
     CVData.raw_analysis cv = PNone) /\
  (ResponseParser.extract_json RefJson.loads jane_reply_inside = Ret None /\
   exists cv,
     fst (DeepSeekAnalyzer.analyze RefJson.loads (answering_llm jane_reply_inside)
                                   deepseek (3 # 10)%Q (py "cv") fresh) = Ret cv /\
     PersonalInfo.name (CVData.personal cv) = PStr [] /\
     CVData.raw_analysis cv = PStr jane_reply_inside) /\
  (fenced_object (re_sub false think_re [] jane_reply_second)
                 (pyq "{~personal~: {~name~: ~Jane Doe~}}") /\
   ResponseParser.extract_json RefJson.loads jane_reply_second
   = Ret (Some (PDict [(py "personal", PDict [(py "name", PStr (py "John Roe"))])])) /\
   exists cv,
     fst (DeepSeekAnalyzer.analyze RefJson.loads (answering_llm jane_reply_second)
                                   deepseek (3 # 10)%Q (py "cv") fresh) = Ret cv /\
     PersonalInfo.name (CVData.personal cv) = PStr (py "John Roe")).
Proof.
  split; [|split].
  - split; [vm_compute; reflexivity|]. eexists. vm_compute. repeat split.
  - split; [vm_compute; reflexivity|]. eexists. vm_compute. repeat split.
  - split; [|split; [vm_compute; reflexivity|]].
    + exists (nl ++ py "```json" ++ nl ++ pyq "{~personal~: {~name~: ~John Roe~}}"
                 ++ nl ++ py "```" ++ nl),
             (py "json"), nl, (pyq "~personal~: {~name~: ~Jane Doe~}"), nl, [].
      split; [vm_compute; reflexivity|]. split; [now right|].
      split; [repeat constructor|]. split; [repeat constructor | reflexivity].
    + eexists. vm_compute. repeat split.
Qed.

(* ===================================================================== *)
(** * Further properties: the reasoning preamble *)
(* ===================================================================== *)

(** The substitution by the empty text only deletes characters. *)
Lemma sub_go_deletes ic p : forall s skip c,
  In c (sub_go ic p [] skip s) -> In c s.
Proof.
  induction s as [|x s IH]; intros skip c H; [exact H|].
  cbn [sub_go] in H. destruct skip as [|k].
  - destruct (mt ic p (x :: s) 0) as [[ms e]|].
    + right. exact (IH _ _ H).
    + destruct H as [-> | H]; [now left | right; exact (IH _ _ H)].
  - right. exact (IH _ _ H).
Qed.

Lemma sub_go_length ic p : forall s skip,
  length (sub_go ic p [] skip s) <= length s.
Proof.
  induction s as [|x s IH]; intros skip; [reflexivity|].
  cbn [sub_go]. destruct skip as [|k].
  - destruct (mt ic p (x :: s) 0) as [[ms e]|]; cbn [app length].
    + pose proof (IH (e - 1)). lia.
    + pose proof (IH 0). lia.
  - cbn [length]. pose proof (IH k). lia.
Qed.

(** X1. The removal of the reasoning preamble needs both tags: a text
    without an opening tag, or with an opening tag that is never closed, is
    left exactly as it is, and [clean_thinking_tags] only trims it. *)
Theorem preamble_removal_needs_both_tags :
  forall text : str,
    contains (py "<think>") text = false \/ contains (py "</think>") text = false ->
    re_sub false think_re [] text = text /\
    ResponseParser.clean_thinking_tags text = strip text.
Proof.
  intros text H.
  assert (Hsub : re_sub false think_re [] text = text).
  { unfold re_sub. apply sub_go_no_match. intros a b ->.
    destruct (mt false think_re b 0) as [r|] eqn:Hm; [|reflexivity].
    exfalso. apply think_mt_shape in Hm as (th & y & ->).
    destruct H as [H | H]; apply contains_false_suffix in H.
    - assert (Hc : contains (py "<think>") (py "<think>" ++ th ++ py "</think>" ++ y) = true).
      { apply contains_spec. now exists [], (th ++ py "</think>" ++ y). }
      congruence.
    - assert (Hc : contains (py "</think>") (py "<think>" ++ th ++ py "</think>" ++ y) = true).
      { apply contains_spec. exists (py "<think>" ++ th), y. now rewrite <- !app_assoc. }
      congruence. }
  split; [exact Hsub|]. unfold ResponseParser.clean_thinking_tags. now rewrite Hsub.
Qed.

Lemma preamble_removal_needs_both_tags_witness :
  (contains (py "<think>") (py " <think>cut off at the token limit ") = false \/
   contains (py "</think>") (py " <think>cut off at the token limit ") = false) /\
  re_sub false think_re [] (py " <think>cut off at the token limit ")
  = py " <think>cut off at the token limit " /\
  ResponseParser.clean_thinking_tags (py " <think>cut off at the token limit ")
  = strip (py " <think>cut off at the token limit ").
Proof.
  assert (H : contains (py "<think>") (py " <think>cut off at the token limit ") = false \/
              contains (py "</think>") (py " <think>cut off at the token limit ") = false)
    by (right; reflexivity).
  split; [exact H|].
  exact (preamble_removal_needs_both_tags (py " <think>cut off at the token limit ") H).
Defined.

(** X2. A text without an opening brace, or without a closing brace, has
    no structured data: [extract_json] returns [None] whatever [json.loads]
    would do, so the decoder is never consulted. *)
Theorem extract_json_needs_braces :
  forall (json_loads : str -> outcome pyval) (text : str),
    ~ In 123%N text \/ ~ In 125%N text ->
    ResponseParser.extract_json json_loads text = Ret None.
Proof.
  intros json_loads text H. unfold ResponseParser.extract_json. cbv zeta.
  set (t := re_sub false think_re [] text).
  assert (Ht : ~ In 123%N t \/ ~ In 125%N t).
  { destruct H as [H | H]; [left | right]; intros Hin; apply H;
      exact (sub_go_deletes false think_re text 0 _ Hin). }
  assert (Hno : forall g x, g = py "{" ++ x ++ py "}" -> substring g t -> False).
  { intros g x -> (a & c & E). destruct Ht as [Ht | Ht]; apply Ht; rewrite E.
    - apply in_or_app. right. now left.
    - apply in_or_app. right. apply in_or_app. left.
      apply in_or_app. right. apply in_or_app. right. now left. }
  destruct (re_search false json_fence_re t) as [m|] eqn:Hf.
  - exfalso. apply json_fence_sound in Hf.
    pose proof (fenced_object_substring _ _ Hf) as Hs.
    destruct Hf as (a & o & w1 & x & w2 & c & _ & _ & _ & _ & Hg).
    exact (Hno _ _ Hg Hs).
  - destruct (re_search false json_raw_re t) as [m|] eqn:Hr; [|reflexivity].
    exfalso. apply json_raw_sound in Hr.
    pose proof (outermost_span_substring _ _ Hr) as Hs.
    destruct Hr as (a & x & c & _ & Hg & _).
    exact (Hno _ _ Hg Hs).
Qed.

Lemma extract_json_needs_braces_witness :
  (~ In 123%N (py "I could not read the CV.") \/ ~ In 125%N (py "I could not read the CV.")) /\
  ResponseParser.extract_json (fun _ => Raise (mk_exn TypeError "never asked"))
                              (py "I could not read the CV.") = Ret None.
Proof.
  assert (H : ~ In 123%N (py "I could not read the CV.") \/
              ~ In 125%N (py "I could not read the CV.")).
  { left. intros Hin. cbv in Hin. intuition discriminate. }
  split; [exact H|].
  exact (extract_json_needs_braces _ (py "I could not read the CV.") H).
Defined.

(* ===================================================================== *)
(** * Further properties: the record and its dictionary *)
(* ===================================================================== *)

(** X3. [to_dict] keeps every field but the raw analysis and the source
    text: [from_dict] of the dictionary of a record, with any source text,
    is the record with no raw analysis and that source text, and this
    record has the same dictionary. *)
Theorem from_dict_to_dict_any_text :
  forall (cv : CVData.t) (cv_text : str),
    let cv' := CVData.make (CVData.personal cv) (CVData.links cv)
                 (CVData.experience cv) (CVData.projects cv)
                 (CVData.education cv) (CVData.skills cv)
                 (CVData.certifications cv) (CVData.languages_spoken cv)
                 PNone cv_text in
    CVData.from_dict (CVData.to_dict cv) cv_text = Ret cv' /\
    CVData.to_dict cv' = CVData.to_dict cv.
Proof.
  intros [[n ti ta bi em ph lo] [li gi we ot] exps projs edus [la fr to sp]
          certs langs raw orig] cv_text.
  cbv zeta. split; [|reflexivity].
  unfold CVData.from_dict, CVData.to_dict, CVData.if_key.
  cbn -[omap CVData.exp_of CVData.proj_of CVData.edu_of
        CVData.exp_to_dict CVData.proj_to_dict CVData.edu_to_dict].
  rewrite exp_round_trip, proj_round_trip, edu_round_trip.
  reflexivity.
Qed.

Lemma section_result {A} (k : string) (d : pydict) (keep : A) (g : pydict -> A) :
  CVData.if_key k d keep (fun v => obind (CVData.as_dict v) (fun p => Ret (g p)))
  = if section_ok k d
    then Ret (match dict_find (py k) d with Some (PDict p) => g p | _ => keep end)
    else Raise no_get.
Proof.
  unfold CVData.if_key, section_ok.
  destruct (dict_find (py k) d) as [[]|]; reflexivity.
Qed.

Lemma omap_entries {A} (h : pyval -> outcome A) (l : list pyval) :
  (forall p, exists r, h (PDict p) = Ret r) ->
  (forall v, is_dict v = false -> h v = Raise no_get) ->
  if forallb is_dict l then exists r, omap h l = Ret r else omap h l = Raise no_get.
Proof.
  intros Hd Hn. induction l as [|v l IH]; [now exists []|].
  cbn [forallb omap]. destruct (is_dict v) eqn:Hv.
  - destruct v; try discriminate. destruct (Hd d) as [r ->]. cbn [andb obind].
    destruct (forallb is_dict l).
    + destruct IH as [rs ->]. now eexists.
    + now rewrite IH.
  - now rewrite (Hn v Hv).
Qed.

Lemma entries_result {A} (k : string) (d : pydict) (keep : list A)
      (h : pyval -> outcome A) :
  (forall p, exists r, h (PDict p) = Ret r) ->
  (forall v, is_dict v = false -> h v = Raise no_get) ->
  if entries_ok k d
  then exists r, CVData.if_key k d keep (fun v => obind (CVData.iterate v) (omap h))
                 = Ret r
  else exists e, CVData.if_key k d keep (fun v => obind (CVData.iterate v) (omap h))
                 = Raise e /\
                 (exn_cls e = AttributeError \/ exn_cls e = TypeError).
Proof.
  intros Hd Hn. unfold CVData.if_key, entries_ok.
  destruct (dict_find (py k) d) as [[| | | |s|l|p]|];
    try (eexists; split; [reflexivity | right; reflexivity]);
    try (eexists; reflexivity).
  - destruct s as [|c s]; [now eexists|].
    cbn [CVData.iterate obind map omap]. rewrite Hn by reflexivity.
    eexists. split; [reflexivity | left; reflexivity].
  - cbn [CVData.iterate obind]. pose proof (omap_entries h l Hd Hn) as H.
    destruct (forallb is_dict l); [exact H|].
    rewrite H. eexists. split; [reflexivity | left; reflexivity].
  - destruct p as [|kv p]; [now eexists|].
    cbn [CVData.iterate obind map omap]. rewrite Hn by reflexivity.
    eexists. split; [reflexivity | left; reflexivity].
Qed.

Lemma from_dict_by_shape (d : pydict) (cv_text : str) :
  (well_shaped d = true -> exists cv, CVData.from_dict d cv_text = Ret cv) /\
  (well_shaped d = false ->
   exists e, CVData.from_dict d cv_text = Raise e /\
             (exn_cls e = AttributeError \/ exn_cls e = TypeError)).
Proof.
  unfold well_shaped, CVData.from_dict. cbv zeta.
  rewrite (section_result "personal"), (section_result "links"),
          (section_result "skills").
  pose proof (entries_result "experience" d (CVData.experience CVData.default)
                CVData.exp_of) as He.
  pose proof (entries_result "projects" d (CVData.projects CVData.default)
                CVData.proj_of) as Hp.
  pose proof (entries_result "education" d (CVData.education CVData.default)
                CVData.edu_of) as Hu.
  assert (Hattr : forall b : bool, b = false ->
            exists e, @Raise CVData.t no_get = Raise e /\
                      (exn_cls e = AttributeError \/ exn_cls e = TypeError)).
  { intros _ _. exists no_get. split; [reflexivity | left; reflexivity]. }
  destruct (section_ok "personal" d); cbn [andb obind];
    [|split; [discriminate | apply Hattr]].
  destruct (section_ok "links" d); cbn [andb obind];
    [|split; [discriminate | apply Hattr]].
  destruct (entries_ok "experience" d); cbn [andb].
  2:{ destruct He as (e & -> & Hc);
        [eexists; reflexivity | intros v Hv; now destruct v|].
      split; [discriminate | intros _; now exists e]. }
  destruct He as (r1 & ->);
    [eexists; reflexivity | intros v Hv; now destruct v|]. cbn [obind].
  destruct (entries_ok "projects" d); cbn [andb].
  2:{ destruct Hp as (e & -> & Hc);
        [eexists; reflexivity | intros v Hv; now destruct v|].
      split; [discriminate | intros _; now exists e]. }
  destruct Hp as (r2 & ->);
    [eexists; reflexivity | intros v Hv; now destruct v|]. cbn [obind].
  destruct (entries_ok "education" d); cbn [andb].
  2:{ destruct Hu as (e & -> & Hc);
        [eexists; reflexivity | intros v Hv; now destruct v|].
      split; [discriminate | intros _; now exists e]. }
  destruct Hu as (r3 & ->);
    [eexists; reflexivity | intros v Hv; now destruct v|]. cbn [obind].
  destruct (section_ok "skills" d); cbn [obind];
    [|split; [discriminate | apply Hattr]].
  split; [intros _; eexists; reflexivity | discriminate].
Qed.

Lemma from_dict_faults (d : pydict) (cv_text : str) (e : exn) :
  CVData.from_dict d cv_text = Raise e ->
  exn_cls e = AttributeError \/ exn_cls e = TypeError.
Proof.
  intros H. destruct (from_dict_by_shape d cv_text) as [Hok Hbad].
  destruct (well_shaped d).
  - destruct (Hok eq_refl) as [cv Hcv]. congruence.
  - destruct (Hbad eq_refl) as (e' & He' & Hc). congruence.
Qed.

(** X4. [from_dict] returns exactly on the objects of the expected shape:
    every section that is present is an object and every list of entries
    that is present yields objects only. On any other object it raises
    [AttributeError] or [TypeError], for instance when the model wrote
    [null] for a section. *)
Theorem from_dict_returns_iff_well_shaped :
  forall (d : pydict) (cv_text : str),
    ((exists cv, CVData.from_dict d cv_text = Ret cv) <-> well_shaped d = true) /\
    (forall e, CVData.from_dict d cv_text = Raise e ->
               well_shaped d = false /\
               (exn_cls e = AttributeError \/ exn_cls e = TypeError)).
Proof.
  intros d cv_text. destruct (from_dict_by_shape d cv_text) as [Hok Hbad].
  split; [split|].
  - intros [cv Hcv]. destruct (well_shaped d); [reflexivity|].
    destruct (Hbad eq_refl) as (e & He & _). congruence.
  - exact Hok.
  - intros e He. split; [|exact (from_dict_faults d cv_text e He)].
    destruct (well_shaped d); [|reflexivity].
    destruct (Hok eq_refl) as [cv Hcv]. congruence.
Qed.

(** A section the model answered with [null], and entries given as a text. *)
Example from_dict_null_section :
  well_shaped [(py "personal", PNone)] = false /\
  CVData.from_dict [(py "personal", PNone)] [] = Raise no_get /\
  well_shaped [(py "experience", PStr (py "none"))] = false /\
  CVData.from_dict [(py "experience", PStr (py "none"))] [] = Raise no_get /\
  well_shaped [(py "experience", PInt 3)] = false /\
  CVData.from_dict [(py "experience", PInt 3)] []
  = Raise (mk_exn TypeError "object is not iterable").
Proof. vm_compute. repeat split. Qed.

(** X5. [from_dict] reads an object through its nine known keys only: two
    objects that agree on them give the same result, whatever else they
    hold and in whatever order. The [validation] block that the analysis
    prompt asks for never reaches the record. *)
Theorem from_dict_reads_known_keys_only :
  forall (d1 d2 : pydict) (cv_text : str),
    (forall k, In k known_keys -> dict_find k d1 = dict_find k d2) ->
    CVData.from_dict d1 cv_text = CVData.from_dict d2 cv_text.
Proof.
  intros d1 d2 cv_text H.
  unfold CVData.from_dict, CVData.if_key, dict_get.
  rewrite !(H (py _)) by (cbv [known_keys In]; tauto).
  reflexivity.
Qed.

Lemma from_dict_reads_known_keys_only_witness :
  (forall k, In k known_keys ->
     dict_find k [(py "validation", PDict [(py "source", PStr (py "CV text"))]);
                  (py "certifications", PList [PStr (py "AWS")]);
                  (py "personal", PDict [(py "name", PStr (py "Jane Doe"))])]
     = dict_find k [(py "personal", PDict [(py "name", PStr (py "Jane Doe"))]);
                    (py "certifications", PList [PStr (py "AWS")])]) /\
  CVData.from_dict [(py "validation", PDict [(py "source", PStr (py "CV text"))]);
                    (py "certifications", PList [PStr (py "AWS")]);
                    (py "personal", PDict [(py "name", PStr (py "Jane Doe"))])] (py "cv")
  = CVData.from_dict [(py "personal", PDict [(py "name", PStr (py "Jane Doe"))]);
                      (py "certifications", PList [PStr (py "AWS")])] (py "cv").
Proof.
  assert (H : forall k, In k known_keys ->
     dict_find k [(py "validation", PDict [(py "source", PStr (py "CV text"))]);
                  (py "certifications", PList [PStr (py "AWS")]);
                  (py "personal", PDict [(py "name", PStr (py "Jane Doe"))])]
     = dict_find k [(py "personal", PDict [(py "name", PStr (py "Jane Doe"))]);
                    (py "certifications", PList [PStr (py "AWS")])]).
  { intros k Hk. cbv [known_keys In] in Hk.
    repeat (destruct Hk as [<- | Hk]; [reflexivity|]). contradiction. }
  split; [exact H|].
  exact (from_dict_reads_known_keys_only _ _ (py "cv") H).
Defined.

(* ===================================================================== *)
(** * Further properties: the paths on which the request succeeds *)
(* ===================================================================== *)

Lemma extract_json_returns (json_loads : str -> outcome pyval) (text : str) :
  (forall s e, json_loads s = Raise e -> is_JSONDecodeError e = true) ->
  exists r, ResponseParser.extract_json json_loads text = Ret r.
Proof.
  intros Hf. unfold ResponseParser.extract_json. cbv zeta.
  set (t := re_sub false think_re [] text).
  assert (Hraw : exists r,
             match re_search false json_raw_re t with
             | Some m => ResponseParser.try_loads json_loads (group0 t m) (Ret None)
             | None => Ret None
             end = Ret r).
  { destruct (re_search false json_raw_re t) as [m|]; [|now eexists].
    rewrite (try_loads_spec json_loads Hf).
    destruct (json_loads (group0 t m)); now eexists. }
  destruct (re_search false json_fence_re t) as [m|]; [|exact Hraw].
  rewrite (try_loads_spec json_loads Hf).
  destruct (json_loads (group1 t m)); [now eexists | exact Hraw].
Qed.

Lemma unload_count_chat (model : str) (cs : list llm_call) (m : str)
      (msgs : list Message) (cfg : option LLMConfig) :
  unload_count model (cs ++ [CallChat m msgs cfg]) = unload_count model cs.
Proof.
  unfold unload_count. rewrite filter_app, length_app. cbn. lia.
Qed.

(** X6. When the request succeeds, [analyze] asks for the eviction of its
    model exactly when it returns a record, and the record carries the
    source text. On the other path the reply was no text, or held an
    object that [from_dict] cannot read: [analyze] lets [AttributeError] or
    [TypeError] through, not [AnalysisError], and the request is the only
    call made, so the model is not evicted. *)
Theorem analyze_evicts_only_when_it_returns :
  forall (json_loads : str -> outcome pyval) (W : Type) (llm : ILLMService.t W)
         (model : str) (temperature : Q) (cv_text : str) (w : world W)
         (r : LLMResponse) (s : W),
    (forall x e, json_loads x = Raise e -> is_JSONDecodeError e = true) ->
    ILLMService.chat llm (analysis_request cv_text) model
                     (analysis_config temperature) (svc_state w) = (r, s) ->
    success r = true ->
    let request := CallChat model (analysis_request cv_text)
                            (analysis_config temperature) in
    (exists cv w',
        DeepSeekAnalyzer.analyze json_loads llm model temperature cv_text w
        = (Ret cv, w') /\
        calls w' = calls w ++ [request; CallUnload model] /\
        CVData.original_cv_text cv = cv_text) \/
    (exists e w',
        DeepSeekAnalyzer.analyze json_loads llm model temperature cv_text w
        = (Raise e, w') /\
        (exn_cls e = AttributeError \/ exn_cls e = TypeError) /\
        calls w' = calls w ++ [request] /\
        unload_count model (calls w') = unload_count model (calls w)).
Proof.
  intros json_loads W llm model temperature cv_text w r s Hf Hchat Hs request.
  unfold DeepSeekAnalyzer.analyze, bind, call_chat, analysis_request,
    analysis_config in *.
  change (max_tokens LLMConfig_default) with 4096%Z.
  rewrite Hchat, Hs. cbn [negb]. unfold lift.
  destruct (ResponseParser.text_of (content r)) as [text|e0] eqn:Htext.
  2:{ right. exists e0. eexists. split; [reflexivity|]. cbn [calls]. split.
      - right. destruct (content r); try discriminate Htext;
          now injection Htext as <-.
      - split; [reflexivity | apply unload_count_chat]. }
  destruct (extract_json_returns json_loads text Hf) as [parsed ->].
  assert (Hret : forall cv,
    CVData.original_cv_text cv = cv_text ->
    exists cv0 w',
      (let (o, s0) :=
         call_unload_model llm model
           {| svc_state := s;
              calls := calls w ++
                [CallChat model
                   [{| role := py "user";
                       msg_content := DeepSeekAnalyzer._build_prompt cv_text |}]
                   (Some {| temperature := temperature; max_tokens := 4096;
                            context_window := 8192 |})] |} in
       match o with
       | Ret _ => ret cv s0
       | Raise e => (Raise e, s0)
       end) = (Ret cv0, w') /\
      calls w' = calls w ++ [request; CallUnload model] /\
      CVData.original_cv_text cv0 = cv_text).
  { intros cv Hcv. unfold call_unload_model, ret. cbn [svc_state calls].
    destruct (ILLMService.unload_model llm model s) as [b s'].
    exists cv. eexists. split; [reflexivity|]. cbn [calls].
    split; [now rewrite <- app_assoc | exact Hcv]. }
  destruct (DeepSeekAnalyzer.not_parsed parsed).
  - left. unfold ret at 1. apply Hret. reflexivity.
  - destruct (DeepSeekAnalyzer.from_parsed parsed cv_text) as [cv|e] eqn:Hp.
    + left. apply Hret.
      destruct parsed as [[| | | | | |d]|]; try discriminate.
      cbn [DeepSeekAnalyzer.from_parsed] in Hp.
      now destruct (from_dict_fields _ _ _ Hp) as (_ & _ & _ & Ht & _).
    + right. exists e. eexists. split; [reflexivity|]. cbn [calls]. split.
      * destruct parsed as [[| | | | | |d]|];
          try (injection Hp as <-; right; reflexivity).
        cbn [DeepSeekAnalyzer.from_parsed] in Hp.
        exact (from_dict_faults _ _ _ Hp).
      * split; [reflexivity | apply unload_count_chat].
Qed.

Lemma analyze_evicts_only_when_it_returns_witness :
  (forall x e, RefJson.loads x = Raise e -> is_JSONDecodeError e = true) /\
  ILLMService.chat (answering_llm null_section_reply) (analysis_request (py "cv"))
                   deepseek (analysis_config (3 # 10)%Q) (svc_state fresh)
  = (reply null_section_reply, tt) /\
  success (reply null_section_reply) = true /\
  ((exists cv w',
       DeepSeekAnalyzer.analyze RefJson.loads (answering_llm null_section_reply)
                                deepseek (3 # 10)%Q (py "cv") fresh
       = (Ret cv, w') /\
       calls w' = calls fresh ++ [CallChat deepseek (analysis_request (py "cv"))
                                           (analysis_config (3 # 10)%Q);
                                  CallUnload deepseek] /\
       CVData.original_cv_text cv = py "cv") \/
   (exists e w',
       DeepSeekAnalyzer.analyze RefJson.loads (answering_llm null_section_reply)
                                deepseek (3 # 10)%Q (py "cv") fresh
       = (Raise e, w') /\
       (exn_cls e = AttributeError \/ exn_cls e = TypeError) /\
       calls w' = calls fresh ++ [CallChat deepseek (analysis_request (py "cv"))
                                           (analysis_config (3 # 10)%Q)] /\
       unload_count deepseek (calls w') = unload_count deepseek (calls fresh))).
Proof.
  split; [exact refjson_faults|]. split; [reflexivity|]. split; [reflexivity|].
  exact (analyze_evicts_only_when_it_returns RefJson.loads unit
           (answering_llm null_section_reply) deepseek (3 # 10)%Q (py "cv") fresh
           (reply null_section_reply) tt refjson_faults eq_refl eq_refl).
Defined.

(** The second path is taken: a reply whose [personal] section is [null]
    makes [analyze] raise [AttributeError] after the request alone. *)
Example analyze_leaves_model_loaded :
  DeepSeekAnalyzer.analyze RefJson.loads (answering_llm null_section_reply)
                           deepseek (3 # 10)%Q (py "cv") fresh
  = (Raise no_get,
     {| svc_state := tt;
        calls := [CallChat deepseek (analysis_request (py "cv"))
                           (analysis_config (3 # 10)%Q)] |}).
Proof. vm_compute. reflexivity. Qed.

(** X7. [generate] after its request. When the request failed it asks
    for the eviction of its model and raises [GenerationError] with the
    error text of the service. When the request succeeded with a text it
    asks for the eviction and returns a page: on these paths the calls are
    the same two, the request and then the eviction. When the request
    succeeded with a content that is no text, [extract_html] raises
    [TypeError]: the request is the only call made and the model is not
    evicted. *)
Theorem generate_evicts_once_when_the_reply_is_a_text :
  forall (W : Type) (llm : ILLMService.t W) (json_dumps repr : pyval -> str)
         (model : str) (temperature : Q) (cv : CVData.t) (original : str)
         (w : world W),
    let prompt := _build_prompt json_dumps repr cv
                    (match original with
                     | [] => CVData.original_cv_text cv
                     | _ => original
                     end) in
    let messages := [{| role := py "user"; msg_content := prompt |}] in
    let config := Some {| temperature := temperature; max_tokens := 4096;
                          context_window := 8192 |} in
    let r := fst (ILLMService.chat llm messages model config (svc_state w)) in
    (success r = false ->
     calls (snd (generate json_dumps repr llm model temperature cv original w))
     = calls w ++ [CallChat model messages config; CallUnload model] /\
     fst (generate json_dumps repr llm model temperature cv original w)
     = Raise {| exn_cls := GenerationError;
                exn_str := py "LLM request failed: "
                           ++ str_of_optional (error r) |}) /\
    (forall text,
        success r = true -> content r = PStr text ->
        calls (snd (generate json_dumps repr llm model temperature cv original w))
        = calls w ++ [CallChat model messages config; CallUnload model] /\
        exists html,
          fst (generate json_dumps repr llm model temperature cv original w)
          = Ret html) /\
    (forall e,
        success r = true -> ResponseParser.text_of (content r) = Raise e ->
        exn_cls e = TypeError /\
        calls (snd (generate json_dumps repr llm model temperature cv original w))
        = calls w ++ [CallChat model messages config] /\
        fst (generate json_dumps repr llm model temperature cv original w)
        = Raise e).
Proof.
  intros W llm json_dumps repr model temperature cv original w.
  cbv zeta. unfold generate, bind, call_chat.
  destruct (ILLMService.chat llm _ model _ (svc_state w)) as [r s].
  cbn [fst]. unfold call_unload_model, ret, raise, lift.
  split; [|split].
  - intros Hs. rewrite Hs. cbn [negb svc_state calls].
    destruct (ILLMService.unload_model llm model s) as [b s']. cbn [fst snd calls].
    split; [now rewrite <- app_assoc | reflexivity].
  - intros text Hs Hc. rewrite Hs, Hc. cbn [negb ResponseParser.text_of svc_state calls].
    destruct (ILLMService.unload_model llm model s) as [b s']. cbn [fst snd calls].
    split; [now rewrite <- app_assoc | eexists; reflexivity].
  - intros e Hs Ht. rewrite Hs, Ht. cbn [negb fst snd calls].
    split; [|split; reflexivity].
    destruct (content r); try discriminate Ht; now injection Ht as <-.
Qed.

(** The third path is taken: a reply whose content is [None] makes
    [generate] raise [TypeError] after the request alone. *)
Example generate_leaves_model_loaded :
  exists e,
    generate (fun _ => []) (fun _ => []) null_llm (py "qwen2.5-coder:14b")
             (2 # 10)%Q jane [] fresh
    = (Raise e,
       {| svc_state := tt;
          calls := [CallChat (py "qwen2.5-coder:14b")
                             [{| role := py "user";
                                 msg_content :=
                                   _build_prompt (fun _ => []) (fun _ => []) jane [] |}]
                             (Some {| temperature := (2 # 10)%Q; max_tokens := 4096;
                                      context_window := 8192 |})] |}) /\
    exn_cls e = TypeError.
Proof. eexists. split; reflexivity. Qed.

Lemma lower_app (a b : str) : lower (a ++ b) = lower a ++ lower b.
Proof. unfold lower. apply flat_map_app. Qed.

Lemma substring_lower (x s : str) : substring x s -> substring (lower x) (lower s).
Proof.
  intros (a & c & ->). exists (lower a), (lower c). now rewrite !lower_app.
Qed.

Lemma substring_trans (x y s : str) : substring x y -> substring y s -> substring x s.
Proof.
  intros (a & c & ->) (a' & c' & ->). exists (a' ++ a), (c ++ c').
  now rewrite <- !app_assoc.
Qed.

Lemma marked_by_block (block s : str) :
  contains (py "aos-animate") (lower block) = true ->
  substring block s ->
  contains (py "aos-animate") (lower s) = true.
Proof.
  intros Hb Hs. apply contains_spec. apply contains_spec in Hb.
  exact (substring_trans _ _ _ Hb (substring_lower _ _ Hs)).
Qed.

(** Both blocks carry the marker, so one injection marks the page. *)
Lemma apply_fixes_marks (html : str) :
  contains (py "</head>") html = true \/ contains (py "</body>") html = true ->
  contains (py "aos-animate") (lower (apply_fixes html)) = true.
Proof.
  intros H. unfold apply_fixes.
  set (html1 := if contains (py "</head>") html
                then replace (py "</head>") (aos_css_fix ++ nl ++ py "</head>") html
                else html).
  destruct (contains (py "</body>") html1) eqn:Hb1.
  - apply (marked_by_block aos_js_fix); [vm_compute; reflexivity|].
    apply substring_app_l with (b := nl ++ py "</body>").
    apply replace_go_substring; [discriminate | exact Hb1].
  - subst html1. destruct (contains (py "</head>") html) eqn:Hh.
    + apply (marked_by_block aos_css_fix); [vm_compute; reflexivity|].
      apply substring_app_l with (b := nl ++ py "</head>").
      apply replace_go_substring; [discriminate | exact Hh].
    + destruct H as [H | H]; congruence.
Qed.

(** X8. The page [generate] returns carries the marker [aos-animate]
    unless it has neither a closing head tag nor a closing body tag, in
    which case it is the markup extracted from the reply, as it was. *)
Theorem generated_page_is_marked_or_has_no_closing_tag :
  forall (W : Type) (llm : ILLMService.t W) (json_dumps repr : pyval -> str)
         (model : str) (temperature : Q) (cv : CVData.t) (original : str)
         (w : world W) (page : str),
    fst (generate json_dumps repr llm model temperature cv original w) = Ret page ->
    contains (py "aos-animate") (lower page) = true \/
    (contains (py "</head>") page = false /\
     contains (py "</body>") page = false /\
     exists text,
       content
         (fst (ILLMService.chat llm
                 [{| role := py "user";
                     msg_content :=
                       _build_prompt json_dumps repr cv
                         (match original with
                          | [] => CVData.original_cv_text cv
                          | _ => original
                          end) |}]
                 model
                 (Some {| temperature := temperature; max_tokens := 4096;
                          context_window := 8192 |})
                 (svc_state w)))
       = PStr text /\
       page = ResponseParser.extract_html text).
Proof.
  intros W llm json_dumps repr model temperature cv original w page.
  unfold generate, bind, call_chat.
  destruct (ILLMService.chat llm _ model _ (svc_state w)) as [r s].
  unfold call_unload_model, ret, raise.
  unfold lift. cbn [fst].
  destruct (success r) eqn:Hs; cbn [negb svc_state calls].
  2:{ destruct (ILLMService.unload_model llm model s) as [b s']. discriminate. }
  destruct (content r) as [| | | |text| |]; cbn [ResponseParser.text_of];
    try discriminate.
  destruct (ILLMService.unload_model llm model s) as [b s']; cbn [fst].
  set (h := ResponseParser.extract_html text).
  destruct (contains (py "aos-animate") (lower h)) eqn:Hm; cbn [negb];
    intros Hp; injection Hp as <-; [now left|].
  destruct (contains (py "</head>") h) eqn:Hh;
    [left; apply apply_fixes_marks; now left|].
  destruct (contains (py "</body>") h) eqn:Hb;
    [left; apply apply_fixes_marks; now right|].
  right. unfold apply_fixes. rewrite Hh, Hb.
  split; [exact Hh|]. split; [exact Hb|]. exists text. split; reflexivity.
Qed.

Lemma generated_page_is_marked_or_has_no_closing_tag_witness :
  fst (generate (fun _ => []) (fun _ => []) (answering_llm unmarked_page)
                (py "qwen2.5-coder:14b") (2 # 10)%Q jane [] fresh)
  = Ret (apply_fixes unmarked_page) /\
  contains (py "aos-animate") (lower unmarked_page) = false /\
  contains (py "aos-animate") (lower (apply_fixes unmarked_page)) = true.
Proof.
  assert (H : fst (generate (fun _ => []) (fun _ => []) (answering_llm unmarked_page)
                            (py "qwen2.5-coder:14b") (2 # 10)%Q jane [] fresh)
              = Ret (apply_fixes unmarked_page)) by (vm_compute; reflexivity).
  split; [exact H|]. split; [vm_compute; reflexivity|].
  destruct (generated_page_is_marked_or_has_no_closing_tag unit
              (answering_llm unmarked_page) (fun _ => []) (fun _ => [])
              (py "qwen2.5-coder:14b") (2 # 10)%Q jane [] fresh
              (apply_fixes unmarked_page) H) as [Hm | (Hh & _)].
  - exact Hm.
  - vm_compute in Hh. discriminate Hh.
Defined.

(* ===================================================================== *)
(** * Further properties: a run in which every call returns *)
(* ===================================================================== *)

Section PipelineOutcomes.
Import CVPortfolioPipeline.
Variable W : Type.
Variable select_file : str -> list (str * str) -> W -> outcome (option str) * W.
Variable show_success : str -> str -> W -> outcome unit * W.
Variable show_error : str -> str -> W -> outcome unit * W.
Variable extract : str -> W -> outcome str * W.
Variable analyze : str -> W -> outcome CVData.t * W.
Variable generate : CVData.t -> W -> outcome str * W.
Variable save : str -> str -> str -> W -> outcome str * W.
Variable output_directory : str.
Variable json_dumps : pyval -> str.
Variable stem : str -> str.
Variable joinpath : str -> str -> str.
Variable now : W -> str.

Local Abbreviation the_run :=
  (run select_file show_success show_error extract analyze generate save
       output_directory json_dumps stem joinpath now).
Local Abbreviation the_stages := (stages json_dumps stem).
Local Abbreviation the_selection :=
  (select_file (py "Select Your CV (PDF)")
               [(py "PDF files", py "*.pdf"); (py "All files", py "*.*")]).

Ltac unfold_run :=
  cbv beta iota zeta delta
    [run run_body try_except bind ret _select_pdf _extract_text
     _analyze_cv _generate_portfolio _save_outputs _print_success
     _handle_error do_select_file do_extract do_analyze do_generate
     do_save do_show_success do_show_error get_now success_dialog stages];
  cbn [fst snd trace outside].

Ltac next_stage :=
  match goal with
  | |- context [select_file ?a ?b ?w] =>
      destruct (select_file a b w) as [[[?|]|?] ?] eqn:?
  | |- context [extract ?a ?w] =>
      destruct (extract a w) as [[?|?] ?] eqn:?
  | |- context [analyze ?a ?w] =>
      destruct (analyze a w) as [[?|?] ?] eqn:?
  | |- context [generate ?a ?w] =>
      destruct (generate a w) as [[?|?] ?] eqn:?
  | |- context [save ?a ?b ?c ?w] =>
      destruct (save a b c w) as [[?|?] ?] eqn:?
  | |- context [show_success ?a ?b ?w] =>
      destruct (show_success a b w) as [[?|?] ?] eqn:?
  | |- context [show_error ?a ?b ?w] =>
      destruct (show_error a b w) as [[?|?] ?] eqn:?
  | |- context [match strip ?x with _ => _ end] =>
      destruct (strip x) eqn:?
  | |- context [match ?x with [] => _ | _ :: _ => _ end] =>
      is_var x; destruct x
  end; unfold_run.

(** Run the pipeline along the outcomes that the hypotheses give. *)
Ltac follow :=
  unfold_run;
  repeat (match goal with
          | H : ?f = (_, _) |- context [?f] => rewrite H
          | H : strip ?t = [] |- context [strip ?t] => rewrite H
          | H : strip ?t <> [] |- context [strip ?t] =>
              destruct (strip t); [contradiction|]
          | H : ?x <> [] |- context [match ?x with [] => _ | _ :: _ => _ end] =>
              destruct x; [contradiction|]
          end; unfold_run);
  repeat rewrite <- app_assoc; cbn [app].

(** A run that has a result made every call, and its result is what the
    time-stamped save returned. *)
Lemma run_result (s : state W) (output_path : str) :
  fst (the_run s) = Ret (Some output_path) ->
  exists pdf_path cv_text cv_data html_content timestamp w,
    trace (snd (the_run s))
    = trace s ++ the_stages pdf_path cv_text cv_data html_content timestamp
      ++ [success_dialog joinpath output_directory output_path] /\
    fst (save html_content (stem pdf_path ++ py "_portfolio_" ++ timestamp)
              (py "html") w) = Ret output_path.
Proof.
  unfold_run. repeat next_stage; intros H; try discriminate H.
  injection H as <-. repeat rewrite <- app_assoc. cbn [app].
  do 5 eexists.
  match goal with
  | G : save _ (_ ++ _) _ ?w = _ |- _ => exists w; rewrite G
  end.
  split; reflexivity.
Qed.

(** X9. A run in which every call returns. When the extracted text is
    blank the run returns [None] after the extraction, and when the
    generated page is empty it returns [None] after the generation: in
    both cases no dialog is shown and nothing more is written. Otherwise the
    run makes eight calls in this order: select, extract, save the text as
    [cv_raw_text.txt], analyse that text, save the record as
    [cv_extracted_data.json], generate, save the page under
    [<stem>_portfolio_<timestamp>.html], save the same page as [index.html];
    then it shows the success dialog and returns the path that the
    time-stamped save returned. *)
Theorem run_when_every_call_returns :
  forall (s : state W) (p : str) (w1 : W),
    the_selection (outside s) = (Ret (Some p), w1) ->
    forall (t : str) (w2 : W),
      extract p w1 = (Ret t, w2) ->
      (strip t = [] ->
       the_run s = (Ret None, {| outside := w2;
                                 trace := trace s ++ [SelectFile; Extract p] |})) /\
      (strip t <> [] ->
       forall (q1 : str) (w3 : W),
         save t (py "cv_raw_text") (py "txt") w2 = (Ret q1, w3) ->
       forall (cv : CVData.t) (w4 : W),
         analyze t w3 = (Ret cv, w4) ->
       forall (q2 : str) (w5 : W),
         save (json_dumps (PDict (CVData.to_dict cv)))
              (py "cv_extracted_data") (py "json") w4 = (Ret q2, w5) ->
       forall (html : str) (w6 : W),
         generate cv w5 = (Ret html, w6) ->
         (html = [] ->
          the_run s
          = (Ret None, {| outside := w6;
                          trace := trace s ++ firstn 6 (the_stages p t cv [] []) |})) /\
         (html <> [] ->
          forall (out : str) (w7 : W),
            save html (stem p ++ py "_portfolio_" ++ now w6) (py "html") w6
            = (Ret out, w7) ->
          forall (q3 : str) (w8 : W),
            save html (py "index") (py "html") w7 = (Ret q3, w8) ->
          forall w9 : W,
            show_success (py "Success! " ++ [127881%N])
              (py "Your portfolio has been generated!" ++ nl ++ nl
               ++ py "Main file:" ++ nl ++ out ++ nl ++ nl
               ++ py "Quick access:" ++ nl
               ++ joinpath output_directory (py "index.html")) w8
            = (Ret tt, w9) ->
            the_run s
            = (Ret (Some out),
               {| outside := w9;
                  trace := trace s ++ the_stages p t cv html (now w6)
                           ++ [success_dialog joinpath output_directory out] |}))).
Proof.
  intros s p w1 Hsel t w2 Hext. split.
  - intros Hblank. now follow.
  - intros Ht q1 w3 Hraw cv w4 Han q2 w5 Hjson html w6 Hgen. split.
    + intros ->. now follow.
    + intros Hne out w7 Hout q3 w8 Hidx w9 Hshow. now follow.
Qed.
End PipelineOutcomes.

Lemma run_when_every_call_returns_witness :
  shelf_run empty_shelf
  = (Ret (Some (py "outputs/cv_portfolio_20240101_120000.html")),
     {| CVPortfolioPipeline.outside :=
          [(py "outputs/cv_raw_text.txt", py "Jane Doe, engineer");
           (py "outputs/cv_extracted_data.json", py "{}");
           (py "outputs/cv_portfolio_20240101_120000.html", unmarked_page);
           (py "outputs/index.html", unmarked_page)];
        CVPortfolioPipeline.trace :=
          CVPortfolioPipeline.trace empty_shelf
          ++ stages (fun _ => py "{}") (fun _ => py "cv") (py "cv.pdf")
                    (py "Jane Doe, engineer") jane unmarked_page (py "20240101_120000")
          ++ [success_dialog (fun a b => a ++ py "/" ++ b) (py "outputs")
                             (py "outputs/cv_portfolio_20240101_120000.html")] |}).
Proof.
  assert (Ht : strip (py "Jane Doe, engineer") <> []) by (vm_compute; discriminate).
  assert (Hp : unmarked_page <> []) by discriminate.
  exact (proj2
           (proj2
              (run_when_every_call_returns shelf
                 (fun _ _ w => (Ret (Some (py "cv.pdf")), w))
                 (fun _ _ w => (Ret tt, w)) (fun _ _ w => (Ret tt, w))
                 (fun _ w => (Ret (py "Jane Doe, engineer"), w))
                 (fun _ w => (Ret jane, w))
                 (fun _ w => (Ret unmarked_page, w))
                 (fun content filename extension =>
                    LocalFileService.save (fun _ w => (Ret tt, w))
                      (fun path text w => (Ret tt, w ++ [(path, text)]))
                      (fun a b => a ++ py "/" ++ b) (py "outputs")
                      content filename extension None)
                 (LocalFileService.output_directory (py "outputs"))
                 (fun _ => py "{}") (fun _ => py "cv") (fun a b => a ++ py "/" ++ b)
                 (fun _ => py "20240101_120000")
                 empty_shelf (py "cv.pdf") [] eq_refl
                 (py "Jane Doe, engineer") [] eq_refl)
              Ht
              (py "outputs/cv_raw_text.txt")
              [(py "outputs/cv_raw_text.txt", py "Jane Doe, engineer")] eq_refl
              jane
              [(py "outputs/cv_raw_text.txt", py "Jane Doe, engineer")] eq_refl
              (py "outputs/cv_extracted_data.json")
              [(py "outputs/cv_raw_text.txt", py "Jane Doe, engineer");
               (py "outputs/cv_extracted_data.json", py "{}")] eq_refl
              unmarked_page
              [(py "outputs/cv_raw_text.txt", py "Jane Doe, engineer");
               (py "outputs/cv_extracted_data.json", py "{}")] eq_refl)
           Hp
           (py "outputs/cv_portfolio_20240101_120000.html")
           [(py "outputs/cv_raw_text.txt", py "Jane Doe, engineer");
            (py "outputs/cv_extracted_data.json", py "{}");
            (py "outputs/cv_portfolio_20240101_120000.html", unmarked_page)] eq_refl
           (py "outputs/index.html")
           [(py "outputs/cv_raw_text.txt", py "Jane Doe, engineer");
            (py "outputs/cv_extracted_data.json", py "{}");
            (py "outputs/cv_portfolio_20240101_120000.html", unmarked_page);
            (py "outputs/index.html", unmarked_page)] eq_refl
           _ eq_refl).
Defined.

(* ===================================================================== *)
(** * Further properties: the gateway behind the analyzer *)
(* ===================================================================== *)

(** X10. [unload_model] and [is_available] return on every behaviour of
    the runtime and never raise. [unload_model] sends one request for the
    model with an empty prompt and [keep_alive] 0; it returns [True] exactly
    when that request returned, and pauses 2 seconds in that case only.
    [is_available] returns [True] exactly when [ollama.list] returned. *)
Theorem ollama_housekeeping_never_raises :
  forall (RT : Type) (rt : OllamaService.Runtime RT) (model : str) (w : RT),
    (exists b,
        OllamaService.unload_model rt model w = (Ret b, after_unload rt model w) /\
        (b = true <->
         exists r, fst (OllamaService.ollama_generate rt model []
                          (OllamaService.KeepAlive 0) w) = Ret r) /\
        (b = true ->
         after_unload rt model w
         = OllamaService.sleep rt 2
             (snd (OllamaService.ollama_generate rt model []
                     (OllamaService.KeepAlive 0) w))) /\
        (b = false ->
         after_unload rt model w
         = snd (OllamaService.ollama_generate rt model []
                  (OllamaService.KeepAlive 0) w))) /\
    (exists b,
        OllamaService.is_available rt w
        = (Ret b, snd (OllamaService.ollama_list rt w)) /\
        (b = true <-> fst (OllamaService.ollama_list rt w) = Ret tt)).
Proof.
  intros RT rt model w. split.
  - unfold OllamaService.unload_model, after_unload, try_except, bind,
      OllamaService.do_sleep, ret.
    destruct (OllamaService.ollama_generate rt model [] _ w) as [[r|e] w'];
      cbn [fst snd].
    + exists true. split; [reflexivity|]. split; [|split].
      * split; [intros _; now exists r | reflexivity].
      * reflexivity.
      * discriminate.
    + exists false. split; [reflexivity|]. split; [|split].
      * split; [discriminate | intros [r Hr]; discriminate].
      * discriminate.
      * reflexivity.
  - unfold OllamaService.is_available, try_except, bind, ret.
    destruct (OllamaService.ollama_list rt w) as [[[]|e] w']; cbn [fst snd].
    + exists true. split; [reflexivity|]. split; reflexivity.
    + exists false. split; [reflexivity|]. split; discriminate.
Qed.

(** The methods of [ollama_service] are the methods of [OllamaService]:
    none of them raises. *)
Lemma ollama_service_settled (RT : Type) (rt : OllamaService.Runtime RT)
      (messages : list Message) (model : str) (config : option LLMConfig) (w : RT) :
  OllamaService.chat rt messages model config w
  = (Ret (fst (ILLMService.chat (ollama_service rt) messages model config w)),
     snd (ILLMService.chat (ollama_service rt) messages model config w)) /\
  OllamaService.unload_model rt model w
  = (Ret (fst (ILLMService.unload_model (ollama_service rt) model w)),
     snd (ILLMService.unload_model (ollama_service rt) model w)).
Proof.
  cbn [ollama_service ILLMService.chat ILLMService.unload_model]. unfold settle.
  split.
  - unfold OllamaService.chat, try_except, bind, ret, of_outcome.
    destruct (OllamaService.ollama_chat rt model messages _ w) as [[r|e] w'];
      [now destruct (OllamaService.message_content r) | reflexivity].
  - unfold OllamaService.unload_model, try_except, bind, ret,
      OllamaService.do_sleep.
    now destruct (OllamaService.ollama_generate rt model [] _ w) as [[r|e] w'].
Qed.

Lemma unload_settled (RT : Type) (rt : OllamaService.Runtime RT) (model : str) (w : RT) :
  snd (ILLMService.unload_model (ollama_service rt) model w) = after_unload rt model w.
Proof.
  cbn [ollama_service ILLMService.unload_model].
  unfold settle, after_unload, OllamaService.unload_model, try_except, bind, ret,
    OllamaService.do_sleep.
  now destruct (OllamaService.ollama_generate rt model [] _ w) as [[r|e] w'].
Qed.

(** X11. Analysis over [OllamaService], when the runtime raises on the
    chat request (not running, model missing): [analyze] raises
    [AnalysisError] with the text ["LLM request failed: "] followed by the
    text of the runtime's exception, after asking the runtime to drop the
    model; whether that second request fails too makes no difference. *)
Theorem analysis_reports_runtime_failure :
  forall (RT : Type) (rt : OllamaService.Runtime RT)
         (json_loads : str -> outcome pyval) (model : str) (temperature : Q)
         (cv_text : str) (w : world RT) (e : exn) (w1 : RT),
    OllamaService.ollama_chat rt model (analysis_request cv_text)
      (OllamaService.Options temperature 8192 4096) (svc_state w) = (Raise e, w1) ->
    DeepSeekAnalyzer.analyze json_loads (ollama_service rt) model temperature cv_text w
    = (Raise {| exn_cls := AnalysisError;
                exn_str := py "LLM request failed: " ++ exn_str e |},
       {| svc_state := after_unload rt model w1;
          calls := calls w ++ [CallChat model (analysis_request cv_text)
                                        (analysis_config temperature);
                               CallUnload model] |}).
Proof.
  intros RT rt json_loads model temp cv_text w e w1 Hchat.
  unfold DeepSeekAnalyzer.analyze, bind, call_chat.
  change (max_tokens LLMConfig_default) with 4096%Z.
  assert (Hr : ILLMService.chat (ollama_service rt) (analysis_request cv_text) model
                 (analysis_config temp) (svc_state w)
               = ({| content := PStr []; model := model; success := false;
                     error := Some (exn_str e) |}, w1)).
  { cbn [ollama_service ILLMService.chat]. unfold settle, OllamaService.chat,
      try_except, bind, ret, analysis_config, OllamaService.or_default,
      OllamaService.options_of.
    cbn [temperature context_window max_tokens].
    now rewrite Hchat. }
  unfold analysis_request, analysis_config in Hr. rewrite Hr.
  cbn [success negb error str_of_optional].
  unfold call_unload_model, raise. cbn [svc_state calls].
  pose proof (unload_settled RT rt model w1) as Hu.
  destruct (ILLMService.unload_model (ollama_service rt) model w1) as [b s'].
  cbn [snd] in Hu. subst s'. now rewrite <- app_assoc.
Qed.

Lemma analysis_reports_runtime_failure_witness :
  OllamaService.ollama_chat refusing_runtime deepseek (analysis_request (py "cv"))
    (OllamaService.Options (3 # 10)%Q 8192 4096) (svc_state idle)
  = (Raise connection_refused, [py "chat"]) /\
  DeepSeekAnalyzer.analyze RefJson.loads (ollama_service refusing_runtime) deepseek
                           (3 # 10)%Q (py "cv") idle
  = (Raise {| exn_cls := AnalysisError;
              exn_str := py "LLM request failed: connection refused" |},
     {| svc_state := [py "chat"; py "generate"];
        calls := [CallChat deepseek (analysis_request (py "cv"))
                           (analysis_config (3 # 10)%Q);
                  CallUnload deepseek] |}).
Proof.
  split; [reflexivity|].
  exact (analysis_reports_runtime_failure (list str) refusing_runtime RefJson.loads
           deepseek (3 # 10)%Q (py "cv") idle connection_refused [py "chat"]
           eq_refl).
Defined.

(** What [chat] of [OllamaService] makes of a reply of the runtime. *)
Lemma chat_of_reply (RT : Type) (rt : OllamaService.Runtime RT)
      (model : str) (temp : Q) (cv_text : str) (s : RT) (reply : pydict) (w1 : RT) :
  OllamaService.ollama_chat rt model (analysis_request cv_text)
    (OllamaService.Options temp 8192 4096) s = (Ret reply, w1) ->
  ILLMService.chat (ollama_service rt) (analysis_request cv_text) model
                   (analysis_config temp) s
  = (match OllamaService.message_content reply with
     | Ret v => {| content := v; model := model; success := true; error := None |}
     | Raise e => {| content := PStr []; model := model; success := false;
                     error := Some (exn_str e) |}
     end, w1).
Proof.
  intros Hchat.
  cbn [ollama_service ILLMService.chat]. unfold settle, OllamaService.chat,
    try_except, bind, ret, of_outcome, analysis_config, OllamaService.or_default,
    OllamaService.options_of.
  cbn [temperature context_window max_tokens].
  rewrite Hchat. now destruct (OllamaService.message_content reply).
Qed.

(** Analysis over [OllamaService], by what [chat] reads in the reply of the
    runtime. *)
Lemma analysis_of_reply (RT : Type) (rt : OllamaService.Runtime RT)
      (json_loads : str -> outcome pyval) (model : str) (temperature : Q)
      (cv_text : str) (w : world RT) (reply : pydict) (w1 : RT) :
  OllamaService.ollama_chat rt model (analysis_request cv_text)
    (OllamaService.Options temperature 8192 4096) (svc_state w) = (Ret reply, w1) ->
  (OllamaService.message_content reply = Ret (PStr []) ->
   DeepSeekAnalyzer.analyze json_loads (ollama_service rt) model temperature cv_text w
   = (Ret (DeepSeekAnalyzer.raw_record [] cv_text),
      {| svc_state := after_unload rt model w1;
         calls := calls w ++ [CallChat model (analysis_request cv_text)
                                       (analysis_config temperature);
                              CallUnload model] |})) /\
  (forall v e,
      OllamaService.message_content reply = Ret v ->
      ResponseParser.text_of v = Raise e ->
      exn_cls e = TypeError /\
      DeepSeekAnalyzer.analyze json_loads (ollama_service rt) model temperature
                               cv_text w
      = (Raise e,
         {| svc_state := w1;
            calls := calls w ++ [CallChat model (analysis_request cv_text)
                                          (analysis_config temperature)] |})) /\
  (forall e,
      OllamaService.message_content reply = Raise e ->
      DeepSeekAnalyzer.analyze json_loads (ollama_service rt) model temperature
                               cv_text w
      = (Raise {| exn_cls := AnalysisError;
                  exn_str := py "LLM request failed: " ++ exn_str e |},
         {| svc_state := after_unload rt model w1;
            calls := calls w ++ [CallChat model (analysis_request cv_text)
                                          (analysis_config temperature);
                                 CallUnload model] |})).
Proof.
  rename temperature into temp. intros Hchat.
  pose proof (chat_of_reply RT rt model temp cv_text (svc_state w) reply w1 Hchat) as Hr.
  unfold analysis_request, analysis_config in Hr.
  pose proof (unload_settled RT rt model w1) as Hu.
  unfold DeepSeekAnalyzer.analyze, bind, call_chat.
  change (max_tokens LLMConfig_default) with 4096%Z.
  rewrite Hr. split; [|split].
  - intros ->. cbn [success negb content]. unfold lift. cbn [ResponseParser.text_of].
    change (ResponseParser.extract_json json_loads []) with (@Ret (option pyval) None).
    cbn [DeepSeekAnalyzer.not_parsed]. unfold ret at 1.
    unfold call_unload_model, ret. cbn [svc_state calls].
    destruct (ILLMService.unload_model (ollama_service rt) model w1) as [b s'].
    cbn [snd] in Hu. subst s'. now rewrite <- app_assoc.
  - intros v e -> Ht. cbn [success negb content]. unfold lift. rewrite Ht.
    split; [|reflexivity].
    destruct v; try discriminate Ht; now injection Ht as <-.
  - intros e ->. cbn [success negb error str_of_optional].
    unfold call_unload_model, raise. cbn [svc_state calls].
    destruct (ILLMService.unload_model (ollama_service rt) model w1) as [b s'].
    cbn [snd] in Hu. subst s'. now rewrite <- app_assoc.
Qed.

(** X12. Analysis over [OllamaService], on a reply of the runtime. When
    the reply holds no message, or a message without content or with an
    empty one, it counts as a success with empty content: [analyze] raises
    nothing and returns the record of a failed parse with an empty raw
    analysis, whatever the decoder, and the model is evicted. When the
    content of the message is no text ([None], say) the reply counts as a
    success all the same: [analyze] raises [TypeError] after the request
    alone, and the model is not evicted. When the message is no mapping,
    [chat] reports a failure, and [analyze] raises [AnalysisError] after the
    eviction. *)
Theorem analysis_of_reply_without_text :
  forall (RT : Type) (rt : OllamaService.Runtime RT)
         (json_loads : str -> outcome pyval) (model : str) (temperature : Q)
         (cv_text : str) (w : world RT) (reply : pydict) (w1 : RT),
    OllamaService.ollama_chat rt model (analysis_request cv_text)
      (OllamaService.Options temperature 8192 4096) (svc_state w) = (Ret reply, w1) ->
    (dict_find (py "message") reply = None \/
     (exists message,
         dict_find (py "message") reply = Some (PDict message) /\
         (dict_find (py "content") message = None \/
          dict_find (py "content") message = Some (PStr []))) ->
     DeepSeekAnalyzer.analyze json_loads (ollama_service rt) model temperature cv_text w
     = (Ret (DeepSeekAnalyzer.raw_record [] cv_text),
        {| svc_state := after_unload rt model w1;
           calls := calls w ++ [CallChat model (analysis_request cv_text)
                                         (analysis_config temperature);
                                CallUnload model] |})) /\
    (forall message v e,
        dict_find (py "message") reply = Some (PDict message) ->
        dict_find (py "content") message = Some v ->
        ResponseParser.text_of v = Raise e ->
        exn_cls e = TypeError /\
        DeepSeekAnalyzer.analyze json_loads (ollama_service rt) model temperature
                                 cv_text w
        = (Raise e,
           {| svc_state := w1;
              calls := calls w ++ [CallChat model (analysis_request cv_text)
                                            (analysis_config temperature)] |})) /\
    (forall v,
        dict_find (py "message") reply = Some v -> is_dict v = false ->
        exists msg,
          DeepSeekAnalyzer.analyze json_loads (ollama_service rt) model temperature
                                   cv_text w
          = (Raise {| exn_cls := AnalysisError;
                      exn_str := py "LLM request failed: " ++ msg |},
             {| svc_state := after_unload rt model w1;
                calls := calls w ++ [CallChat model (analysis_request cv_text)
                                              (analysis_config temperature);
                                     CallUnload model] |})).
Proof.
  intros RT rt json_loads model temp cv_text w reply w1 Hchat.
  destruct (analysis_of_reply RT rt json_loads model temp cv_text w reply w1 Hchat)
    as (Hempty & Hother & Hfail).
  split; [|split].
  - intros H. apply Hempty. unfold OllamaService.message_content, dict_get.
    destruct H as [Hm | (message & Hm & [Hc | Hc])]; rewrite Hm;
      cbn [CVData.as_dict obind]; unfold dict_get; try rewrite Hc; reflexivity.
  - intros message v e Hm Hc Ht. apply (Hother v e); [|exact Ht].
    unfold OllamaService.message_content, dict_get. rewrite Hm.
    cbn [CVData.as_dict obind]. unfold dict_get. now rewrite Hc.
  - intros v Hm Hv.
    assert (He : exists e, OllamaService.message_content reply = Raise e).
    { unfold OllamaService.message_content, dict_get. rewrite Hm.
      destruct v; try discriminate Hv; eexists; reflexivity. }
    destruct He as [e He]. exists (exn_str e). exact (Hfail e He).
Qed.

Lemma analysis_of_reply_without_text_witness :
  (OllamaService.ollama_chat silent_runtime deepseek (analysis_request (py "cv"))
     (OllamaService.Options (3 # 10)%Q 8192 4096) (svc_state idle)
   = (Ret [], [py "chat"]) /\
   DeepSeekAnalyzer.analyze RefJson.loads (ollama_service silent_runtime) deepseek
                            (3 # 10)%Q (py "cv") idle
   = (Ret (DeepSeekAnalyzer.raw_record [] (py "cv")),
      {| svc_state := [py "chat"; py "generate"; py "sleep"];
         calls := [CallChat deepseek (analysis_request (py "cv"))
                            (analysis_config (3 # 10)%Q);
                   CallUnload deepseek] |})) /\
  (OllamaService.ollama_chat null_runtime deepseek (analysis_request (py "cv"))
     (OllamaService.Options (3 # 10)%Q 8192 4096) (svc_state idle)
   = (Ret null_reply, [py "chat"]) /\
   dict_find (py "message") null_reply = Some (PDict [(py "content", PNone)]) /\
   DeepSeekAnalyzer.analyze RefJson.loads (ollama_service null_runtime) deepseek
                            (3 # 10)%Q (py "cv") idle
   = (Raise (mk_exn TypeError "expected string or bytes-like object"),
      {| svc_state := [py "chat"];
         calls := [CallChat deepseek (analysis_request (py "cv"))
                            (analysis_config (3 # 10)%Q)] |})).
Proof.
  split.
  - split; [reflexivity|].
    exact (proj1 (analysis_of_reply_without_text (list str) silent_runtime
                    RefJson.loads deepseek (3 # 10)%Q (py "cv") idle [] [py "chat"]
                    eq_refl) (or_introl eq_refl)).
  - split; [reflexivity|]. split; [reflexivity|].
    exact (proj2 (proj1 (proj2 (analysis_of_reply_without_text (list str) null_runtime
                    RefJson.loads deepseek (3 # 10)%Q (py "cv") idle null_reply
                    [py "chat"] eq_refl))
                    [(py "content", PNone)] PNone _ eq_refl eq_refl eq_refl)).
Defined.

(* ===================================================================== *)
(** * Further properties: the container *)
(* ===================================================================== *)

Section ContainerFacts.
Import DependencyContainer.
Variable RT : Type.
Variable rt : OllamaService.Runtime RT.
Variable json_loads : str -> outcome pyval.
Variable json_dumps : pyval -> str.
Variable repr : pyval -> str.
Variable IDocumentExtractor : Type.
Variable IFileService : Type.
Variable IUIService : Type.

Local Abbreviation container_t :=
  (DependencyContainer.t RT IDocumentExtractor IFileService IUIService).
Local Abbreviation get_llm :=
  (@llm_service RT rt IDocumentExtractor IFileService IUIService).
Local Abbreviation get_analyzer :=
  (@cv_analyzer RT rt json_loads IDocumentExtractor IFileService IUIService).
Local Abbreviation get_generator :=
  (@portfolio_generator RT rt json_dumps repr IDocumentExtractor IFileService
                        IUIService).
Local Abbreviation the_llm :=
  (@the_llm_service RT rt IDocumentExtractor IFileService IUIService).

(** The analyzer and the generator the container builds from a service
    and its configuration. *)
Local Abbreviation built_analyzer llm c :=
  (DeepSeekAnalyzer.analyze json_loads llm
     (LLMModelsConfig.brain_model (AppConfig.models (_config c)))
     (AppConfig.analysis_temperature (_config c))).
Local Abbreviation built_generator llm c :=
  (QwenPortfolioGenerator.generate json_dumps repr llm
     (LLMModelsConfig.coder_model (AppConfig.models (_config c)))
     (AppConfig.generation_temperature (_config c))).



(** X13. The container builds each service once and builds the analyzer
    and the generator on one and the same model service. Take the
    analyzer and then the generator from any container: asking again gives
    the same two and leaves the container as it is. One that was not set
    before is the analyzer on the first model with the analysis temperature
    of the configuration, or the generator on the second model with the
    generation temperature, over the service that was set or else over
    [OllamaService]; the context window and the token limit of the
    configuration play no part. One that was set before is handed out as
    it is. *)
Theorem container_builds_once_on_one_service :
  forall c : container_t,
    let c1 := snd (cv_analyzer rt json_loads c) in
    let c2 := snd (portfolio_generator rt json_dumps repr c1) in
    let a := fst (cv_analyzer rt json_loads c) in
    let g := fst (portfolio_generator rt json_dumps repr c1) in
    cv_analyzer rt json_loads c2 = (a, c2) /\ portfolio_generator rt json_dumps repr c2 = (g, c2) /\
    _config c2 = _config c /\
    (_cv_analyzer c = None -> a = built_analyzer (the_llm_service rt c) c) /\
    (_portfolio_generator c = None -> g = built_generator (the_llm_service rt c) c) /\
    (_cv_analyzer c = None \/ _portfolio_generator c = None ->
     llm_service rt c2 = (the_llm_service rt c, c2)) /\
    (forall x, _cv_analyzer c = Some x -> a = x) /\
    (forall x, _portfolio_generator c = Some x -> g = x).
Proof.
  intros [cfg llm ex an ge fs ui]. cbv zeta.
  unfold cv_analyzer, portfolio_generator, llm_service, the_llm_service.
  cbn [_cv_analyzer _portfolio_generator _llm_service _config].
  destruct an as [a|], ge as [g|], llm as [l|]; cbn;
    repeat split; try discriminate; try (intros x Hx; now injection Hx);
    intros [H | H]; try discriminate; reflexivity.
Qed.

(** X14. [set_llm_service] drops the analyzer and the generator, also
    ones that were set by hand: an analyzer set before the service is
    replaced by one built on the new service, an analyzer set after it is
    kept. The other setters drop nothing. *)
Theorem set_llm_service_drops_what_was_built :
  forall (c : container_t) (service : ILLMService.t RT)
         (analyzer : ICVAnalyzer RT) (generator : IPortfolioGenerator RT),
    let late := set_llm_service service
                  (set_portfolio_generator generator (set_cv_analyzer analyzer c)) in
    let early := set_portfolio_generator generator
                   (set_cv_analyzer analyzer (set_llm_service service c)) in
    fst (cv_analyzer rt json_loads late) = built_analyzer service c /\
    fst (portfolio_generator rt json_dumps repr late) = built_generator service c /\
    fst (llm_service rt late) = service /\
    fst (cv_analyzer rt json_loads early) = analyzer /\
    fst (portfolio_generator rt json_dumps repr early) = generator /\
    fst (llm_service rt early) = service /\
    (forall (e : IDocumentExtractor) (f : IFileService) (u : IUIService),
        let c' := set_ui_service u (set_file_service f (set_document_extractor e early)) in
        fst (cv_analyzer rt json_loads c') = analyzer /\ fst (portfolio_generator rt json_dumps repr c') = generator /\
        fst (llm_service rt c') = service).
Proof.
  intros [cfg llm ex an ge fs ui] service analyzer generator. cbv zeta.
  split; [reflexivity|]. split; [reflexivity|]. split; [reflexivity|].
  split; [reflexivity|]. split; [reflexivity|]. split; [reflexivity|].
  intros e f u. split; [reflexivity|]. split; reflexivity.
Qed.
End ContainerFacts.

(* ===================================================================== *)
(** * Further properties: one model at a time *)
(* ===================================================================== *)




Section PipelineView.
Import CVPortfolioPipeline.
Variable W : Type.
Variable select_file : str -> list (str * str) -> W -> outcome (option str) * W.
Variable show_success : str -> str -> W -> outcome unit * W.
Variable show_error : str -> str -> W -> outcome unit * W.
Variable extract : str -> W -> outcome str * W.
Variable analyze : str -> W -> outcome CVData.t * W.
Variable generate : CVData.t -> W -> outcome str * W.
Variable save : str -> str -> str -> W -> outcome str * W.
Variable output_directory : str.
Variable json_dumps : pyval -> str.
Variable stem : str -> str.
Variable joinpath : str -> str -> str.
Variable now : W -> str.

(** A part of the world that only the analysis and the generation can
    change. *)
Variable V : Type.
Variable view : W -> V.
Hypothesis select_file_view :
  forall a b w, view (snd (select_file a b w)) = view w.
Hypothesis show_success_view :
  forall a b w, view (snd (show_success a b w)) = view w.
Hypothesis show_error_view :
  forall a b w, view (snd (show_error a b w)) = view w.
Hypothesis extract_view : forall p w, view (snd (extract p w)) = view w.
Hypothesis save_view : forall a b c w, view (snd (save a b c w)) = view w.

Local Abbreviation the_run :=
  (run select_file show_success show_error extract analyze generate save
       output_directory json_dumps stem joinpath now).

Ltac unfold_run :=
  cbv beta iota zeta delta
    [run run_body try_except bind ret _select_pdf _extract_text
     _analyze_cv _generate_portfolio _save_outputs _print_success
     _handle_error do_select_file do_extract do_analyze do_generate
     do_save do_show_success do_show_error get_now];
  cbn [fst snd trace outside].

Ltac next_stage :=
  match goal with
  | |- context [select_file ?a ?b ?w] =>
      let H := fresh "Hsel" in
      pose proof (select_file_view a b w) as H;
      destruct (select_file a b w) as [[[?|]|?] ?]; cbn [snd] in H
  | |- context [extract ?a ?w] =>
      let H := fresh "Hext" in
      pose proof (extract_view a w) as H;
      destruct (extract a w) as [[?|?] ?]; cbn [snd] in H
  | |- context [analyze ?a ?w] =>
      destruct (analyze a w) as [[?|?] ?] eqn:?
  | |- context [generate ?a ?w] =>
      destruct (generate a w) as [[?|?] ?] eqn:?
  | |- context [save ?a ?b ?c ?w] =>
      let H := fresh "Hsav" in
      pose proof (save_view a b c w) as H;
      destruct (save a b c w) as [[?|?] ?]; cbn [snd] in H
  | |- context [show_success ?a ?b ?w] =>
      let H := fresh "Hok" in
      pose proof (show_success_view a b w) as H;
      destruct (show_success a b w) as [[?|?] ?]; cbn [snd] in H
  | |- context [show_error ?a ?b ?w] =>
      let H := fresh "Herr" in
      pose proof (show_error_view a b w) as H;
      destruct (show_error a b w) as [[?|?] ?]; cbn [snd] in H
  | |- context [match strip ?x with _ => _ end] =>
      destruct (strip x) eqn:?
  | |- context [match ?x with [] => _ | _ :: _ => _ end] =>
      is_var x; destruct x
  end; unfold_run.

End PipelineView.

Section ApplicationFacts.
Import DependencyContainer.
Variable RT : Type.
Variable rt : OllamaService.Runtime RT.
Variable json_loads : str -> outcome pyval.
Variable json_dumps : pyval -> str.
Variable repr : pyval -> str.
Variable IDocumentExtractor : Type.
Variable IFileService : Type.
Variable IUIService : Type.
Variable O : Type.
Variable select_file : str -> list (str * str) -> O -> outcome (option str) * O.
Variable show_success : str -> str -> O -> outcome unit * O.
Variable show_error : str -> str -> O -> outcome unit * O.
Variable extract : str -> O -> outcome str * O.
Variable save : str -> str -> str -> O -> outcome str * O.
Variable output_directory : str.
Variable stem : str -> str.
Variable joinpath : str -> str -> str.
Variable now : O -> str.

Local Abbreviation world_t :=
  (app_world RT IDocumentExtractor IFileService IUIService O).
Local Abbreviation the_app_run :=
  (@app_run RT rt json_loads json_dumps repr IDocumentExtractor IFileService
            IUIService O select_file show_success show_error extract save
            output_directory stem joinpath now).
Local Abbreviation the_analyze :=
  (@app_analyze RT rt json_loads IDocumentExtractor IFileService IUIService O).
Local Abbreviation the_generate :=
  (@app_generate RT rt json_dumps repr IDocumentExtractor IFileService IUIService O).

(** The part of the world that holds the container and the model service. *)
Local Abbreviation models_view :=
  (fun w : world_t => (container w, model_side w)).




End ApplicationFacts.


(** The run of the example: all four requests, and a result. *)
Example desk_run_completes :
  fst (desk_run page_runtime desk)
  = Ret (Some (py "outputs/cv_portfolio_20240101_120000.html")) /\
  calls (model_side (CVPortfolioPipeline.outside (snd (desk_run page_runtime desk))))
  = model_requests (py "deepseek-r1:7b") (py "qwen2.5-coder:14b")
      (analysis_request (py "Jane Doe, engineer")) (analysis_config (3 # 10)%Q)
      [{| role := py "user";
          msg_content :=
            _build_prompt (fun _ => []) (fun _ => [])
              (DeepSeekAnalyzer.raw_record unmarked_page (py "Jane Doe, engineer"))
              (py "Jane Doe, engineer") |}]
      (Some {| temperature := (2 # 10)%Q; max_tokens := 4096;
               context_window := 8192 |}) /\
  svc_state (model_side (CVPortfolioPipeline.outside (snd (desk_run page_runtime desk))))
  = [py "chat"; py "generate"; py "sleep"; py "chat"; py "generate"; py "sleep"].
Proof. vm_compute. repeat split. Qed.

(** A run that stops after the third request: the second model answers
    with a message whose content is [None], the generation raises
    [TypeError], the run shows the error and ends without a result, and the
    second model was not asked to unload. *)
Example desk_run_leaves_coder_loaded :
  fst (desk_run fickle_runtime desk) = Ret None /\
  calls (model_side (CVPortfolioPipeline.outside (snd (desk_run fickle_runtime desk))))
  = firstn 3
      (model_requests (py "deepseek-r1:7b") (py "qwen2.5-coder:14b")
         (analysis_request (py "Jane Doe, engineer")) (analysis_config (3 # 10)%Q)
         [{| role := py "user";
             msg_content :=
               _build_prompt (fun _ => []) (fun _ => [])
                 (DeepSeekAnalyzer.raw_record unmarked_page (py "Jane Doe, engineer"))
                 (py "Jane Doe, engineer") |}]
         (Some {| temperature := (2 # 10)%Q; max_tokens := 4096;
                  context_window := 8192 |})) /\
  svc_state (model_side (CVPortfolioPipeline.outside (snd (desk_run fickle_runtime desk))))
  = [py "chat"; py "generate"; py "sleep"; py "chat"] /\
  last (CVPortfolioPipeline.trace (snd (desk_run fickle_runtime desk)))
       CVPortfolioPipeline.SelectFile
  = error_dialog (mk_exn TypeError "expected string or bytes-like object").
Proof. vm_compute. repeat split. Qed.

(* ===================================================================== *)
(** * Further properties: a document without text *)
(* ===================================================================== *)

Lemma lstrip_blank (s : str) : lstrip s = [] <-> forallb is_space s = true.
Proof.
  induction s as [|c s IH]; [now split|].
  cbn [lstrip forallb]. destruct (is_space c); cbn [andb]; [exact IH|].
  split; discriminate.
Qed.

Lemma strip_blank (s : str) : strip s = [] <-> forallb is_space s = true.
Proof.
  unfold strip, rstrip. split.
  - intros H. destruct (lstrip s) as [|c r] eqn:Hl; [now apply lstrip_blank|].
    exfalso.
    assert (Hr : lstrip (rev (c :: r)) = []).
    { apply (f_equal (@rev char)) in H. rewrite rev_involutive in H. exact H. }
    apply lstrip_blank in Hr. rewrite forallb_forall in Hr.
    assert (Hc : is_space c = true) by (apply Hr, in_rev; rewrite rev_involutive; now left).
    clear - Hl Hc. induction s as [|x s IH]; [discriminate|].
    cbn [lstrip] in Hl. destruct (is_space x) eqn:Hx; [now apply IH|].
    injection Hl as -> _. congruence.
  - intros H. apply lstrip_blank in H. now rewrite H.
Qed.

Lemma forallb_space_app (a b : str) :
  forallb is_space (a ++ b) = forallb is_space a && forallb is_space b.
Proof. apply forallb_app. Qed.

Lemma join_blank (l : list str) :
  forallb is_space (join (nl ++ nl) l) = forallb (forallb is_space) l.
Proof.
  induction l as [|x l IH]; [reflexivity|].
  cbn [join forallb]. destruct l as [|y l].
  - now rewrite andb_true_r.
  - rewrite !forallb_space_app, IH. reflexivity.
Qed.

Lemma page_texts_blank (pages : list (option str)) :
  forallb (forallb is_space) (PDFExtractor.page_texts pages)
  = forallb blank_page pages.
Proof.
  induction pages as [|[[|c t]|] pages IH]; cbn [PDFExtractor.page_texts forallb blank_page];
    [reflexivity | exact IH | now rewrite IH | exact IH].
Qed.

Section ScannedDocument.
Import CVPortfolioPipeline.
Variable W : Type.
Variable select_file : str -> list (str * str) -> W -> outcome (option str) * W.
Variable show_success : str -> str -> W -> outcome unit * W.
Variable show_error : str -> str -> W -> outcome unit * W.
Variable analyze : str -> W -> outcome CVData.t * W.
Variable generate : CVData.t -> W -> outcome str * W.
Variable save : str -> str -> str -> W -> outcome str * W.
Variable output_directory : str.
Variable json_dumps : pyval -> str.
Variable stem : str -> str.
Variable joinpath : str -> str -> str.
Variable now : W -> str.
Variable path_exists : str -> W -> bool.
Variable suffix : str -> str.
Variable pdf_pages : str -> W -> outcome (list (option str)) * W.

Local Abbreviation the_extract := (PDFExtractor.extract path_exists suffix pdf_pages).
Local Abbreviation the_run :=
  (run select_file show_success show_error the_extract analyze generate save
       output_directory json_dumps stem joinpath now).

Ltac unfold_run :=
  cbv beta iota zeta delta
    [run run_body try_except bind ret _select_pdf _extract_text
     _analyze_cv _generate_portfolio _save_outputs _print_success
     _handle_error do_select_file do_extract do_analyze do_generate
     do_save do_show_success do_show_error get_now];
  cbn [fst snd trace outside].

Ltac next_stage :=
  match goal with
  | |- context [analyze ?a ?w] =>
      destruct (analyze a w) as [[?|?] ?]
  | |- context [generate ?a ?w] =>
      destruct (generate a w) as [[?|?] ?]
  | |- context [save ?a ?b ?c ?w] =>
      destruct (save a b c w) as [[?|?] ?]
  | |- context [show_success ?a ?b ?w] =>
      destruct (show_success a b w) as [[?|?] ?]
  | |- context [show_error ?a ?b ?w] =>
      destruct (show_error a b w) as [[?|?] ?]
  | |- context [match ?x with [] => _ | _ :: _ => _ end] =>
      is_var x; destruct x
  end; unfold_run.

(** X16. The pipeline over [PDFExtractor], on a selected file that
    exists and has the suffix [.pdf] in any case. The extracted text is the
    texts of the pages that have one, two line feeds between them. When no
    page has visible text (a scanned document), the run ends after the
    extraction: it returns [None], shows no dialog and writes no file.
    Otherwise the next call writes that text to [cv_raw_text.txt]. *)
Theorem scanned_document_ends_the_run_silently :
  forall (s : state W) (file_path : str) (w1 : W) (pages : list (option str)) (w2 : W),
    select_file (py "Select Your CV (PDF)")
                [(py "PDF files", py "*.pdf"); (py "All files", py "*.*")]
                (outside s) = (Ret (Some file_path), w1) ->
    path_exists file_path w1 = true ->
    PDFExtractor.supports suffix file_path = true ->
    pdf_pages file_path w1 = (Ret pages, w2) ->
    let text := join (nl ++ nl) (PDFExtractor.page_texts pages) in
    the_extract file_path w1 = (Ret text, w2) /\
    (forallb blank_page pages = true ->
     the_run s = (Ret None, {| outside := w2;
                               trace := trace s ++ [SelectFile; Extract file_path] |})) /\
    (forallb blank_page pages = false ->
     exists tr,
       trace (snd (the_run s))
       = trace s ++ [SelectFile; Extract file_path;
                     Save text (py "cv_raw_text") (py "txt")] ++ tr).
Proof.
  intros s file_path w1 pages w2 Hsel Hex Hsuf Hpages text.
  assert (Hext : the_extract file_path w1 = (Ret text, w2)).
  { unfold PDFExtractor.extract, bind, ret.
    rewrite Hex, Hsuf, Hpages. reflexivity. }
  assert (Hblank : (strip text = [] <-> forallb blank_page pages = true)).
  { rewrite strip_blank. unfold text. now rewrite join_blank, page_texts_blank. }
  split; [exact Hext|]. split.
  - intros Hb. apply Hblank in Hb.
    cbv beta iota zeta delta
      [run run_body try_except bind ret _select_pdf _extract_text do_select_file
       do_extract].
    rewrite Hsel. cbn [fst snd trace outside]. rewrite Hext, Hb.
    now rewrite <- app_assoc.
  - intros Hb.
    assert (Hne : strip text <> []).
    { intros H. apply Hblank in H. congruence. }
    cbv beta iota zeta delta
      [run run_body try_except bind ret _select_pdf _extract_text do_select_file
       do_extract].
    rewrite Hsel. cbn [fst snd trace outside]. rewrite Hext.
    destruct (strip text) as [|c r]; [contradiction|].
    unfold_run.
    repeat next_stage; repeat rewrite <- app_assoc; cbn [app];
      eexists; reflexivity.
Qed.
End ScannedDocument.

Lemma scanned_document_ends_the_run_silently_witness :
  PDFExtractor.supports (fun _ => py ".PDF") (py "scan.PDF") = true /\
  forallb blank_page scanned_pages = true /\
  scanner_run at_start
  = (Ret None,
     {| CVPortfolioPipeline.outside := tt;
        CVPortfolioPipeline.trace :=
          [CVPortfolioPipeline.SelectFile;
           CVPortfolioPipeline.Extract (py "scan.PDF")] |}).
Proof.
  split; [reflexivity|]. split; [reflexivity|].
  exact (proj1 (proj2
    (scanned_document_ends_the_run_silently unit
       (fun _ _ w => (Ret (Some (py "scan.PDF")), w))
       (fun _ _ w => (Ret tt, w)) (fun _ _ w => (Ret tt, w))
       (fun _ w => (Ret CVData.default, w))
       (fun _ w => (Ret unmarked_page, w))
       (fun _ filename extension w =>
          (Ret (py "outputs/" ++ filename ++ py "." ++ extension), w))
       (py "outputs") (fun _ => []) (fun _ => py "scan")
       (fun a b => a ++ py "/" ++ b) (fun _ => py "20240101_120000")
       (fun _ _ => true) (fun _ => py ".PDF") (fun _ w => (Ret scanned_pages, w))
       at_start (py "scan.PDF") tt scanned_pages tt
       eq_refl eq_refl eq_refl eq_refl)) eq_refl).
Defined.

(* ===================================================================== *)
(** * Further properties: the files a run names *)
(* ===================================================================== *)

Section FileServiceFacts.
Import CVPortfolioPipeline.
Variable W : Type.
Variable select_file : str -> list (str * str) -> W -> outcome (option str) * W.
Variable show_success : str -> str -> W -> outcome unit * W.
Variable show_error : str -> str -> W -> outcome unit * W.
Variable extract : str -> W -> outcome str * W.
Variable analyze : str -> W -> outcome CVData.t * W.
Variable generate : CVData.t -> W -> outcome str * W.
Variable json_dumps : pyval -> str.
Variable stem : str -> str.
Variable joinpath : str -> str -> str.
Variable now : W -> str.
Variable mkdir : str -> W -> outcome unit * W.
Variable write_text : str -> str -> W -> outcome unit * W.
Variable output_dir : str.

Local Abbreviation the_save :=
  (fun content filename extension =>
     LocalFileService.save mkdir write_text joinpath output_dir
                           content filename extension None).
Local Abbreviation the_run :=
  (run select_file show_success show_error extract analyze generate the_save
       (LocalFileService.output_directory output_dir)
       json_dumps stem joinpath now).

(** Where [save] writes, and what it returns when it returns. *)
Lemma save_returns_its_path (content filename extension : str) (w : W) (path : str) :
  fst (the_save content filename extension w) = Ret path ->
  path = joinpath output_dir (filename ++ py "." ++ extension) /\
  exists w1,
    mkdir output_dir w = (Ret tt, w1) /\
    the_save content filename extension w
    = (Ret path, snd (write_text path content w1)).
Proof.
  unfold LocalFileService.save, LocalFileService.ensure_directory, bind, ret.
  destruct (mkdir output_dir w) as [[[]|e] w1]; [|discriminate].
  set (p := joinpath output_dir (filename ++ py "." ++ extension)).
  destruct (write_text p content w1) as [[[]|e] w2] eqn:Hw; [|discriminate].
  cbn [fst snd]. intros H. injection H as <-.
  split; [reflexivity|]. exists w1. split; [reflexivity|]. now rewrite Hw.
Qed.

(** X17. The pipeline over [LocalFileService]: the path a run returns is
    the output directory joined with [<stem>_portfolio_<timestamp>.html],
    for the stem of the selected file. The run wrote the page there and, as
    its last call before the success dialog, under the name [index] with the
    extension [html]; a save under that name returns the output directory
    joined with [index.html], which is the second path the dialog shows. *)
Theorem run_returns_the_page_it_wrote :
  forall (s : state W) (output_path : str),
    fst (the_run s) = Ret (Some output_path) ->
    exists pdf_path cv_text cv_data html_content timestamp,
      output_path
      = joinpath output_dir
          (stem pdf_path ++ py "_portfolio_" ++ timestamp ++ py ".html") /\
      trace (snd (the_run s))
      = trace s ++ stages json_dumps stem pdf_path cv_text cv_data html_content timestamp
        ++ [success_dialog joinpath output_dir output_path] /\
      (exists w w1,
          mkdir output_dir w = (Ret tt, w1) /\
          the_save html_content (stem pdf_path ++ py "_portfolio_" ++ timestamp)
                   (py "html") w
          = (Ret output_path, snd (write_text output_path html_content w1))) /\
      (forall w path,
          fst (the_save html_content (py "index") (py "html") w) = Ret path ->
          path = joinpath output_dir (py "index.html")).
Proof.
  intros s output_path H.
  destruct (run_result W select_file show_success show_error extract analyze
              generate the_save (LocalFileService.output_directory output_dir)
              json_dumps stem joinpath now s output_path H)
    as (pdf_path & cv_text & cv_data & html & ts & w & Htr & Hsave).
  exists pdf_path, cv_text, cv_data, html, ts.
  destruct (save_returns_its_path _ _ _ _ _ Hsave) as (Hp & w1 & Hmk & Hs).
  split; [|split; [|split]].
  - rewrite Hp. now rewrite <- !app_assoc.
  - exact Htr.
  - now exists w, w1.
  - intros w' path Hpath.
    now destruct (save_returns_its_path _ _ _ _ _ Hpath) as (-> & _).
Qed.
End FileServiceFacts.

Lemma run_returns_the_page_it_wrote_witness :
  fst (shelf_run empty_shelf)
  = Ret (Some (py "outputs/cv_portfolio_20240101_120000.html")) /\
  exists pdf_path timestamp,
    py "outputs/cv_portfolio_20240101_120000.html"
    = py "outputs" ++ py "/"
      ++ (fun _ : str => py "cv") pdf_path ++ py "_portfolio_" ++ timestamp ++ py ".html".
Proof.
  assert (H : fst (shelf_run empty_shelf)
              = Ret (Some (py "outputs/cv_portfolio_20240101_120000.html")))
    by (vm_compute; reflexivity).
  split; [exact H|].
  destruct (run_returns_the_page_it_wrote shelf
              (fun _ _ w => (Ret (Some (py "cv.pdf")), w))
              (fun _ _ w => (Ret tt, w)) (fun _ _ w => (Ret tt, w))
              (fun _ w => (Ret (py "Jane Doe, engineer"), w))
              (fun _ w => (Ret jane, w))
              (fun _ w => (Ret unmarked_page, w))
              (fun _ => py "{}") (fun _ => py "cv") (fun a b => a ++ py "/" ++ b)
              (fun _ => py "20240101_120000")
              (fun _ w => (Ret tt, w))
              (fun path text w => (Ret tt, w ++ [(path, text)]))
              (py "outputs") empty_shelf
              (py "outputs/cv_portfolio_20240101_120000.html") H)
    as (pdf_path & _ & _ & _ & timestamp & Hp & _).
  exists pdf_path, timestamp. exact Hp.
Defined.

(** The files of the run of the example, as written: the text, the
    record, and the page twice. *)
Example shelf_after_run :
  map fst (CVPortfolioPipeline.outside (snd (shelf_run empty_shelf)))
  = [py "outputs/cv_raw_text.txt"; py "outputs/cv_extracted_data.json";
     py "outputs/cv_portfolio_20240101_120000.html"; py "outputs/index.html"] /\
  map snd (CVPortfolioPipeline.outside (snd (shelf_run empty_shelf)))
  = [py "Jane Doe, engineer"; py "{}"; unmarked_page; unmarked_page].
Proof. vm_compute. split; reflexivity. Qed.

(* ===================================================================== *)
(** * Further properties: what the markup extraction returns *)
(* ===================================================================== *)

Lemma lstrip_suffix (s : str) : exists a, s = a ++ lstrip s.
Proof.
  induction s as [|c s [a IH]]; [now exists []|].
  cbn [lstrip]. destruct (is_space c).
  - exists (c :: a). cbn [app]. now rewrite <- IH.
  - now exists [].
Qed.

Lemma rstrip_prefix (s : str) : exists b, s = rstrip s ++ b.
Proof.
  unfold rstrip. destruct (lstrip_suffix (rev s)) as [a Ha].
  exists (rev a). rewrite <- rev_app_distr, <- Ha. now rewrite rev_involutive.
Qed.

Lemma strip_substring (s : str) : substring (strip s) s.
Proof.
  unfold strip. destruct (lstrip_suffix s) as [a Ha].
  destruct (rstrip_prefix (lstrip s)) as [b Hb].
  exists a, b. now rewrite <- Hb.
Qed.

Lemma lstrip_idem (s : str) : lstrip (lstrip s) = lstrip s.
Proof.
  induction s as [|c s IH]; [reflexivity|].
  cbn [lstrip]. destruct (is_space c) eqn:Hc; [exact IH|].
  cbn [lstrip]. now rewrite Hc.
Qed.

Lemma lstrip_app (a b : str) :
  lstrip (a ++ b) = if forallb is_space a then lstrip b else lstrip a ++ b.
Proof.
  induction a as [|c a IH]; [reflexivity|].
  cbn [app lstrip forallb]. destruct (is_space c); [exact IH | reflexivity].
Qed.

Lemma forallb_rev (f : char -> bool) (s : str) : forallb f (rev s) = forallb f s.
Proof.
  induction s as [|c s IH]; [reflexivity|].
  cbn [rev forallb]. rewrite forallb_app, IH. cbn [forallb].
  rewrite andb_true_r. apply andb_comm.
Qed.

Lemma rstrip_cons (c : char) (s : str) :
  rstrip (c :: s) = if forallb is_space (c :: s) then [] else c :: rstrip s.
Proof.
  unfold rstrip. cbn [rev]. rewrite lstrip_app, forallb_rev. cbn [forallb lstrip].
  destruct (forallb is_space s) eqn:Hs.
  - assert (Hl : lstrip (rev s) = []) by (apply lstrip_blank; now rewrite forallb_rev).
    rewrite Hl. destruct (is_space c); reflexivity.
  - rewrite andb_false_r, rev_app_distr. reflexivity.
Qed.

Lemma strip_commutes (s : str) : lstrip (rstrip s) = rstrip (lstrip s).
Proof.
  induction s as [|c s IH]; [reflexivity|].
  rewrite rstrip_cons. cbn [lstrip forallb].
  destruct (is_space c) eqn:Hc; cbn [andb].
  - destruct (forallb is_space s) eqn:Hs.
    + apply lstrip_blank in Hs. rewrite Hs. reflexivity.
    + cbn [lstrip]. now rewrite Hc.
  - cbn [lstrip]. rewrite Hc. rewrite rstrip_cons. cbn [forallb]. now rewrite Hc.
Qed.

Lemma strip_idem (s : str) : strip (strip s) = strip s.
Proof.
  unfold strip. rewrite (strip_commutes (lstrip s)), lstrip_idem.
  unfold rstrip. now rewrite rev_involutive, lstrip_idem.
Qed.

Lemma slice_substring (s : str) (a b : nat) : substring (slice s a b) s.
Proof.
  unfold slice. exists (firstn a s), (skipn (b - a) (skipn a s)).
  now rewrite firstn_skipn, firstn_skipn.
Qed.

Lemma group1_substring (s : str) (m : rmatch) : substring (group1 s m) s.
Proof.
  unfold group1. destruct (m_marks m) as [|a [|b l]];
    try (exists [], s; reflexivity). apply slice_substring.
Qed.

(** X18. [extract_html] returns a part of the text it is given, with no
    blank at either end: it adds nothing, and trimming its result again
    changes nothing. *)
Theorem extract_html_returns_a_trimmed_part :
  forall text : str,
    substring (ResponseParser.extract_html text) text /\
    strip (ResponseParser.extract_html text) = ResponseParser.extract_html text /\
    length (ResponseParser.extract_html text) <= length text.
Proof.
  intros text.
  assert (H : exists x, substring x text /\ ResponseParser.extract_html text = strip x).
  { unfold ResponseParser.extract_html.
    destruct (re_search true html_fence_re text) as [m|].
    - exists (group1 text m). split; [apply group1_substring | reflexivity].
    - destruct (re_search true html_raw_re text) as [m|].
      + exists (group1 text m). split; [apply group1_substring | reflexivity].
      + exists text. split; [now exists [], [] ; rewrite app_nil_r | reflexivity]. }
  destruct H as (x & Hx & ->).
  assert (Hs : substring (strip x) text)
    by exact (substring_trans _ _ _ (strip_substring x) Hx).
  split; [exact Hs|]. split; [apply strip_idem|].
  destruct Hs as (a & c & ->). rewrite !length_app. lia.
Qed.
